(** * kcgi-framework: the session gateway of [main.c]

    A shallow embedding of the CGI program of [src/main.c]: the user and
    session tables behind the seven prepared statements, the [db_*]
    functions over them, the page handlers and the authorisation step of
    [main].

    One run of the program serves one request.  The run is a function of
    a [world]: the database, the response written so far, the log, and
    what the run reads from its surroundings (clock, random source).
    A run ends with a value and a new world, or stops early ([Fault]). *)

From stdpp Require Import base decidable option numbers strings list pretty.

Local Open Scope Z_scope.

(** ** Declarations taken from kcgi and ksql *)

(** [enum khttp], the codes this program sends. *)
Inductive khttp :=
  | KHTTP_200 | KHTTP_400 | KHTTP_403 | KHTTP_404 | KHTTP_405 | KHTTP_500.

(** [enum kmethod]; [KMETHOD__MAX] is an unknown method. *)
Inductive kmethod :=
  | KMETHOD_ACL | KMETHOD_CONNECT | KMETHOD_COPY | KMETHOD_DELETE
  | KMETHOD_GET | KMETHOD_HEAD | KMETHOD_LOCK | KMETHOD_MKCALENDAR
  | KMETHOD_MKCOL | KMETHOD_MOVE | KMETHOD_OPTIONS | KMETHOD_POST
  | KMETHOD_PROPFIND | KMETHOD_PROPPATCH | KMETHOD_PUT | KMETHOD_REPORT
  | KMETHOD_TRACE | KMETHOD_UNLOCK | KMETHOD__MAX.

(** [enum kmime]; [KMIME__MAX] is an unknown suffix. *)
Inductive kmime :=
  | KMIME_APP_JAVASCRIPT | KMIME_APP_JSON | KMIME_APP_OCTET_STREAM
  | KMIME_IMAGE_GIF | KMIME_IMAGE_JPEG | KMIME_IMAGE_PNG
  | KMIME_IMAGE_SVG_XML | KMIME_TEXT_CALENDAR | KMIME_TEXT_CSS
  | KMIME_TEXT_CSV | KMIME_TEXT_HTML | KMIME_TEXT_JAVASCRIPT
  | KMIME_TEXT_PLAIN | KMIME_TEXT_XML | KMIME__MAX.

(** [enum kresp], the header names this program writes. *)
Inductive kresp := KRESP_STATUS | KRESP_CONTENT_TYPE | KRESP_SET_COOKIE.

(** [enum ksqlc], the step results this program tells apart. *)
Inductive ksqlc := KSQL_OK | KSQL_DONE | KSQL_ROW | KSQL_CONSTRAINT.

Global Instance khttp_eq_dec : EqDecision khttp.
Proof. solve_decision. Defined.
Global Instance kmethod_eq_dec : EqDecision kmethod.
Proof. solve_decision. Defined.
Global Instance kmime_eq_dec : EqDecision kmime.
Proof. solve_decision. Defined.
Global Instance ksqlc_eq_dec : EqDecision ksqlc.
Proof. solve_decision. Defined.

(** The place of a value in [enum kmime]. *)
Definition kmime_index (m : kmime) : nat :=
  match m with
  | KMIME_APP_JAVASCRIPT => 0
  | KMIME_APP_JSON => 1
  | KMIME_APP_OCTET_STREAM => 2
  | KMIME_IMAGE_GIF => 3
  | KMIME_IMAGE_JPEG => 4
  | KMIME_IMAGE_PNG => 5
  | KMIME_IMAGE_SVG_XML => 6
  | KMIME_TEXT_CALENDAR => 7
  | KMIME_TEXT_CSS => 8
  | KMIME_TEXT_CSV => 9
  | KMIME_TEXT_HTML => 10
  | KMIME_TEXT_JAVASCRIPT => 11
  | KMIME_TEXT_PLAIN => 12
  | KMIME_TEXT_XML => 13
  | KMIME__MAX => 14
  end.

(** The tables and the date printer of kcgi, used as they come:
    [khttps], [kmimetypes], [kresps] and [kutil_epoch2str] (which writes
    at most [sz] bytes).  [khttps] and [kresps] are read at the constants
    above only.  [kmimetypes] is the array [kmimetypes[KMIME__MAX]]: one
    entry for each value before [KMIME__MAX] and none for [KMIME__MAX]
    itself, although a request's [mime] may hold that value. *)
Record kcgi := {
  khttps : khttp → string;
  kmimetypes : list string;
  kresps : kresp → string;
  kutil_epoch2str : Z → nat → string;
  kmimetypes_size : length kmimetypes = kmime_index KMIME__MAX;
}.

(** The two builds of the [#ifdef __OpenBSD__] blocks.  The OpenBSD build
    brings libc's [crypt_checkpass] (0 on a match, -1 otherwise) and
    [crypt_newhash] (here: the hash it leaves in the buffer). *)
Inductive platform :=
  | OpenBSD (crypt_checkpass : string → string → Z)
            (crypt_newhash : string → string → nat → string)
  | Portable.

(** [strcmp]: negative, zero or positive. *)
Definition strcmp (a b : string) : Z :=
  match String.compare a b with
  | Eq => 0
  | Lt => -1
  | Gt => 1
  end.

(** [strlcpy(dst, src, size)]: what [dst] holds afterwards, at most
    [size - 1] characters of [src]. *)
Definition strlcpy (src : string) (size : nat) : string :=
  String.substring 0 (size - 1)%nat src.

(** ** Data of the program *)

Record user := { user_email : string; user_id : Z }.

Inductive page :=
  | PAGE_INDEX | PAGE_LOGIN | PAGE_LOGOUT
  | PAGE_USER_MOD_EMAIL | PAGE_USER_MOD_PASS | PAGE__MAX.

Inductive key := KEY_EMAIL | KEY_PASS | KEY_SESSTOK | KEY_SESSID.

Inductive stmt :=
  | STMT_SESS_DEL | STMT_SESS_GET | STMT_SESS_NEW | STMT_USER_GET
  | STMT_USER_LOOKUP | STMT_USER_MOD_EMAIL | STMT_USER_MOD_HASH.

Global Instance user_eq_dec : EqDecision user.
Proof. solve_decision. Defined.
Global Instance page_eq_dec : EqDecision page.
Proof. solve_decision. Defined.
Global Instance key_eq_dec : EqDecision key.
Proof. solve_decision. Defined.
Global Instance stmt_eq_dec : EqDecision stmt.
Proof. solve_decision. Defined.

(** [keys[k].name] *)
Definition key_name (k : key) : string :=
  match k with
  | KEY_EMAIL => "email"
  | KEY_PASS => "pass"
  | KEY_SESSTOK => "stok"
  | KEY_SESSID => "sid"
  end.

(** [pages[p]] *)
Definition pages (p : page) : option string :=
  match p with
  | PAGE_INDEX => Some "index"
  | PAGE_LOGIN => Some "login"
  | PAGE_LOGOUT => Some "logout"
  | PAGE_USER_MOD_EMAIL => Some "usermodemail"
  | PAGE_USER_MOD_PASS => Some "usermodpass"
  | PAGE__MAX => None
  end.

(** A validated pair.  [parsed] is a union in C; each key is read through
    the member its validator filled ([i] for the two cookies, [s] for the
    two form fields), so both members are kept side by side. *)
Record kpair := { parsed_i : Z; parsed_s : string }.

(** [struct kreq], the members [main.c] reads.  The store handle [arg]
    is the database of the [world]. *)
Record kreq := {
  method : kmethod;
  req_page : page;
  mime : kmime;
  cookiemap : key → option kpair;
  fieldmap : key → option kpair;
}.

(** ** The store *)

Record user_row := { ur_id : Z; ur_email : string; ur_hash : string }.
Record sess_row := { sr_id : Z; sr_token : Z; sr_userid : Z }.

Global Instance user_row_eq_dec : EqDecision user_row.
Proof. solve_decision. Defined.
Global Instance sess_row_eq_dec : EqDecision sess_row.
Proof. solve_decision. Defined.

(** The two tables in row order, and the row id of the last insert. *)
Record database := {
  tbl_user : list user_row;
  tbl_sess : list sess_row;
  last_rowid : Z;
}.

(** Modelled from the spec: the table declarations (the schema file is
    not part of the source).  [id] is the store-assigned key of each
    table, [email] is unique, and a session's [userid] names a user.
    Session rows are written by [db_sess_new] alone: their ids are row
    ids handed out by the store, their tokens 32-bit unsigned values. *)
Record store_ok (db : database) : Prop := {
  user_pk : NoDup (ur_id <$> tbl_user db);
  user_email_unique : NoDup (ur_email <$> tbl_user db);
  sess_pk : NoDup (sr_id <$> tbl_sess db);
  sess_fk : Forall (λ s, sr_userid s ∈ (ur_id <$> tbl_user db)) (tbl_sess db);
  sess_rowid : Forall (λ s, 0 < sr_id s) (tbl_sess db);
  sess_token : Forall (λ s, 0 ≤ sr_token s < 2 ^ 32) (tbl_sess db);
}.

(** The columns of the [USER] macro, ["user.id,user.email"]. *)
Definition USER (u : user_row) : Z * string := (ur_id u, ur_email u).

(** [DELETE FROM sess WHERE id=? AND token=? AND userid=?] *)
Definition stmt_sess_del (id token userid : Z) (db : database) : database :=
  {| tbl_user := tbl_user db;
     tbl_sess := filter (λ s, ¬ (sr_id s = id ∧ sr_token s = token
                                 ∧ sr_userid s = userid)) (tbl_sess db);
     last_rowid := last_rowid db |}.

(** [SELECT user.id,user.email FROM sess INNER JOIN user
     ON user.id=sess.userid WHERE sess.id=? AND sess.token=?] *)
Definition stmt_sess_get (id token : Z) (db : database) : list (Z * string) :=
  s ← filter (λ s, sr_id s = id ∧ sr_token s = token) (tbl_sess db);
  u ← filter (λ u, ur_id u = sr_userid s) (tbl_user db);
  [USER u].

(** Modelled from the spec: the id the store assigns to a new session
    row, one more than the largest in the table. *)
Definition next_rowid (rows : list sess_row) : Z :=
  1 + foldr Z.max 0 (sr_id <$> rows).

(** Modelled from the spec: the reference from [sess.userid] to
    [user.id] (the schema file is not part of the source; [main] switches
    foreign keys on).  A session row may name [userid] only when a user
    row has that id. *)
Definition references_user (userid : Z) (db : database) : bool :=
  bool_decide (userid ∈ (ur_id <$> tbl_user db)).

(** [INSERT INTO sess (token,userid) VALUES (?,?)] *)
Definition stmt_sess_new (token userid : Z) (db : database)
    : ksqlc * database :=
  if references_user userid db then
    let id := next_rowid (tbl_sess db) in
    (KSQL_DONE,
     {| tbl_user := tbl_user db;
        tbl_sess := tbl_sess db ++
          [{| sr_id := id; sr_token := token; sr_userid := userid |}];
        last_rowid := id |})
  else (KSQL_CONSTRAINT, db).

(** [SELECT user.id,user.email,hash FROM user WHERE email=?] *)
Definition stmt_user_lookup (email : string) (db : database)
    : list (Z * string * string) :=
  (λ u, (USER u, ur_hash u)) <$> filter (λ u, ur_email u = email) (tbl_user db).

(** [SET email=? WHERE id=?] on one row. *)
Definition with_email (email : string) (id : Z) (u : user_row) : user_row :=
  if bool_decide (ur_id u = id)
  then {| ur_id := ur_id u; ur_email := email; ur_hash := ur_hash u |}
  else u.

(** [SET hash=? WHERE id=?] on one row. *)
Definition with_hash (hash : string) (id : Z) (u : user_row) : user_row :=
  if bool_decide (ur_id u = id)
  then {| ur_id := ur_id u; ur_email := ur_email u; ur_hash := hash |}
  else u.

(** Modelled from the spec: the uniqueness constraint on [user.email]
    (the schema file is not part of the source).  Writing [email] into
    the rows with id [id] breaks it when there is such a row and another
    row holds the address. *)
Definition email_conflict (email : string) (id : Z) (db : database) : bool :=
  bool_decide (id ∈ (ur_id <$> tbl_user db)) &&
  bool_decide (Exists (λ u, ur_id u ≠ id ∧ ur_email u = email) (tbl_user db)).

(** [UPDATE user SET email=? WHERE id=?]; a refused update changes no
    row. *)
Definition stmt_user_mod_email (email : string) (id : Z) (db : database)
    : ksqlc * database :=
  if email_conflict email id db then (KSQL_CONSTRAINT, db)
  else
    (KSQL_DONE,
     {| tbl_user := with_email email id <$> tbl_user db;
        tbl_sess := tbl_sess db;
        last_rowid := last_rowid db |}).

(** [UPDATE user SET hash=? WHERE id=?] *)
Definition stmt_user_mod_hash (hash : string) (id : Z) (db : database)
    : database :=
  {| tbl_user := with_hash hash id <$> tbl_user db;
     tbl_sess := tbl_sess db;
     last_rowid := last_rowid db |}.

(** ** The world of one run *)

(** What is written into the response body: text, or a call of the JSON
    writer. *)
Inductive body_item :=
  | PUTS (s : string)
  | KJSON_OPEN | KJSON_CLOSE
  | KJSON_OBJ_OPEN | KJSON_OBJP_OPEN (name : string) | KJSON_OBJ_CLOSE
  | KJSON_PUTSTRINGP (name val : string)
  | KJSON_PUTINTP (name : string) (val : Z).

Record world := {
  w_db : database;
  w_head : list (string * string);  (* headers, in the order written *)
  w_body : option (list body_item); (* [None] until [khttp_body] *)
  w_sql : list stmt;                (* statements stepped, in order *)
  w_log : list (string * string);   (* [kutil_info]: who, what *)
  w_time : Z;                       (* what [time(NULL)] returns *)
  w_random : Z;                     (* what the random source yields *)
  w_alloc : bool;                   (* whether [ksql_alloc] succeeds *)
}.

Definition set_db (db : database) (w : world) : world :=
  {| w_db := db; w_head := w_head w; w_body := w_body w; w_sql := w_sql w;
     w_log := w_log w; w_time := w_time w; w_random := w_random w;
     w_alloc := w_alloc w |}.

Definition add_heads (hs : list (string * string)) (w : world) : world :=
  {| w_db := w_db w; w_head := w_head w ++ hs; w_body := w_body w;
     w_sql := w_sql w; w_log := w_log w; w_time := w_time w;
     w_random := w_random w; w_alloc := w_alloc w |}.

Definition open_body (w : world) : world :=
  {| w_db := w_db w; w_head := w_head w;
     w_body := Some (default [] (w_body w));
     w_sql := w_sql w; w_log := w_log w; w_time := w_time w;
     w_random := w_random w; w_alloc := w_alloc w |}.

Definition add_body (items : list body_item) (w : world) : world :=
  {| w_db := w_db w; w_head := w_head w;
     w_body := Some (default [] (w_body w) ++ items);
     w_sql := w_sql w; w_log := w_log w; w_time := w_time w;
     w_random := w_random w; w_alloc := w_alloc w |}.

Definition add_sql (s : stmt) (w : world) : world :=
  {| w_db := w_db w; w_head := w_head w; w_body := w_body w;
     w_sql := w_sql w ++ [s]; w_log := w_log w; w_time := w_time w;
     w_random := w_random w; w_alloc := w_alloc w |}.

Definition add_log (l : string * string) (w : world) : world :=
  {| w_db := w_db w; w_head := w_head w; w_body := w_body w;
     w_sql := w_sql w; w_log := w_log w ++ [l]; w_time := w_time w;
     w_random := w_random w; w_alloc := w_alloc w |}.

(** Ways a run stops early: a read through a null pointer, a read past
    the end of an array, [abort()], or ksql ending the process on a failed
    statement ([KSQL_EXIT_ON_ERR]).  The first two are undefined in C;
    the run is followed no further. *)
Inductive fault := NULL_DEREF | OUT_OF_BOUNDS | ABORT | KSQL_EXIT.

Inductive outcome (A : Type) :=
  | Done (a : A) (w : world)
  | Fault (f : fault).
Global Arguments Done {A} a w.
Global Arguments Fault {A} f.

Definition cgi (A : Type) : Type := world → outcome A.

Definition ret {A} (a : A) : cgi A := λ w, Done a w.

Definition bind {A B} (m : cgi A) (f : A → cgi B) : cgi B := λ w,
  match m w with
  | Done a w' => f a w'
  | Fault e => Fault e
  end.

Declare Scope cgi_scope.
Delimit Scope cgi_scope with cgi.
Bind Scope cgi_scope with cgi.
Notation "x ← y ; z" := (bind y (λ x, z))
  (at level 20, y at level 100, z at level 200, only parsing) : cgi_scope.
Notation "x ;; z" := (bind x (λ _, z))
  (at level 100, z at level 200, only parsing, right associativity) : cgi_scope.
Local Open Scope cgi_scope.

Definition modify (f : world → world) : cgi () := λ w, Done () (f w).
Definition gets {A} (f : world → A) : cgi A := λ w, Done (f w) w.
Definition crash {A} (f : fault) : cgi A := λ _, Fault f.

(** [p->member] for a pointer that may be null. *)
Definition deref {A B} (p : option A) (member : A → B) : cgi B :=
  match p with
  | Some x => ret (member x)
  | None => crash NULL_DEREF
  end.

(** [table[i]] for an array of [length table] entries. *)
Definition index {A} (table : list A) (i : nat) : cgi A :=
  match table !! i with
  | Some x => ret x
  | None => crash OUT_OF_BOUNDS
  end.

(** *** kcgi and ksql calls *)

Definition khttp_head (name value : string) : cgi () :=
  modify (add_heads [(name, value)]).
Definition khttp_body : cgi () := modify open_body.
Definition khttp_puts (s : string) : cgi () := modify (add_body [PUTS s]).
Definition kjson (i : body_item) : cgi () := modify (add_body [i]).
Definition kutil_info (ident msg : string) : cgi () :=
  modify (add_log (ident, msg)).
Definition khttp_free : cgi () := ret ().
Definition ksql_free : cgi () := ret ().

(** [time(NULL)]; the sums formed with it stay far inside the 64-bit
    range of [time_t] for every date a clock shows. *)
Definition time : cgi Z := gets w_time.
(** [arc4random()], a 32-bit unsigned value. *)
Definition arc4random : cgi Z := gets (λ w, w_random w `mod` 2 ^ 32).

(** [ksql_alloc] then [ksql_open]: [false] stands for the null handle.
    With a handle, the database file is taken to open. *)
Definition ksql_alloc : cgi bool := gets w_alloc.

(** Step a [SELECT] once and read the columns: the first row when the
    step returns [KSQL_ROW], nothing when it returns [KSQL_DONE]. *)
Definition ksql_stmt_step_select {R} (s : stmt) (q : database → list R)
    : cgi (option R) :=
  modify (add_sql s);;
  db ← gets w_db;
  ret (head (q db)).

(** [ksql_stmt_cstep] of a changing statement: a refused change is
    reported as [KSQL_CONSTRAINT]. *)
Definition ksql_stmt_cstep (s : stmt) (f : database → ksqlc * database)
    : cgi ksqlc :=
  modify (add_sql s);;
  db ← gets w_db;
  modify (set_db (f db).2);;
  ret (f db).1.

(** [ksql_stmt_step] of a changing statement: a refused change ends the
    process. *)
Definition ksql_stmt_step (s : stmt) (f : database → ksqlc * database)
    : cgi ksqlc :=
  c ← ksql_stmt_cstep s f;
  if bool_decide (c = KSQL_CONSTRAINT) then crash KSQL_EXIT else ret c.

Definition ksql_lastid : cgi Z := gets (λ w, last_rowid (w_db w)).

(** ** The program *)

Definition EXIT_SUCCESS : Z := 0.

Section program.
Context (lib : kcgi) (plat : platform) (SECURE : bool).

(** Fill out all HTTP secure headers.  Use the existing document's MIME
    type: [kmimetypes[r->mime]], read without a test of [r->mime]. *)
Definition http_alloc (r : kreq) (code : khttp) : cgi () :=
  khttp_head (kresps lib KRESP_STATUS) (khttps lib code);;
  ctype ← index (kmimetypes lib) (kmime_index (mime r));
  khttp_head (kresps lib KRESP_CONTENT_TYPE) ctype;;
  khttp_head "X-Content-Type-Options" "nosniff";;
  khttp_head "X-Frame-Options" "DENY";;
  khttp_head "X-XSS-Protection" "1; mode=block".

(** The entry of [kmimetypes] for a value before [KMIME__MAX]. *)
Definition mimetype (m : kmime) : string :=
  default "" (kmimetypes lib !! kmime_index m).

(** The headers [http_alloc] writes, in the order it writes them, for a
    request whose [mime] is before [KMIME__MAX]. *)
Definition http_heads (r : kreq) (code : khttp) : list (string * string) :=
  [ (kresps lib KRESP_STATUS, khttps lib code);
    (kresps lib KRESP_CONTENT_TYPE, mimetype (mime r));
    ("X-Content-Type-Options", "nosniff");
    ("X-Frame-Options", "DENY");
    ("X-XSS-Protection", "1; mode=block") ].

Definition http_open (r : kreq) (code : khttp) : cgi () :=
  http_alloc r code;;
  khttp_body.

(** Fill the user from the columns of the [USER] macro. *)
Definition db_user_fill (cols : Z * string) : user :=
  {| user_email := cols.2; user_id := cols.1 |}.

(** Create a new user session with a random token. *)
Definition db_sess_new (r : kreq) (token : Z) (u : option user) : cgi Z :=
  uid ← deref u user_id;
  ksql_stmt_step STMT_SESS_NEW (stmt_sess_new token uid);;
  id ← ksql_lastid;
  ident ← deref u user_email;
  kutil_info ident "new session";;
  ret id.

(** The [#ifdef __OpenBSD__] block of [db_user_find]: the value of
    [rc]. *)
Definition checkpass (pass hash : string) : Z :=
  match plat with
  | OpenBSD crypt_checkpass _ =>
      if bool_decide (crypt_checkpass pass hash < 0) then 0 else 1
  | Portable =>
      if bool_decide (0 = strcmp hash pass) then 1 else 0
  end.

(** A wrong password, in the words of each build: one that libc's
    [crypt_checkpass] rejects against the stored hash, or, on the
    other build, one that differs from the stored value. *)
Definition wrong_password (pass hash : string) : Prop :=
  match plat with
  | OpenBSD crypt_checkpass _ => crypt_checkpass pass hash < 0
  | Portable => hash ≠ pass
  end.

(** Look up a given user with an e-mail and password. *)
Definition db_user_find (email pass : string) : cgi (option user) :=
  row ← ksql_stmt_step_select STMT_USER_LOOKUP (stmt_user_lookup email);
  match row with
  | None => ret None
  | Some (cols, hash) =>
      let user := db_user_fill cols in
      let rc := checkpass pass hash in
      if bool_decide (0 = rc) then ret None else ret (Some user)
  end.

(** Resolve a user from session information. *)
Definition db_sess_resolve (r : kreq) (id token : Z) : cgi (option user) :=
  if bool_decide (-1 = id) || bool_decide (-1 = token) then ret None
  else
    row ← ksql_stmt_step_select STMT_SESS_GET (stmt_sess_get id token);
    ret (db_user_fill <$> row).

(** Deletes the session (if any) associated with the given id and
    token, and managed by the given user. *)
Definition db_sess_del (r : kreq) (u : option user) (id token : Z)
    : cgi () :=
  uid ← deref u user_id;
  ksql_stmt_step STMT_SESS_DEL
    (λ db, (KSQL_DONE, stmt_sess_del id token uid db));;
  ident ← deref u user_email;
  kutil_info ident "session deleted".

(** Modify a user's password. *)
Definition db_user_mod_pass (r : kreq) (u : option user) (pass : string)
    : cgi () :=
  let hash :=
    match plat with
    | OpenBSD _ crypt_newhash => crypt_newhash pass "blowfish,a" 64%nat
    | Portable => strlcpy pass 64
    end in
  uid ← deref u user_id;
  ksql_stmt_step STMT_USER_MOD_HASH
    (λ db, (KSQL_DONE, stmt_user_mod_hash hash uid db));;
  ident ← deref u user_email;
  kutil_info ident "changed password".

(** Modify a user's e-mail; 0 when the store refused the address. *)
Definition db_user_mod_email (r : kreq) (u : option user) (email : string)
    : cgi Z :=
  uid ← deref u user_id;
  c ← ksql_stmt_cstep STMT_USER_MOD_EMAIL (stmt_user_mod_email email uid);
  (if bool_decide (KSQL_CONSTRAINT ≠ c) then
     ident ← deref u user_email;
     kutil_info ident ("changed email: " +:+ email)
   else ret ());;
  ret (if bool_decide (KSQL_CONSTRAINT ≠ c) then 1 else 0).

Definition json_putuserdata (u : option user) : cgi () :=
  e ← deref u user_email;
  kjson (KJSON_PUTSTRINGP "email" e);;
  i ← deref u user_id;
  kjson (KJSON_PUTINTP "id" i).

Definition json_putuser (u : option user) : cgi () :=
  kjson (KJSON_OBJP_OPEN "user");;
  json_putuserdata u;;
  kjson KJSON_OBJ_CLOSE.

(** Process an e-mail address change. *)
Definition sendmodemail (r : kreq) (u : option user) : cgi () :=
  match fieldmap r KEY_EMAIL with
  | Some kp =>
      rc ← db_user_mod_email r u (parsed_s kp);
      http_open r (if bool_decide (rc ≠ 0) then KHTTP_200 else KHTTP_400)
  | None => http_open r KHTTP_400
  end.

(** Process a password change. *)
Definition sendmodpass (r : kreq) (u : option user) : cgi () :=
  match fieldmap r KEY_PASS with
  | Some kp =>
      http_open r KHTTP_200;;
      db_user_mod_pass r u (parsed_s kp)
  | None => http_open r KHTTP_400
  end.

(** Retrieve user information. *)
Definition sendindex (r : kreq) (u : option user) : cgi () :=
  http_open r KHTTP_200;;
  kjson KJSON_OPEN;;
  kjson KJSON_OBJ_OPEN;;
  json_putuser u;;
  kjson KJSON_OBJ_CLOSE;;
  kjson KJSON_CLOSE.

(** The [secure] string of the two cookie writers. *)
Definition secure : string := if SECURE then " secure;" else "".

(** ["%s=%" PRId64 ";%s HttpOnly; path=/; expires=%s"] *)
Definition login_cookie (name : string) (val : Z) (buf : string) : string :=
  name +:+ "=" +:+ pretty val +:+ ";" +:+ secure
       +:+ " HttpOnly; path=/; expires=" +:+ buf.

(** ["%s=; path=/;%s HttpOnly; expires=%s"] *)
Definition logout_cookie (name : string) (buf : string) : string :=
  name +:+ "=; path=/;" +:+ secure +:+ " HttpOnly; expires=" +:+ buf.

Definition sendlogin (r : kreq) : cgi () :=
  match fieldmap r KEY_EMAIL, fieldmap r KEY_PASS with
  | Some kpi, Some kpp =>
      u ← db_user_find (parsed_s kpi) (parsed_s kpp);
      match u with
      | None => http_open r KHTTP_400
      | Some _ =>
          token ← arc4random;
          sid ← db_sess_new r token u;
          now ← time;
          let buf := kutil_epoch2str lib (now + 60 * 60 * 24 * 365) 64 in
          khttp_head (kresps lib KRESP_STATUS) (khttps lib KHTTP_200);;
          khttp_head (kresps lib KRESP_SET_COOKIE)
            (login_cookie (key_name KEY_SESSTOK) token buf);;
          khttp_head (kresps lib KRESP_SET_COOKIE)
            (login_cookie (key_name KEY_SESSID) sid buf);;
          khttp_body
      end
  | _, _ => http_open r KHTTP_400
  end.

Definition sendlogout (r : kreq) (u : option user) : cgi () :=
  let buf := kutil_epoch2str lib 0 32 in
  http_alloc r KHTTP_200;;
  khttp_head (kresps lib KRESP_SET_COOKIE)
    (logout_cookie (key_name KEY_SESSTOK) buf);;
  khttp_head (kresps lib KRESP_SET_COOKIE)
    (logout_cookie (key_name KEY_SESSID) buf);;
  khttp_body;;
  sid ← deref (cookiemap r KEY_SESSID) parsed_i;
  stok ← deref (cookiemap r KEY_SESSTOK) parsed_i;
  db_sess_del r u sid stok.

(** The session cookie under [k], or -1 when the request has none. *)
Definition cookie_or_absent (r : kreq) (k : key) : Z :=
  match cookiemap r k with
  | Some kp => parsed_i kp
  | None => -1
  end.

(** [main], from the point where [khttp_parse] has returned the
    request [r] (and, on OpenBSD, [pledge] has succeeded); before that
    point [main] leaves with [EXIT_FAILURE] and writes no response. *)
Definition main (r : kreq) : cgi Z :=
  if bool_decide (KMETHOD_GET ≠ method r) &&
     bool_decide (KMETHOD_POST ≠ method r) then
    http_open r KHTTP_405;;
    khttp_free;;
    ret EXIT_SUCCESS
  else if bool_decide (PAGE__MAX = req_page r) ||
          bool_decide (KMIME_APP_JSON ≠ mime r) then
    http_open r KHTTP_404;;
    khttp_puts "Page not found.";;
    khttp_free;;
    ret EXIT_SUCCESS
  else
    sql ← ksql_alloc;
    if negb sql then
      http_open r KHTTP_500;;
      khttp_free;;
      ret EXIT_SUCCESS
    else
      u ← db_sess_resolve r (cookie_or_absent r KEY_SESSID)
                            (cookie_or_absent r KEY_SESSTOK);
      if bool_decide (PAGE_LOGIN ≠ req_page r) && bool_decide (u = None) then
        http_open r KHTTP_403;;
        khttp_free;;
        ksql_free;;
        ret EXIT_SUCCESS
      else
        match req_page r with
        | PAGE_INDEX => sendindex r u
        | PAGE_LOGIN => sendlogin r
        | PAGE_LOGOUT => sendlogout r u
        | PAGE_USER_MOD_EMAIL => sendmodemail r u
        | PAGE_USER_MOD_PASS => sendmodpass r u
        | PAGE__MAX => crash ABORT
        end;;
        khttp_free;;
        ksql_free;;
        ret EXIT_SUCCESS.

End program.

Global Arguments checkpass : simpl never.
Global Arguments wrong_password : simpl never.

(** ** Sample data *)

Module Sample.

(** A kcgi whose date printer prints the seconds. *)
Definition lib : kcgi :=
  {| khttps := λ c,
       match c with
       | KHTTP_200 => "200 OK"
       | KHTTP_400 => "400 Bad Request"
       | KHTTP_403 => "403 Forbidden"
       | KHTTP_404 => "404 Not Found"
       | KHTTP_405 => "405 Method Not Allowed"
       | KHTTP_500 => "500 Internal Server Error"
       end;
     kmimetypes :=
       [ "application/javascript"; "application/json";
         "application/octet-stream"; "image/gif"; "image/jpeg";
         "image/png"; "image/svg+xml"; "text/calendar"; "text/css";
         "text/csv"; "text/html"; "text/javascript"; "text/plain";
         "text/xml" ];
     kresps := λ h,
       match h with
       | KRESP_STATUS => "Status"
       | KRESP_CONTENT_TYPE => "Content-Type"
       | KRESP_SET_COOKIE => "Set-Cookie"
       end;
     kutil_epoch2str := λ t _, "@" +:+ pretty t;
     kmimetypes_size := eq_refl |}.

Definition alice_row : user_row :=
  {| ur_id := 1; ur_email := "alice@example.org"; ur_hash := "wonderland" |}.
Definition bob_row : user_row :=
  {| ur_id := 2; ur_email := "bob@example.org"; ur_hash := "builder" |}.
Definition alice : user := {| user_email := "alice@example.org"; user_id := 1 |}.
Definition bob : user := {| user_email := "bob@example.org"; user_id := 2 |}.

(** Alice holds session 7 with token 99. *)
Definition sess7 : sess_row := {| sr_id := 7; sr_token := 99; sr_userid := 1 |}.

Definition db : database :=
  {| tbl_user := [alice_row; bob_row]; tbl_sess := [sess7]; last_rowid := 7 |}.

Definition w : world :=
  {| w_db := db; w_head := []; w_body := None; w_sql := []; w_log := [];
     w_time := 1000; w_random := 12345; w_alloc := true |}.

Definition pair_i (i : Z) : kpair := {| parsed_i := i; parsed_s := "" |}.
Definition pair_s (s : string) : kpair := {| parsed_i := 0; parsed_s := s |}.

Definition no_pairs : key → option kpair := λ _, None.

Definition cookies (sid stok : Z) : key → option kpair := λ k,
  match k with
  | KEY_SESSID => Some (pair_i sid)
  | KEY_SESSTOK => Some (pair_i stok)
  | _ => None
  end.

Definition fields (email pass : option string) : key → option kpair := λ k,
  match k with
  | KEY_EMAIL => pair_s <$> email
  | KEY_PASS => pair_s <$> pass
  | _ => None
  end.

Definition request (m : kmethod) (p : page) (c f : key → option kpair)
    : kreq :=
  {| method := m; req_page := p; mime := KMIME_APP_JSON;
     cookiemap := c; fieldmap := f |}.

(** Decidable form of [store_ok], to check sample stores by
    computation. *)
Definition store_okb (db : database) : bool :=
  bool_decide (NoDup (ur_id <$> tbl_user db)) &&
  bool_decide (NoDup (ur_email <$> tbl_user db)) &&
  bool_decide (NoDup (sr_id <$> tbl_sess db)) &&
  bool_decide (Forall (λ s, sr_userid s ∈ (ur_id <$> tbl_user db))
                      (tbl_sess db)) &&
  bool_decide (Forall (λ s, 0 < sr_id s) (tbl_sess db)) &&
  bool_decide (Forall (λ s, 0 ≤ sr_token s < 2 ^ 32) (tbl_sess db)).

End Sample.

(** ** Requests that reach a handler *)

(** The request passes the first tests of [main] and the store is at
    hand. *)
Definition passes_front_line (r : kreq) (w : world) : Prop :=
  (method r = KMETHOD_GET ∨ method r = KMETHOD_POST) ∧
  req_page r ≠ PAGE__MAX ∧ mime r = KMIME_APP_JSON ∧ w_alloc w = true.

(** The two cookies of the request are those of the session row [s],
    which the user row [ur] owns. *)
Definition carries_session (r : kreq) (db : database) (s : sess_row)
    (ur : user_row) : Prop :=
  s ∈ tbl_sess db ∧ ur ∈ tbl_user db ∧ ur_id ur = sr_userid s ∧
  cookie_or_absent r KEY_SESSID = sr_id s ∧
  cookie_or_absent r KEY_SESSTOK = sr_token s.

(** The request [r] with the cookie under [k] taken out. *)
Definition without_cookie (k : key) (r : kreq) : kreq :=
  {| method := method r; req_page := req_page r; mime := mime r;
     cookiemap := λ k', if decide (k' = k) then None else cookiemap r k';
     fieldmap := fieldmap r |}.

(** The world in which the next request is served: the store as the
    last run left it, a response not yet begun, and the surroundings of
    the new run. *)
Definition next_run (db : database) (now random : Z) : world :=
  {| w_db := db; w_head := []; w_body := None; w_sql := []; w_log := [];
     w_time := now; w_random := random; w_alloc := true |}.

Module SampleBSD.

(** A stand-in for libc's pair: the hash of a password is the password
    behind a fixed prefix, and the check accepts that hash alone. *)
Definition crypt_newhash (pass pref : string) (size : nat) : string :=
  "$2b$" +:+ pass.
Definition crypt_checkpass (pass hash : string) : Z :=
  if bool_decide (hash = "$2b$" +:+ pass) then 0 else -1.

Definition plat : platform := OpenBSD crypt_checkpass crypt_newhash.

Definition alice_row : user_row :=
  {| ur_id := 1; ur_email := "alice@example.org";
     ur_hash := "$2b$wonderland" |}.

Definition db : database :=
  {| tbl_user := [alice_row; Sample.bob_row]; tbl_sess := [Sample.sess7];
     last_rowid := 7 |}.

Definition w : world :=
  {| w_db := db; w_head := []; w_body := None; w_sql := []; w_log := [];
     w_time := 1000; w_random := 12345; w_alloc := true |}.

End SampleBSD.


Module Sample2.

(** The sample world with no store handle to be had. *)
Definition w_no_store : world :=
  {| w_db := Sample.db; w_head := []; w_body := None; w_sql := [];
     w_log := []; w_time := 1000; w_random := 12345; w_alloc := false |}.

(** Alice's session cookies. *)
Definition session (p : page) (f : key → option kpair) : kreq :=
  Sample.request KMETHOD_POST p (Sample.cookies 7 99) f.

Definition index : kreq :=
  Sample.request KMETHOD_GET PAGE_INDEX (Sample.cookies 7 99) Sample.no_pairs.
Definition logout : kreq := session PAGE_LOGOUT Sample.no_pairs.
Definition new_email : kreq :=
  session PAGE_USER_MOD_EMAIL (Sample.fields (Some "alice@example.net") None).
Definition new_pass : kreq :=
  session PAGE_USER_MOD_PASS (Sample.fields None (Some "tulgey wood")).
Definition login (email pass : option string) : kreq :=
  Sample.request KMETHOD_POST PAGE_LOGIN Sample.no_pairs
                 (Sample.fields email pass).

(** A request whose [sid] cookie carries -1. *)
Definition index_sid_absent : kreq :=
  Sample.request KMETHOD_GET PAGE_INDEX (Sample.cookies (-1) 99)
                 Sample.no_pairs.

(** A request for a page in HTML, as [/index.html]. *)
Definition html (m : kmethod) (p : page) : kreq :=
  {| method := m; req_page := p; mime := KMIME_TEXT_HTML;
     cookiemap := Sample.no_pairs; fieldmap := Sample.no_pairs |}.

(** A request with a suffix kcgi does not know, as [/index.foo]. *)
Definition unknown_suffix (m : kmethod) (p : page) : kreq :=
  {| method := m; req_page := p; mime := KMIME__MAX;
     cookiemap := Sample.no_pairs; fieldmap := Sample.no_pairs |}.

End Sample2.

(** The request [r] sent with the method [m]. *)
Definition with_method (m : kmethod) (r : kreq) : kreq :=
  {| method := m; req_page := req_page r; mime := mime r;
     cookiemap := cookiemap r; fieldmap := fieldmap r |}.

(** The request [r] with other cookies. *)
Definition with_cookies (c : key → option kpair) (r : kreq) : kreq :=
  {| method := method r; req_page := req_page r; mime := mime r;
     cookiemap := c; fieldmap := fieldmap r |}.

(** ** Facts about keyed tables *)

Section keyed.
Context {A K : Type} (f : A → K).

Lemma key_inj (l : list A) (x y : A) :
  NoDup (f <$> l) → x ∈ l → y ∈ l → f x = f y → x = y.
Proof.
  induction l as [|a l IH]; intros Hnd Hx Hy Hxy.
  - by apply elem_of_nil in Hx.
  - rewrite fmap_cons in Hnd. apply NoDup_cons in Hnd as [Ha Hnd].
    apply elem_of_cons in Hx as [->|Hx]; apply elem_of_cons in Hy as [->|Hy];
      try done.
    + exfalso. apply Ha. rewrite Hxy. by apply list_elem_of_fmap_2.
    + exfalso. apply Ha. rewrite <- Hxy. by apply list_elem_of_fmap_2.
    + by apply IH.
Qed.

Lemma filter_none (P : A → Prop) `{∀ x, Decision (P x)} (l : list A) :
  (∀ x, x ∈ l → ¬ P x) → filter P l = [].
Proof.
  induction l as [|a l IH]; intros Hl; [done|].
  rewrite filter_cons_False by (apply Hl; left).
  apply IH. intros x Hx. apply Hl. by right.
Qed.

Lemma filter_all (P : A → Prop) `{∀ x, Decision (P x)} (l : list A) :
  (∀ x, x ∈ l → P x) → filter P l = l.
Proof.
  induction l as [|a l IH]; intros Hl; [done|].
  rewrite filter_cons_True by (apply Hl; left).
  f_equal. apply IH. intros x Hx. apply Hl. by right.
Qed.

Lemma filter_key_single (P : A → Prop) `{∀ x, Decision (P x)}
    (l : list A) (x : A) :
  NoDup (f <$> l) → x ∈ l → P x → (∀ y, P y → f y = f x) →
  filter P l = [x].
Proof.
  intros Hnd Hx HPx Hkey.
  induction l as [|a l IH]; [by apply elem_of_nil in Hx|].
  rewrite fmap_cons in Hnd. apply NoDup_cons in Hnd as [Ha Hnd].
  apply elem_of_cons in Hx as [->|Hx].
  - rewrite filter_cons_True by done. f_equal.
    apply filter_none. intros y Hy HPy. apply Ha.
    rewrite <- (Hkey y HPy). by apply list_elem_of_fmap_2.
  - rewrite filter_cons_False; [by apply IH|].
    intros HPa. apply Ha. rewrite (Hkey a HPa).
    by apply list_elem_of_fmap_2.
Qed.
End keyed.

(** ** The statements over the store *)

Lemma stmt_sess_get_no_match (db : database) (id token : Z) :
  (∀ s, s ∈ tbl_sess db → ¬ (sr_id s = id ∧ sr_token s = token)) →
  filter (λ s, sr_id s = id ∧ sr_token s = token) (tbl_sess db) = [] ∧
  stmt_sess_get id token db = [].
Proof.
  intros Hno. unfold stmt_sess_get.
  rewrite (filter_none _ _ Hno). done.
Qed.

Lemma stmt_sess_get_match (db : database) (id token : Z) (s : sess_row) :
  store_ok db → s ∈ tbl_sess db → sr_id s = id → sr_token s = token →
  ∃ ur, ur ∈ tbl_user db ∧ ur_id ur = sr_userid s ∧
        filter (λ s, sr_id s = id ∧ sr_token s = token) (tbl_sess db) = [s] ∧
        stmt_sess_get id token db = [USER ur].
Proof.
  intros Hok Hs Hid Htok.
  pose proof (sess_fk _ Hok) as Hfk. rewrite Forall_forall in Hfk.
  destruct (proj1 (list_elem_of_fmap _ _ _) (Hfk s Hs)) as (ur & Hur & Hin).
  exists ur. split; [done|]. split; [done|].
  assert (Hf : filter (λ s, sr_id s = id ∧ sr_token s = token) (tbl_sess db)
               = [s]).
  { apply (filter_key_single sr_id); [by apply sess_pk|done|by split|].
    intros y [Hy _]. congruence. }
  split; [done|]. unfold stmt_sess_get. rewrite Hf. simpl.
  rewrite (filter_key_single ur_id _ _ ur); [done|by apply user_pk|done|done|].
  intros y Hy. congruence.
Qed.

Lemma stmt_sess_del_other (db : database) (id token userid : Z) :
  (∀ s, s ∈ tbl_sess db →
        ¬ (sr_id s = id ∧ sr_token s = token ∧ sr_userid s = userid)) →
  stmt_sess_del id token userid db = db.
Proof.
  intros Hno. unfold stmt_sess_del. rewrite filter_all.
  - by destruct db.
  - intros s Hs. by apply Hno.
Qed.

Lemma stmt_sess_del_twice (db : database) (id token userid : Z) :
  stmt_sess_del id token userid (stmt_sess_del id token userid db)
  = stmt_sess_del id token userid db.
Proof.
  apply stmt_sess_del_other. simpl. intros s Hs.
  by apply list_elem_of_filter in Hs as [Hs _].
Qed.

(** ** Running the [db_*] functions *)

Lemma db_sess_resolve_run (r : kreq) (id token : Z) (w : world) :
  db_sess_resolve r id token w =
    if bool_decide (-1 = id) || bool_decide (-1 = token) then Done None w
    else Done (db_user_fill <$> head (stmt_sess_get id token (w_db w)))
              (add_sql STMT_SESS_GET w).
Proof. unfold db_sess_resolve. by destruct (_ || _). Qed.

Lemma db_sess_del_run (r : kreq) (u : user) (id token : Z) (w : world) :
  db_sess_del r (Some u) id token w =
    Done () (add_log (user_email u, "session deleted")
              (set_db (stmt_sess_del id token (user_id u) (w_db w))
                 (add_sql STMT_SESS_DEL w))).
Proof. reflexivity. Qed.

(** C7.  [db_sess_resolve] with the absent sentinel -1 as session id or
    as token returns no user and leaves the world as it was: no statement
    is stepped; that is what [main] passes for a missing cookie.  With
    two other values it steps one statement, the join [STMT_SESS_GET],
    and changes nothing else; over a store that keeps its table
    declarations it returns a user exactly when one session row has both
    the id and the token, and then that row's owner; with no such row it
    returns no user. *)
Theorem db_sess_resolve_sentinel_or_join (r : kreq) (id token : Z) (w : world) :
  (id = -1 ∨ token = -1 → db_sess_resolve r id token w = Done None w) ∧
  (cookiemap r KEY_SESSID = None ∨ cookiemap r KEY_SESSTOK = None →
   db_sess_resolve r (cookie_or_absent r KEY_SESSID)
                     (cookie_or_absent r KEY_SESSTOK) w = Done None w) ∧
  (id ≠ -1 → token ≠ -1 →
   ∃ res : option user,
     db_sess_resolve r id token w = Done res (add_sql STMT_SESS_GET w) ∧
     w_sql (add_sql STMT_SESS_GET w) = w_sql w ++ [STMT_SESS_GET] ∧
     w_db (add_sql STMT_SESS_GET w) = w_db w ∧
     (store_ok (w_db w) →
      (∀ u, res = Some u ↔
         ∃ s ur,
           filter (λ s, sr_id s = id ∧ sr_token s = token)
                  (tbl_sess (w_db w)) = [s] ∧
           ur ∈ tbl_user (w_db w) ∧ ur_id ur = sr_userid s ∧
           u = {| user_email := ur_email ur; user_id := ur_id ur |}) ∧
      (res = None ↔
         filter (λ s, sr_id s = id ∧ sr_token s = token)
                (tbl_sess (w_db w)) = []))).
Proof.
  assert (Habsent : ∀ id token, id = -1 ∨ token = -1 →
                    db_sess_resolve r id token w = Done None w).
  { intros id' token' Habs. rewrite db_sess_resolve_run.
    destruct Habs as [-> | ->]; [done|]. by rewrite orb_true_r. }
  split; [apply Habsent|]. split.
  - intros Hmiss. apply Habsent. unfold cookie_or_absent.
    destruct Hmiss as [-> | ->]; [by left|by right].
  - intros Hid Htok. eexists. rewrite db_sess_resolve_run.
    rewrite !bool_decide_eq_false_2 by congruence. simpl.
    split; [reflexivity|]. do 2 (split; [done|]). intros Hok.
    destruct (decide (Exists (λ s, sr_id s = id ∧ sr_token s = token)
                             (tbl_sess (w_db w)))) as [Hex|Hno].
    + apply Exists_exists in Hex as (s & Hs & Hsid & Hstok).
      destruct (stmt_sess_get_match _ _ _ s Hok Hs Hsid Hstok)
        as (ur & Hur & Hown & Hf & ->).
      rewrite Hf. simpl. split; [|done].
      intros u. split.
      * intros [= <-]. by exists s, ur.
      * intros (s' & ur' & [= <-] & Hur' & Hown' & ->).
        assert (ur' = ur) as ->; [|done].
        eapply (key_inj ur_id); [by apply user_pk|done..|congruence].
    + destruct (stmt_sess_get_no_match (w_db w) id token) as [Hf ->].
      { intros s Hs Hm. apply Hno, Exists_exists. by exists s. }
      rewrite Hf. simpl. split; [|done].
      intros u. split; [done|]. by intros (s & ur & ? & _).
Qed.

Lemma store_okb_ok (db : database) : Sample.store_okb db = true → store_ok db.
Proof.
  unfold Sample.store_okb. rewrite !andb_true_iff, !bool_decide_eq_true.
  intros [[[[[??]?]?]?]?]. by constructor.
Qed.

Lemma sample_store_ok : store_ok Sample.db.
Proof. apply store_okb_ok. reflexivity. Qed.

(** A session row of a well-kept store never carries the sentinel. *)
Lemma sess_row_not_absent (db : database) (s : sess_row) :
  store_ok db → s ∈ tbl_sess db → sr_id s ≠ -1 ∧ sr_token s ≠ -1.
Proof.
  intros Hok Hs.
  pose proof (sess_rowid _ Hok) as Hid. pose proof (sess_token _ Hok) as Htok.
  rewrite Forall_forall in Hid, Htok.
  specialize (Hid s Hs). specialize (Htok s Hs). lia.
Qed.

(** C3.  Let S be a session row of a store that keeps its table
    declarations, owned by user A.  [db_sess_del] called with S's id and
    token on behalf of a user B whose id differs from A's completes,
    leaves the store as it was, and [db_sess_resolve] with S's id and
    token afterwards returns A.  Whatever id, token and user a delete is
    called with, S is gone afterwards exactly when the id and the token
    are S's and the user's id is A's. *)
Theorem db_sess_del_needs_owner (r : kreq) (w : world) (s : sess_row)
    (ur : user_row) (a b : user) :
  store_ok (w_db w) →
  s ∈ tbl_sess (w_db w) →
  ur ∈ tbl_user (w_db w) → ur_id ur = sr_userid s →
  a = {| user_email := ur_email ur; user_id := ur_id ur |} →
  user_id b ≠ user_id a →
  (∃ w1, db_sess_del r (Some b) (sr_id s) (sr_token s) w = Done () w1 ∧
         w_db w1 = w_db w ∧
         ∃ w2, db_sess_resolve r (sr_id s) (sr_token s) w1
               = Done (Some a) w2) ∧
  (∀ (c : user) (id token : Z),
     ∃ w1, db_sess_del r (Some c) id token w = Done () w1 ∧
           (s ∉ tbl_sess (w_db w1) ↔
            id = sr_id s ∧ token = sr_token s ∧ user_id c = user_id a)).
Proof.
  intros Hok Hs Hur Hown -> Hne. simpl in Hne. split.
  - eexists. rewrite db_sess_del_run. split; [reflexivity|].
    assert (Hdb : stmt_sess_del (sr_id s) (sr_token s) (user_id b) (w_db w)
                  = w_db w).
    { apply stmt_sess_del_other. intros s' Hs' (Hid & _ & Hu).
      assert (s' = s) as -> by (eapply (key_inj sr_id); eauto using sess_pk).
      congruence. }
    simpl. split; [done|]. rewrite db_sess_resolve_run. simpl. rewrite Hdb.
    destruct (sess_row_not_absent _ _ Hok Hs) as [Hid Htok].
    rewrite !bool_decide_eq_false_2 by congruence. simpl.
    destruct (stmt_sess_get_match _ _ _ s Hok Hs eq_refl eq_refl)
      as (ur' & Hur' & Hown' & _ & ->).
    assert (ur' = ur) as ->.
    { eapply (key_inj ur_id); eauto using user_pk. congruence. }
    by eexists.
  - intros c id token. eexists. rewrite db_sess_del_run.
    split; [reflexivity|]. simpl. rewrite list_elem_of_filter.
    split.
    + intros Hgone.
      destruct (decide (sr_id s = id ∧ sr_token s = token
                        ∧ sr_userid s = user_id c)) as [(?&?&?)|Hn].
      * repeat split; congruence.
      * by destruct Hgone.
    + intros (-> & -> & Hc) [Hkeep _]. apply Hkeep. repeat split. congruence.
Qed.

(** C6.  [db_sess_del] called twice in a row with the same session id,
    token and user completes both times, and the second call leaves the
    store exactly as the first left it: it removes no row.  Called for a
    session that has no row, it completes and leaves the store as it
    was. *)
Theorem db_sess_del_idempotent (r : kreq) (u : user) (id token : Z)
    (w : world) :
  (∃ w1 w2,
     db_sess_del r (Some u) id token w = Done () w1 ∧
     db_sess_del r (Some u) id token w1 = Done () w2 ∧
     w_db w2 = w_db w1) ∧
  ((∀ s, s ∈ tbl_sess (w_db w) →
         ¬ (sr_id s = id ∧ sr_token s = token ∧ sr_userid s = user_id u)) →
   ∃ w1, db_sess_del r (Some u) id token w = Done () w1 ∧ w_db w1 = w_db w).
Proof.
  split.
  - eexists _, _. rewrite !db_sess_del_run. do 2 (split; [reflexivity|]).
    simpl. apply stmt_sess_del_twice.
  - intros Hno. eexists. rewrite db_sess_del_run. split; [reflexivity|].
    simpl. by apply stmt_sess_del_other.
Qed.

Lemma strcmp_eq (a b : string) : strcmp a b = 0 ↔ a = b.
Proof.
  unfold strcmp. split.
  - intros H. apply String.compare_eq_iff.
    by destruct (String.compare a b).
  - intros ->. pose proof (String.compare_antisym b b) as Hsym.
    destruct (String.compare b b); done.
Qed.

Lemma checkpass_wrong (plat : platform) (pass hash : string) :
  checkpass plat pass hash = 0 ↔ wrong_password plat pass hash.
Proof.
  unfold checkpass, wrong_password. destruct plat as [cc nh|].
  - case_bool_decide; split; intros; done || lia.
  - destruct (decide (hash = pass)) as [->|Hne].
    + rewrite bool_decide_eq_true_2 by (symmetry; by apply strcmp_eq).
      split; [lia|done].
    + rewrite bool_decide_eq_false_2; [done|].
      intros Hc. by apply Hne, strcmp_eq.
Qed.

Lemma stmt_user_lookup_unknown (db : database) (email : string) :
  (∀ u, u ∈ tbl_user db → ur_email u ≠ email) →
  stmt_user_lookup email db = [].
Proof.
  intros Hno. unfold stmt_user_lookup. by rewrite filter_none.
Qed.

Lemma stmt_user_lookup_known (db : database) (ur : user_row) :
  store_ok db → ur ∈ tbl_user db →
  stmt_user_lookup (ur_email ur) db = [(USER ur, ur_hash ur)].
Proof.
  intros Hok Hur. unfold stmt_user_lookup.
  rewrite (filter_key_single ur_email _ _ ur);
    [done|by apply user_email_unique|done|done|done].
Qed.

Lemma db_user_find_run (plat : platform) (email pass : string) (w : world) :
  db_user_find plat email pass w =
    Done (match head (stmt_user_lookup email (w_db w)) with
          | None => None
          | Some (cols, hash) =>
              if bool_decide (0 = checkpass plat pass hash) then None
              else Some (db_user_fill cols)
          end)
         (add_sql STMT_USER_LOOKUP w).
Proof.
  unfold db_user_find, bind. simpl.
  destruct (head _) as [[cols hash]|]; [|done].
  by case_bool_decide.
Qed.

(** C2.  Over a store that keeps its table declarations, [db_user_find]
    called with an e-mail that no user row has, and called with the
    e-mail of a user row and a password that is wrong for that row, end
    in the same way: both return no user, and both leave the same world
    behind, in which one look-up has been stepped. *)
Theorem db_user_find_enumeration_safe (plat : platform)
    (email1 pass1 pass2 : string) (ur : user_row) (w : world) :
  store_ok (w_db w) →
  (∀ u, u ∈ tbl_user (w_db w) → ur_email u ≠ email1) →
  ur ∈ tbl_user (w_db w) →
  wrong_password plat pass2 (ur_hash ur) →
  db_user_find plat email1 pass1 w = Done None (add_sql STMT_USER_LOOKUP w) ∧
  db_user_find plat (ur_email ur) pass2 w
    = Done None (add_sql STMT_USER_LOOKUP w) ∧
  db_user_find plat email1 pass1 w = db_user_find plat (ur_email ur) pass2 w.
Proof.
  intros Hok Hunknown Hur Hwrong.
  assert (H1 : db_user_find plat email1 pass1 w
               = Done None (add_sql STMT_USER_LOOKUP w)).
  { rewrite db_user_find_run. by rewrite stmt_user_lookup_unknown. }
  assert (H2 : db_user_find plat (ur_email ur) pass2 w
               = Done None (add_sql STMT_USER_LOOKUP w)).
  { rewrite db_user_find_run, stmt_user_lookup_known by done. simpl.
    apply checkpass_wrong in Hwrong. rewrite Hwrong. done. }
  by rewrite H1, H2.
Qed.

(** On the build without [crypt_checkpass], a user's credentials are
    accepted exactly when the password typed in is, character for
    character, the value stored in the [hash] column. *)
Lemma db_user_find_portable_iff (pass : string) (ur : user_row) (w : world) :
  store_ok (w_db w) → ur ∈ tbl_user (w_db w) →
  db_user_find Portable (ur_email ur) pass w
    = Done (Some (db_user_fill (USER ur))) (add_sql STMT_USER_LOOKUP w)
  ↔ pass = ur_hash ur.
Proof.
  intros Hok Hur. rewrite db_user_find_run, stmt_user_lookup_known by done.
  simpl. case_bool_decide as Hc.
  - symmetry in Hc. apply checkpass_wrong in Hc. split; [done|].
    intros ->. by destruct Hc.
  - split; [|done]. intros _. destruct (decide (ur_hash ur = pass)); [done|].
    destruct Hc. symmetry. by apply (checkpass_wrong Portable).
Qed.

(** On the OpenBSD build the same credentials are accepted exactly when
    [crypt_checkpass] does not reject the password against the stored
    hash. *)
Lemma db_user_find_openbsd_iff cc nh (pass : string) (ur : user_row)
    (w : world) :
  store_ok (w_db w) → ur ∈ tbl_user (w_db w) →
  db_user_find (OpenBSD cc nh) (ur_email ur) pass w
    = Done (Some (db_user_fill (USER ur))) (add_sql STMT_USER_LOOKUP w)
  ↔ ¬ cc pass (ur_hash ur) < 0.
Proof.
  intros Hok Hur. rewrite db_user_find_run, stmt_user_lookup_known by done.
  simpl. case_bool_decide as Hc.
  - symmetry in Hc. apply checkpass_wrong in Hc. split; done.
  - split; [|done]. intros _ Hneg. apply Hc. symmetry.
    by apply (checkpass_wrong (OpenBSD cc nh)).
Qed.

(** C5.  On the build without [crypt_checkpass], [db_user_find] accepts
    Alice's credentials when the password typed in equals the text in
    her [hash] column: the comparison is [strcmp] on the stored value,
    and no password hash is verified. *)
Theorem db_user_find_portable_accepts_stored_text :
  db_user_find Portable "alice@example.org" (ur_hash Sample.alice_row) Sample.w
  = Done (Some Sample.alice) (add_sql STMT_USER_LOOKUP Sample.w).
Proof. reflexivity. Qed.

(** The same build stores what it later compares: after [sendmodpass]
    with a new password, Alice's [hash] column holds the password as
    typed. *)
Example sendmodpass_portable_stores_text :
  let r := Sample.request KMETHOD_POST PAGE_USER_MOD_PASS (Sample.cookies 7 99)
             (Sample.fields None (Some "tulgey wood")) in
  ∃ w', sendmodpass Sample.lib Portable r (Some Sample.alice) Sample.w
        = Done () w' ∧
        tbl_user (w_db w')
        = [ {| ur_id := 1; ur_email := "alice@example.org";
               ur_hash := "tulgey wood" |};
            Sample.bob_row ].
Proof. eexists. split; reflexivity. Qed.

(** ** Running the handlers *)

Lemma bind_run {A B} (m : cgi A) (f : A → cgi B) (w w' : world) (a : A) :
  m w = Done a w' → bind m f w = f a w'.
Proof. unfold bind. by intros ->. Qed.

Lemma set_db_same (w : world) : set_db (w_db w) w = w.
Proof. by destruct w. Qed.

Lemma khttp_head_run (name value : string) (w : world) :
  khttp_head name value w = Done () (add_heads [(name, value)] w).
Proof. reflexivity. Qed.

Lemma khttp_body_run (w : world) : khttp_body w = Done () (open_body w).
Proof. reflexivity. Qed.

Lemma add_heads_add_heads (a b : list (string * string)) (w : world) :
  add_heads b (add_heads a w) = add_heads (a ++ b) w.
Proof. unfold add_heads. simpl. by rewrite app_assoc. Qed.

(** [kmimetypes] has an entry at every place before [KMIME__MAX], and
    none at [KMIME__MAX]. *)
Lemma kmimetypes_entry (lib : kcgi) (m : kmime) :
  m ≠ KMIME__MAX → kmimetypes lib !! kmime_index m = Some (mimetype lib m).
Proof.
  intros Hm. unfold mimetype.
  destruct (lookup_lt_is_Some_2 (kmimetypes lib) (kmime_index m)) as [s ->];
    [|done].
  rewrite kmimetypes_size. destruct m; simpl; first [lia | done].
Qed.

Lemma kmimetypes_past_end (lib : kcgi) :
  kmimetypes lib !! kmime_index KMIME__MAX = None.
Proof. apply lookup_ge_None_2. by rewrite kmimetypes_size. Qed.

Lemma json_known (r : kreq) : mime r = KMIME_APP_JSON → mime r ≠ KMIME__MAX.
Proof. congruence. Qed.

Lemma front_line_known (r : kreq) (w : world) :
  passes_front_line r w → mime r ≠ KMIME__MAX.
Proof. intros (_ & _ & Hj & _). by apply json_known. Qed.

(** The side condition of the run lemmas below, from what is at hand. *)
Ltac known_suffix :=
  solve [ assumption | by apply json_known | simpl; congruence
        | by unfold passes_front_line in *; intuition congruence ].

Lemma http_alloc_run (lib : kcgi) (r : kreq) (code : khttp) (w : world) :
  mime r ≠ KMIME__MAX →
  http_alloc lib r code w = Done () (add_heads (http_heads lib r code) w).
Proof.
  intros Hm.
  unfold http_alloc, index, khttp_head, bind, modify, add_heads.
  rewrite (kmimetypes_entry _ _ Hm). simpl.
  by rewrite <- !app_assoc.
Qed.

Lemma http_open_run (lib : kcgi) (r : kreq) (code : khttp) (w : world) :
  mime r ≠ KMIME__MAX →
  http_open lib r code w
  = Done () (open_body (add_heads (http_heads lib r code) w)).
Proof.
  intros Hm. unfold http_open.
  by rewrite (bind_run _ _ _ _ _ (http_alloc_run _ _ _ _ Hm)).
Qed.

(** For a request with an unknown suffix the read of [kmimetypes] is past
    the end of the table, whatever the status code. *)
Lemma http_alloc_past_table (lib : kcgi) (r : kreq) (code : khttp)
    (w : world) :
  mime r = KMIME__MAX → http_alloc lib r code w = Fault OUT_OF_BOUNDS.
Proof.
  intros Hm. unfold http_alloc, index, khttp_head, bind, modify.
  by rewrite Hm, kmimetypes_past_end.
Qed.

Lemma http_open_past_table (lib : kcgi) (r : kreq) (code : khttp)
    (w : world) :
  mime r = KMIME__MAX → http_open lib r code w = Fault OUT_OF_BOUNDS.
Proof.
  intros Hm. unfold http_open, bind. by rewrite http_alloc_past_table.
Qed.

Lemma stmt_user_mod_email_conflict (db : database) (email : string) (id : Z)
    (other : user_row) :
  id ∈ (ur_id <$> tbl_user db) →
  other ∈ tbl_user db → ur_id other ≠ id → ur_email other = email →
  stmt_user_mod_email email id db = (KSQL_CONSTRAINT, db).
Proof.
  intros Hid Hother Hne Hmail. unfold stmt_user_mod_email, email_conflict.
  rewrite bool_decide_eq_true_2 by done.
  rewrite bool_decide_eq_true_2; [done|].
  apply Exists_exists. by exists other.
Qed.

Lemma db_user_mod_email_run (r : kreq) (a : user) (email : string)
    (w : world) :
  db_user_mod_email r (Some a) email w =
    let res := stmt_user_mod_email email (user_id a) (w_db w) in
    let w1 := set_db res.2 (add_sql STMT_USER_MOD_EMAIL w) in
    if bool_decide (KSQL_CONSTRAINT ≠ res.1)
    then Done 1 (add_log (user_email a, "changed email: " +:+ email) w1)
    else Done 0 w1.
Proof.
  unfold db_user_mod_email, ksql_stmt_cstep, bind. simpl.
  by case_bool_decide.
Qed.

(** C4.  When the authenticated user A asks for an address that another
    user row holds, [db_user_mod_email] returns 0 after stepping the one
    update, and [sendmodemail] completes with the store as it was (so A's
    row keeps its address), nothing logged, and a response that is what
    [http_open] writes for status 400 and nothing more: the response a
    request with no e-mail field gets, with nothing of the other row in
    it.  [main] calls the handler for requests of the JSON type only;
    what is used of that is that the type has its entry in
    [kmimetypes]. *)
Theorem sendmodemail_conflict (lib : kcgi) (r : kreq) (a : user) (kp : kpair)
    (other : user_row) (w : world) :
  mime r ≠ KMIME__MAX →
  fieldmap r KEY_EMAIL = Some kp →
  user_id a ∈ (ur_id <$> tbl_user (w_db w)) →
  other ∈ tbl_user (w_db w) →
  ur_id other ≠ user_id a →
  ur_email other = parsed_s kp →
  db_user_mod_email r (Some a) (parsed_s kp) w
    = Done 0 (add_sql STMT_USER_MOD_EMAIL w) ∧
  ∃ w' w0,
    sendmodemail lib r (Some a) w = Done () w' ∧
    w_db w' = w_db w ∧
    w_log w' = w_log w ∧
    w_head w' = w_head w ++ http_heads lib r KHTTP_400 ∧
    w_body w' = Some (default [] (w_body w)) ∧
    http_open lib r KHTTP_400 w = Done () w0 ∧
    w_head w' = w_head w0 ∧ w_body w' = w_body w0.
Proof.
  intros Hk Hkp Ha Hother Hne Hmail.
  assert (Hrun : db_user_mod_email r (Some a) (parsed_s kp) w
                 = Done 0 (add_sql STMT_USER_MOD_EMAIL w)).
  { rewrite db_user_mod_email_run.
    rewrite (stmt_user_mod_email_conflict _ _ _ other) by done. simpl.
    by destruct w. }
  split; [done|]. eexists _, _. unfold sendmodemail. rewrite Hkp.
  rewrite (bind_run _ _ _ _ _ Hrun). rewrite bool_decide_eq_false_2 by lia.
  rewrite !http_open_run by done. repeat split; reflexivity.
Qed.

(** C8.  [sendmodemail] on a request with no e-mail field, and
    [sendmodpass] on a request with no password field, complete with what
    [http_open] writes for status 400 as the whole response; no statement
    is stepped and the store is as it was.  [main] calls the handlers
    for requests of the JSON type only; what is used of that is that the
    type has its entry in [kmimetypes]. *)
Theorem mutators_reject_missing_field (lib : kcgi) (plat : platform)
    (r : kreq) (u : option user) (w : world) :
  mime r ≠ KMIME__MAX →
  (fieldmap r KEY_EMAIL = None →
   ∃ w', sendmodemail lib r u w = Done () w' ∧
         w_head w' = w_head w ++ http_heads lib r KHTTP_400 ∧
         w_body w' = Some (default [] (w_body w)) ∧
         w_sql w' = w_sql w ∧ w_db w' = w_db w) ∧
  (fieldmap r KEY_PASS = None →
   ∃ w', sendmodpass lib plat r u w = Done () w' ∧
         w_head w' = w_head w ++ http_heads lib r KHTTP_400 ∧
         w_body w' = Some (default [] (w_body w)) ∧
         w_sql w' = w_sql w ∧ w_db w' = w_db w).
Proof.
  intros Hk. split; intros Hnone; eexists.
  - unfold sendmodemail. rewrite Hnone, http_open_run by done.
    repeat split; reflexivity.
  - unfold sendmodpass. rewrite Hnone, http_open_run by done.
    repeat split; reflexivity.
Qed.

(** ** The authorisation in [main] *)

Section authorisation.
Context (lib : kcgi) (plat : platform) (SECURE : bool).

Lemma method_test_allowed (r : kreq) :
  method r = KMETHOD_GET ∨ method r = KMETHOD_POST →
  bool_decide (KMETHOD_GET ≠ method r) && bool_decide (KMETHOD_POST ≠ method r)
  = false.
Proof. by intros [-> | ->]. Qed.

Lemma page_test_known (r : kreq) :
  req_page r ≠ PAGE__MAX → mime r = KMIME_APP_JSON →
  bool_decide (PAGE__MAX = req_page r) || bool_decide (KMIME_APP_JSON ≠ mime r)
  = false.
Proof.
  intros Hp Hm. rewrite bool_decide_eq_false_2 by congruence.
  rewrite bool_decide_eq_false_2; [done|]. intros H. by apply H.
Qed.

(** [db_sess_resolve] always returns, and touches nothing but the list
    of stepped statements. *)
Lemma db_sess_resolve_total (r : kreq) (id token : Z) (w : world) :
  ∃ (u : option user) (w1 : world),
    db_sess_resolve r id token w = Done u w1 ∧
    w_db w1 = w_db w ∧ w_head w1 = w_head w ∧ w_body w1 = w_body w ∧
    w_log w1 = w_log w ∧ w_time w1 = w_time w ∧ w_random w1 = w_random w.
Proof.
  rewrite db_sess_resolve_run. destruct (_ || _); by eexists _, _.
Qed.

(** [main] for a request that passes the first two tests, with the
    store at hand: resolve the session, then reject or dispatch. *)
Lemma main_past_front_line (r : kreq) (w w1 : world) (u : option user) :
  method r = KMETHOD_GET ∨ method r = KMETHOD_POST →
  req_page r ≠ PAGE__MAX → mime r = KMIME_APP_JSON →
  w_alloc w = true →
  db_sess_resolve r (cookie_or_absent r KEY_SESSID)
                    (cookie_or_absent r KEY_SESSTOK) w = Done u w1 →
  main lib plat SECURE r w =
    if bool_decide (PAGE_LOGIN ≠ req_page r) && bool_decide (u = None)
    then Done EXIT_SUCCESS (open_body (add_heads (http_heads lib r KHTTP_403) w1))
    else
      (match req_page r with
       | PAGE_INDEX => sendindex lib r u
       | PAGE_LOGIN => sendlogin lib plat SECURE r
       | PAGE_LOGOUT => sendlogout lib SECURE r u
       | PAGE_USER_MOD_EMAIL => sendmodemail lib r u
       | PAGE_USER_MOD_PASS => sendmodpass lib plat r u
       | PAGE__MAX => crash ABORT
       end;; ret EXIT_SUCCESS) w1.
Proof.
  intros Hm Hp Hj Ha Hres. unfold main.
  rewrite method_test_allowed, page_test_known by done.
  unfold bind at 1. unfold ksql_alloc, gets. rewrite Ha.
  cbv beta iota. change (negb true) with false. cbv iota.
  rewrite (bind_run _ _ _ _ _ Hres).
  destruct (_ && _).
  - rewrite (bind_run _ _ _ _ _ (http_open_run _ _ _ _ (json_known _ Hj))).
    reflexivity.
  - generalize (match req_page r with
                | PAGE_INDEX => sendindex lib r u
                | PAGE_LOGIN => sendlogin lib plat SECURE r
                | PAGE_LOGOUT => sendlogout lib SECURE r u
                | PAGE_USER_MOD_EMAIL => sendmodemail lib r u
                | PAGE_USER_MOD_PASS => sendmodpass lib plat r u
                | PAGE__MAX => crash ABORT
                end).
    intros h. unfold bind. by destruct (h w1).
Qed.

Lemma main_bad_method (r : kreq) (w : world) :
  mime r ≠ KMIME__MAX →
  KMETHOD_GET ≠ method r → KMETHOD_POST ≠ method r →
  main lib plat SECURE r w
  = Done EXIT_SUCCESS (open_body (add_heads (http_heads lib r KHTTP_405) w)).
Proof.
  intros Hk Hg Hp. unfold main.
  rewrite !bool_decide_eq_true_2 by done. cbn [andb]. cbv iota.
  by rewrite (bind_run _ _ _ _ _ (http_open_run _ _ _ _ Hk)).
Qed.

Lemma main_not_found (r : kreq) (w : world) :
  mime r ≠ KMIME__MAX →
  method r = KMETHOD_GET ∨ method r = KMETHOD_POST →
  req_page r = PAGE__MAX ∨ mime r ≠ KMIME_APP_JSON →
  main lib plat SECURE r w
  = Done EXIT_SUCCESS
      (add_body [PUTS "Page not found."]
         (open_body (add_heads (http_heads lib r KHTTP_404) w))).
Proof.
  intros Hk Hm Hbad. unfold main. rewrite method_test_allowed by done.
  assert (bool_decide (PAGE__MAX = req_page r)
          || bool_decide (KMIME_APP_JSON ≠ mime r) = true) as ->.
  { destruct Hbad as [Hp|Hj].
    - by rewrite bool_decide_eq_true_2.
    - rewrite (bool_decide_eq_true_2 (KMIME_APP_JSON ≠ mime r)) by done.
      apply orb_true_r. }
  cbv iota.
  by rewrite (bind_run _ _ _ _ _ (http_open_run _ _ _ _ Hk)).
Qed.

(** A request with an unknown suffix fails one of the first two tests,
    and the response to either begins with [http_open]. *)
Lemma main_unknown_suffix (r : kreq) (w : world) :
  mime r = KMIME__MAX → main lib plat SECURE r w = Fault OUT_OF_BOUNDS.
Proof.
  intros Hk. unfold main.
  destruct (bool_decide (KMETHOD_GET ≠ method r) &&
            bool_decide (KMETHOD_POST ≠ method r)).
  - unfold bind. by rewrite http_open_past_table.
  - rewrite (bool_decide_eq_true_2 (KMIME_APP_JSON ≠ mime r)) by congruence.
    rewrite orb_true_r. unfold bind. by rewrite http_open_past_table.
Qed.

Lemma main_no_store (r : kreq) (w : world) :
  method r = KMETHOD_GET ∨ method r = KMETHOD_POST →
  req_page r ≠ PAGE__MAX → mime r = KMIME_APP_JSON →
  w_alloc w = false →
  main lib plat SECURE r w
  = Done EXIT_SUCCESS (open_body (add_heads (http_heads lib r KHTTP_500) w)).
Proof.
  intros Hm Hp Hj Ha. unfold main.
  rewrite method_test_allowed, page_test_known by done.
  unfold bind at 1. unfold ksql_alloc, gets. rewrite Ha.
  cbv beta iota. change (negb false) with true. cbv iota.
  by rewrite (bind_run _ _ _ _ _ (http_open_run _ _ _ _ (json_known _ Hj))).
Qed.

(** X21.  For a request whose suffix kcgi knows, [main] decides in this
    order.  A method other than GET and POST: the response is what
    [http_open] writes for status 405, and nothing else happens.  Else an
    unknown page or a format other than JSON: the 404 response with its
    one line of text, and nothing else.  Else, with the store at hand,
    the session is resolved from the two cookies (-1 standing for a
    missing one); on a page other than the login page with no user
    resolved, the response is what [http_open] writes for status 403 on
    top of the world the resolution left, so no handler has run; on the
    login page [main] goes on with [sendlogin], whatever the resolution
    returned.  For a request with an unknown suffix the run stops in
    [http_alloc], on the read of [kmimetypes], whichever of the first
    two tests it fails. *)
Theorem main_authorisation_order (r : kreq) (w : world) :
  (mime r ≠ KMIME__MAX →
   KMETHOD_GET ≠ method r → KMETHOD_POST ≠ method r →
   main lib plat SECURE r w
   = Done EXIT_SUCCESS (open_body (add_heads (http_heads lib r KHTTP_405) w))) ∧
  (mime r ≠ KMIME__MAX →
   method r = KMETHOD_GET ∨ method r = KMETHOD_POST →
   req_page r = PAGE__MAX ∨ mime r ≠ KMIME_APP_JSON →
   main lib plat SECURE r w
   = Done EXIT_SUCCESS
       (add_body [PUTS "Page not found."]
          (open_body (add_heads (http_heads lib r KHTTP_404) w)))) ∧
  (mime r = KMIME__MAX → main lib plat SECURE r w = Fault OUT_OF_BOUNDS) ∧
  (method r = KMETHOD_GET ∨ method r = KMETHOD_POST →
   req_page r ≠ PAGE__MAX → mime r = KMIME_APP_JSON →
   w_alloc w = true →
   ∃ (u : option user) (w1 : world),
     db_sess_resolve r (cookie_or_absent r KEY_SESSID)
                       (cookie_or_absent r KEY_SESSTOK) w = Done u w1 ∧
     w_db w1 = w_db w ∧ w_head w1 = w_head w ∧ w_body w1 = w_body w ∧
     (req_page r ≠ PAGE_LOGIN → u = None →
      main lib plat SECURE r w
      = Done EXIT_SUCCESS
          (open_body (add_heads (http_heads lib r KHTTP_403) w1))) ∧
     (req_page r = PAGE_LOGIN →
      main lib plat SECURE r w
      = (sendlogin lib plat SECURE r;; ret EXIT_SUCCESS) w1)).
Proof.
  split; [|split; [|split]].
  - apply main_bad_method.
  - apply main_not_found.
  - apply main_unknown_suffix.
  - intros Hm Hp Hj Ha.
    destruct (db_sess_resolve_total r (cookie_or_absent r KEY_SESSID)
                (cookie_or_absent r KEY_SESSTOK) w)
      as (u & w1 & Hres & Hdb & Hhead & Hbody & _).
    exists u, w1. do 4 (split; [done|]).
    rewrite (main_past_front_line _ _ _ _ Hm Hp Hj Ha Hres).
    split.
    + intros Hl ->. by rewrite !bool_decide_eq_true_2 by done.
    + intros Hl.
      rewrite (bool_decide_eq_false_2 (PAGE_LOGIN ≠ req_page r)) by
        (intros H; by apply H).
      by rewrite Hl.
Qed.

(** *** Logout *)

Lemma sendlogout_run (r : kreq) (u : user) (ks kt : kpair) (w : world) :
  mime r ≠ KMIME__MAX →
  cookiemap r KEY_SESSID = Some ks → cookiemap r KEY_SESSTOK = Some kt →
  sendlogout lib SECURE r (Some u) w =
    Done ()
      (add_log (user_email u, "session deleted")
         (set_db (stmt_sess_del (parsed_i ks) (parsed_i kt) (user_id u)
                                (w_db w))
            (add_sql STMT_SESS_DEL
               (open_body
                  (add_heads
                     (http_heads lib r KHTTP_200 ++
                      [ (kresps lib KRESP_SET_COOKIE,
                         logout_cookie SECURE (key_name KEY_SESSTOK)
                           (kutil_epoch2str lib 0 32));
                        (kresps lib KRESP_SET_COOKIE,
                         logout_cookie SECURE (key_name KEY_SESSID)
                           (kutil_epoch2str lib 0 32)) ])
                     w))))).
Proof.
  intros Hk Hs Ht. unfold sendlogout.
  rewrite (bind_run _ _ _ _ _ (http_alloc_run _ _ _ _ Hk)).
  do 2 (erewrite bind_run by apply khttp_head_run).
  erewrite bind_run by apply khttp_body_run.
  rewrite Hs, Ht, !add_heads_add_heads.
  reflexivity.
Qed.

(** A user comes out of the resolution of the two cookies only when
    both cookies were there. *)
Lemma resolved_cookies_present (r : kreq) (w w1 : world) (u : user) :
  db_sess_resolve r (cookie_or_absent r KEY_SESSID)
                    (cookie_or_absent r KEY_SESSTOK) w = Done (Some u) w1 →
  is_Some (cookiemap r KEY_SESSID) ∧ is_Some (cookiemap r KEY_SESSTOK).
Proof.
  rewrite db_sess_resolve_run. unfold cookie_or_absent.
  destruct (cookiemap r KEY_SESSID), (cookiemap r KEY_SESSTOK);
    rewrite ?bool_decide_eq_true_2, ?orb_true_r by done; simpl;
    intros; by simplify_eq.
Qed.

(** [main] on the logout page for a resolved user. *)
Lemma main_logout_run (r : kreq) (w w1 : world) (u : user) :
  method r = KMETHOD_GET ∨ method r = KMETHOD_POST →
  req_page r = PAGE_LOGOUT → mime r = KMIME_APP_JSON →
  w_alloc w = true →
  db_sess_resolve r (cookie_or_absent r KEY_SESSID)
                    (cookie_or_absent r KEY_SESSTOK) w = Done (Some u) w1 →
  ∃ ks kt w2,
    cookiemap r KEY_SESSID = Some ks ∧ cookiemap r KEY_SESSTOK = Some kt ∧
    sendlogout lib SECURE r (Some u) w1 = Done () w2 ∧
    main lib plat SECURE r w = Done EXIT_SUCCESS w2.
Proof.
  intros Hm Hl Hj Ha Hres.
  destruct (resolved_cookies_present _ _ _ _ Hres) as [[ks Hs] [kt Ht]].
  exists ks, kt. eexists. do 2 (split; [done|]).
  pose proof (json_known _ Hj) as Hk.
  split; [by apply sendlogout_run|].
  rewrite (main_past_front_line _ _ _ _ Hm ltac:(by rewrite Hl) Hj Ha Hres).
  rewrite (bool_decide_eq_false_2 (Some u = None)) by done.
  rewrite andb_false_r, Hl.
  by rewrite (bind_run _ _ _ _ _ (sendlogout_run _ _ _ _ _ Hk Hs Ht)).
Qed.

Lemma sendlogout_past_table (r : kreq) (u : option user) (w : world) :
  mime r = KMIME__MAX → sendlogout lib SECURE r u w = Fault OUT_OF_BOUNDS.
Proof.
  intros Hk. unfold sendlogout, bind. by rewrite http_alloc_past_table.
Qed.

(** C10.  When the resolution of the two cookies returns a user, both
    cookies are in the request's cookie map, so [sendlogout] called with
    that user never stops on a read through a null pointer; for a request
    of a type that has its entry in [kmimetypes] (the JSON type, for one)
    it reads the two cookies and completes.  On the logout page, for a
    request let through, [main] is that run of [sendlogout]; and whatever
    the request, [main] on the logout page never stops on a read through
    a null pointer, and returns when the request's suffix is known. *)
Theorem sendlogout_reads_present_cookies (r : kreq) (w : world) :
  (∀ (u : user) (w1 : world),
     db_sess_resolve r (cookie_or_absent r KEY_SESSID)
                       (cookie_or_absent r KEY_SESSTOK) w
     = Done (Some u) w1 →
     is_Some (cookiemap r KEY_SESSID) ∧
     is_Some (cookiemap r KEY_SESSTOK) ∧
     sendlogout lib SECURE r (Some u) w1 ≠ Fault NULL_DEREF ∧
     (mime r ≠ KMIME__MAX →
      ∃ w2, sendlogout lib SECURE r (Some u) w1 = Done () w2 ∧
            (method r = KMETHOD_GET ∨ method r = KMETHOD_POST →
             req_page r = PAGE_LOGOUT → mime r = KMIME_APP_JSON →
             w_alloc w = true →
             main lib plat SECURE r w = Done EXIT_SUCCESS w2))) ∧
  (req_page r = PAGE_LOGOUT →
   main lib plat SECURE r w ≠ Fault NULL_DEREF ∧
   (mime r ≠ KMIME__MAX →
    ∃ w', main lib plat SECURE r w = Done EXIT_SUCCESS w')).
Proof.
  split.
  - intros u w1 Hres.
    destruct (resolved_cookies_present _ _ _ _ Hres) as [[ks Hs] [kt Ht]].
    do 2 (split; [by eexists|]).
    split.
    { destruct (decide (mime r = KMIME__MAX)) as [Hk|Hk].
      - by rewrite sendlogout_past_table.
      - by rewrite (sendlogout_run _ _ _ _ _ Hk Hs Ht). }
    intros Hk.
    eexists. split; [by apply sendlogout_run|].
    intros Hm Hl Hj Ha.
    destruct (main_logout_run _ _ _ _ Hm Hl Hj Ha Hres)
      as (ks' & kt' & w2 & Hs' & Ht' & Hrun & ->).
    rewrite (sendlogout_run _ _ _ _ _ Hk Hs Ht) in Hrun. congruence.
  - intros Hl.
    assert (Hdone : mime r ≠ KMIME__MAX →
                    ∃ w', main lib plat SECURE r w = Done EXIT_SUCCESS w');
      [|split; [|done];
        destruct (decide (mime r = KMIME__MAX)) as [Hk|Hk];
        [by rewrite main_unknown_suffix
        |destruct (Hdone Hk) as [w' ->]; done]].
    intros Hk.
    assert (Hp : req_page r ≠ PAGE__MAX) by (by rewrite Hl).
    destruct (decide (method r = KMETHOD_GET ∨ method r = KMETHOD_POST))
      as [Hm|Hm].
    + destruct (decide (mime r = KMIME_APP_JSON)) as [Hj|Hj].
      * destruct (w_alloc w) eqn:Ha.
        -- destruct (db_sess_resolve_total r (cookie_or_absent r KEY_SESSID)
                       (cookie_or_absent r KEY_SESSTOK) w)
             as ([u|] & w1 & Hres & _).
           ++ destruct (main_logout_run _ _ _ _ Hm Hl Hj Ha Hres)
                as (_ & _ & w2 & _ & _ & _ & Hmain).
              by exists w2.
           ++ eexists.
              rewrite (main_past_front_line _ _ _ _ Hm Hp Hj Ha Hres).
              by rewrite !bool_decide_eq_true_2 by (done || by rewrite Hl).
        -- eexists. by apply main_no_store.
      * eexists. apply main_not_found; [done|done|by right].
    + eexists.
      apply main_bad_method; [done|..];
        intros Heq; apply Hm; [by left|by right].
Qed.

(** *** Login *)

Lemma stmt_sess_get_elem (db : database) (id token : Z) (cols : Z * string) :
  cols ∈ stmt_sess_get id token db →
  ∃ s ur, s ∈ tbl_sess db ∧ sr_id s = id ∧ sr_token s = token ∧
          ur ∈ tbl_user db ∧ ur_id ur = sr_userid s ∧ cols = USER ur.
Proof.
  unfold stmt_sess_get. intros Hin.
  apply list_elem_of_bind in Hin as (s & Hin & Hs).
  apply list_elem_of_filter in Hs as [[Hid Htok] Hs].
  apply list_elem_of_bind in Hin as (ur & Hin & Hur).
  apply list_elem_of_filter in Hur as [Hown Hur].
  apply list_elem_of_singleton in Hin. by exists s, ur.
Qed.

Lemma db_sess_new_run (r : kreq) (token : Z) (u : user) (w : world) :
  user_id u ∈ (ur_id <$> tbl_user (w_db w)) →
  db_sess_new r token (Some u) w =
    let sid := next_rowid (tbl_sess (w_db w)) in
    Done sid
      (add_log (user_email u, "new session")
         (set_db {| tbl_user := tbl_user (w_db w);
                    tbl_sess := tbl_sess (w_db w) ++
                      [{| sr_id := sid; sr_token := token;
                          sr_userid := user_id u |}];
                    last_rowid := sid |}
            (add_sql STMT_SESS_NEW w))).
Proof.
  intros Hu.
  unfold db_sess_new, ksql_stmt_step, ksql_stmt_cstep, bind, deref, ret,
    modify, gets.
  unfold stmt_sess_new, references_user.
  rewrite (bool_decide_eq_true_2 (user_id u ∈ _)) by exact Hu.
  reflexivity.
Qed.

Lemma db_user_find_accepts (pass : string) (ur : user_row) (w : world) :
  store_ok (w_db w) → ur ∈ tbl_user (w_db w) →
  ¬ wrong_password plat pass (ur_hash ur) →
  db_user_find plat (ur_email ur) pass w
  = Done (Some (db_user_fill (USER ur))) (add_sql STMT_USER_LOOKUP w).
Proof.
  intros Hok Hur Hright.
  rewrite db_user_find_run, stmt_user_lookup_known by done. simpl.
  rewrite bool_decide_eq_false_2; [done|].
  intros Hc. apply Hright, checkpass_wrong. by symmetry.
Qed.

Lemma sendlogin_found_run (r : kreq) (kpi kpp : kpair) (u : user)
    (w w1 : world) :
  fieldmap r KEY_EMAIL = Some kpi → fieldmap r KEY_PASS = Some kpp →
  db_user_find plat (parsed_s kpi) (parsed_s kpp) w = Done (Some u) w1 →
  user_id u ∈ (ur_id <$> tbl_user (w_db w1)) →
  sendlogin lib plat SECURE r w =
    let token := w_random w1 `mod` 2 ^ 32 in
    let sid := next_rowid (tbl_sess (w_db w1)) in
    let buf := kutil_epoch2str lib (w_time w1 + 60 * 60 * 24 * 365) 64 in
    Done ()
      (open_body
         (add_heads
            [ (kresps lib KRESP_STATUS, khttps lib KHTTP_200);
              (kresps lib KRESP_SET_COOKIE,
               login_cookie SECURE (key_name KEY_SESSTOK) token buf);
              (kresps lib KRESP_SET_COOKIE,
               login_cookie SECURE (key_name KEY_SESSID) sid buf) ]
            (add_log (user_email u, "new session")
               (set_db {| tbl_user := tbl_user (w_db w1);
                          tbl_sess := tbl_sess (w_db w1) ++
                            [{| sr_id := sid; sr_token := token;
                                sr_userid := user_id u |}];
                          last_rowid := sid |}
                  (add_sql STMT_SESS_NEW w1))))).
Proof.
  intros Hi Hp Hfind Hu. unfold sendlogin. rewrite Hi, Hp.
  rewrite (bind_run _ _ _ _ _ Hfind).
  cbv beta iota.
  erewrite bind_run by reflexivity.
  erewrite bind_run by (by apply db_sess_new_run).
  cbv zeta.
  erewrite bind_run by reflexivity.
  do 3 (erewrite bind_run by apply khttp_head_run).
  rewrite khttp_body_run, !add_heads_add_heads.
  reflexivity.
Qed.

Lemma sendlogin_run (r : kreq) (kpi kpp : kpair) (ur : user_row)
    (w : world) :
  fieldmap r KEY_EMAIL = Some kpi → fieldmap r KEY_PASS = Some kpp →
  store_ok (w_db w) →
  ur ∈ tbl_user (w_db w) → ur_email ur = parsed_s kpi →
  ¬ wrong_password plat (parsed_s kpp) (ur_hash ur) →
  sendlogin lib plat SECURE r w =
    let token := w_random w `mod` 2 ^ 32 in
    let sid := next_rowid (tbl_sess (w_db w)) in
    let buf := kutil_epoch2str lib (w_time w + 60 * 60 * 24 * 365) 64 in
    Done ()
      (open_body
         (add_heads
            [ (kresps lib KRESP_STATUS, khttps lib KHTTP_200);
              (kresps lib KRESP_SET_COOKIE,
               login_cookie SECURE (key_name KEY_SESSTOK) token buf);
              (kresps lib KRESP_SET_COOKIE,
               login_cookie SECURE (key_name KEY_SESSID) sid buf) ]
            (add_log (ur_email ur, "new session")
               (set_db {| tbl_user := tbl_user (w_db w);
                          tbl_sess := tbl_sess (w_db w) ++
                            [{| sr_id := sid; sr_token := token;
                                sr_userid := ur_id ur |}];
                          last_rowid := sid |}
                  (add_sql STMT_SESS_NEW
                     (add_sql STMT_USER_LOOKUP w)))))).
Proof.
  intros Hi Hp Hok Hur Hmail Hright.
  rewrite (sendlogin_found_run r kpi kpp (db_user_fill (USER ur)) w
             (add_sql STMT_USER_LOOKUP w) Hi Hp).
  - reflexivity.
  - rewrite <- Hmail. by apply db_user_find_accepts.
  - apply (list_elem_of_fmap_2 ur_id), Hur.
Qed.

(** After the delete of [sendlogout], no session row carries the pair
    of cookies any more. *)
Lemma resolve_after_del (r : kreq) (sid stok : Z) (u : user)
    (db : database) (w' : world) :
  store_ok db →
  db_user_fill <$> head (stmt_sess_get sid stok db) = Some u →
  w_db w' = stmt_sess_del sid stok (user_id u) db →
  db_sess_resolve r sid stok w' = Done None w' ∨
  db_sess_resolve r sid stok w' = Done None (add_sql STMT_SESS_GET w').
Proof.
  intros Hok Hu Hdb. rewrite db_sess_resolve_run.
  destruct (_ || _); [by left|right]. rewrite Hdb.
  destruct (head (stmt_sess_get sid stok db)) as [cols|] eqn:Hhead;
    [|done].
  injection Hu as <-.
  apply head_Some_elem_of, stmt_sess_get_elem in Hhead
    as (s0 & ur0 & Hs0 & Hid0 & Htok0 & _ & Hown0 & ->).
  change (user_id (db_user_fill (USER ur0))) with (ur_id ur0).
  destruct (stmt_sess_get_no_match
              (stmt_sess_del sid stok (ur_id ur0) db) sid stok) as [_ ->];
    [|done].
  simpl. intros s Hs [Hid Htok].
  apply list_elem_of_filter in Hs as [Hkeep Hs]. apply Hkeep.
  assert (s = s0) as ->.
  { eapply (key_inj sr_id); eauto using sess_pk. congruence. }
  done.
Qed.

(** C9.  A login that succeeds (both fields present, the e-mail that of
    a user row, the password not wrong for it) answers with the status
    line and exactly two cookie headers: [stok] with the fresh token
    and [sid] with the id of the new session row, each [HttpOnly] with
    [path=/] and an expiry date printed from the clock plus 365 days.
    A logout of a resolved user answers with the headers of
    [http_alloc] and the same two cookies, emptied, with the expiry
    date printed from second 0; and resolving the two cookie values
    afterwards returns no user. *)
Theorem login_logout_cookies (r : kreq) (w : world) :
  method r = KMETHOD_GET ∨ method r = KMETHOD_POST →
  mime r = KMIME_APP_JSON →
  w_alloc w = true →
  store_ok (w_db w) →
  (∀ (kpi kpp : kpair) (ur : user_row),
     req_page r = PAGE_LOGIN →
     fieldmap r KEY_EMAIL = Some kpi → fieldmap r KEY_PASS = Some kpp →
     ur ∈ tbl_user (w_db w) → ur_email ur = parsed_s kpi →
     ¬ wrong_password plat (parsed_s kpp) (ur_hash ur) →
     ∃ w',
       main lib plat SECURE r w = Done EXIT_SUCCESS w' ∧
       let token := w_random w `mod` 2 ^ 32 in
       let sid := next_rowid (tbl_sess (w_db w)) in
       let expires := kutil_epoch2str lib (w_time w + 365 * 86400) 64 in
       w_head w' = w_head w ++
         [ (kresps lib KRESP_STATUS, khttps lib KHTTP_200);
           (kresps lib KRESP_SET_COOKIE,
            "stok=" +:+ pretty token +:+ ";"
              +:+ (if SECURE then " secure;" else "")
              +:+ " HttpOnly; path=/; expires=" +:+ expires);
           (kresps lib KRESP_SET_COOKIE,
            "sid=" +:+ pretty sid +:+ ";"
              +:+ (if SECURE then " secure;" else "")
              +:+ " HttpOnly; path=/; expires=" +:+ expires) ] ∧
       tbl_sess (w_db w') = tbl_sess (w_db w) ++
         [{| sr_id := sid; sr_token := token; sr_userid := ur_id ur |}]) ∧
  (∀ (u : user) (w1 : world),
     req_page r = PAGE_LOGOUT →
     db_sess_resolve r (cookie_or_absent r KEY_SESSID)
                       (cookie_or_absent r KEY_SESSTOK) w
     = Done (Some u) w1 →
     ∃ w' w'',
       main lib plat SECURE r w = Done EXIT_SUCCESS w' ∧
       let expires := kutil_epoch2str lib 0 32 in
       w_head w' = w_head w ++ http_heads lib r KHTTP_200 ++
         [ (kresps lib KRESP_SET_COOKIE,
            "stok=; path=/;" +:+ (if SECURE then " secure;" else "")
              +:+ " HttpOnly; expires=" +:+ expires);
           (kresps lib KRESP_SET_COOKIE,
            "sid=; path=/;" +:+ (if SECURE then " secure;" else "")
              +:+ " HttpOnly; expires=" +:+ expires) ] ∧
       db_sess_resolve r (cookie_or_absent r KEY_SESSID)
                         (cookie_or_absent r KEY_SESSTOK) w'
       = Done None w'').
Proof.
  intros Hm Hj Ha Hok. split.
  - intros kpi kpp ur Hl Hi Hp Hur Hmail Hright.
    destruct (db_sess_resolve_total r (cookie_or_absent r KEY_SESSID)
                (cookie_or_absent r KEY_SESSTOK) w)
      as (u0 & w1 & Hres & Hdb & Hhead & _ & _ & Htime & Hrand).
    eexists.
    rewrite (main_past_front_line _ _ _ _ Hm ltac:(by rewrite Hl) Hj Ha Hres).
    rewrite (bool_decide_eq_false_2 (PAGE_LOGIN ≠ req_page r)) by
      (intros H; by apply H).
    cbn [andb]. cbv iota. rewrite Hl.
    erewrite bind_run; [|apply (sendlogin_run r kpi kpp ur); by rewrite ?Hdb].
    split; [reflexivity|]. simpl. rewrite Hdb, Hhead, Htime, Hrand.
    split; reflexivity.
  - intros u w1 Hl Hres.
    destruct (main_logout_run _ _ _ _ Hm Hl Hj Ha Hres)
      as (ks & kt & w2 & Hs & Ht & Hrun & Hmain).
    rewrite (sendlogout_run _ _ _ _ _ (json_known _ Hj) Hs Ht) in Hrun.
    injection Hrun as <-.
    pose proof Hres as Hu. rewrite db_sess_resolve_run in Hu.
    unfold cookie_or_absent in *. rewrite Hs, Ht in *.
    destruct (_ || _) in Hu; [done|]. injection Hu as Hu Hw1.
    set (w2 := add_log _ _) in *.
    assert (Hafter :
      db_sess_resolve r (parsed_i ks) (parsed_i kt) w2 = Done None w2 ∨
      db_sess_resolve r (parsed_i ks) (parsed_i kt) w2
      = Done None (add_sql STMT_SESS_GET w2)).
    { apply (resolve_after_del r _ _ u (w_db w)); [done|done|].
      subst w2 w1. reflexivity. }
    assert (Hhead : w_head w2 = w_head w ++ http_heads lib r KHTTP_200 ++
         [ (kresps lib KRESP_SET_COOKIE,
            "stok=; path=/;" +:+ (if SECURE then " secure;" else "")
              +:+ " HttpOnly; expires=" +:+ kutil_epoch2str lib 0 32);
           (kresps lib KRESP_SET_COOKIE,
            "sid=; path=/;" +:+ (if SECURE then " secure;" else "")
              +:+ " HttpOnly; expires=" +:+ kutil_epoch2str lib 0 32) ]).
    { subst w2 w1. reflexivity. }
    destruct Hafter as [Hafter|Hafter]; eexists _, _; eauto.
Qed.

(** *** The store stays well kept *)

Lemma NoDup_fmap_filter {A K} (f : A → K) (P : A → Prop)
    `{∀ x, Decision (P x)} (l : list A) :
  NoDup (f <$> l) → NoDup (f <$> filter P l).
Proof.
  induction l as [|a l IH]; [done|]. rewrite fmap_cons, NoDup_cons.
  intros [Ha Hl]. destruct (decide (P a)).
  - rewrite filter_cons_True by done. rewrite fmap_cons, NoDup_cons.
    split; [|by apply IH]. intros Hin. apply Ha.
    apply list_elem_of_fmap in Hin as (x & -> & Hx).
    apply list_elem_of_filter in Hx as [_ Hx]. by apply list_elem_of_fmap_2.
  - rewrite filter_cons_False by done. by apply IH.
Qed.

Lemma Forall_filter_keep {A} (Q P : A → Prop) `{∀ x, Decision (P x)}
    (l : list A) :
  Forall Q l → Forall Q (filter P l).
Proof.
  rewrite !Forall_forall. intros Hl x Hx.
  apply list_elem_of_filter in Hx as [_ Hx]. by apply Hl.
Qed.

Lemma stmt_sess_del_store_ok (db : database) (id token userid : Z) :
  store_ok db → store_ok (stmt_sess_del id token userid db).
Proof.
  intros [Hupk Hemail Hspk Hfk Hrow Htok]. constructor; simpl; try done.
  - by apply NoDup_fmap_filter.
  - by apply Forall_filter_keep.
  - by apply Forall_filter_keep.
  - by apply Forall_filter_keep.
Qed.

Lemma stmt_user_mod_hash_ids (db : database) (hash : string) (id : Z) :
  ur_id <$> tbl_user (stmt_user_mod_hash hash id db) = ur_id <$> tbl_user db
  ∧ ur_email <$> tbl_user (stmt_user_mod_hash hash id db)
    = ur_email <$> tbl_user db.
Proof.
  simpl. rewrite <- !list_fmap_compose.
  split; apply list_fmap_ext; intros i u _; unfold with_hash; simpl;
    by case_bool_decide.
Qed.

Lemma stmt_user_mod_hash_store_ok (db : database) (hash : string) (id : Z) :
  store_ok db → store_ok (stmt_user_mod_hash hash id db).
Proof.
  intros [Hupk Hemail Hspk Hfk Hrow Htok].
  destruct (stmt_user_mod_hash_ids db hash id) as [Hids Hmails].
  constructor; rewrite ?Hids, ?Hmails; done.
Qed.

Lemma with_email_id (email : string) (id : Z) (l : list user_row) :
  ur_id <$> (with_email email id <$> l) = ur_id <$> l.
Proof.
  rewrite <- list_fmap_compose. apply list_fmap_ext. intros i u _.
  unfold with_email. simpl. by case_bool_decide.
Qed.

Lemma with_email_other (email : string) (id : Z) (l : list user_row) :
  id ∉ (ur_id <$> l) → with_email email id <$> l = l.
Proof.
  intros Hid. rewrite <- (list_fmap_id l) at 2. apply list_fmap_ext.
  intros i u Hu. unfold with_email. rewrite bool_decide_eq_false_2; [done|].
  intros <-. apply Hid, list_elem_of_fmap_2. by eapply list_elem_of_lookup_2.
Qed.

Lemma with_email_unique (email : string) (id : Z) (l : list user_row) :
  NoDup (ur_id <$> l) → NoDup (ur_email <$> l) →
  (∀ u, u ∈ l → ur_id u ≠ id → ur_email u ≠ email) →
  NoDup (ur_email <$> (with_email email id <$> l)).
Proof.
  induction l as [|a l IH]; [done|].
  rewrite !fmap_cons, !NoDup_cons. intros [Hida Hids] [Hma Hmails] Hfree.
  destruct (decide (ur_id a = id)) as [Ha|Ha].
  - subst id. rewrite with_email_other by done.
    unfold with_email at 1. rewrite bool_decide_eq_true_2 by done. simpl.
    split; [|done]. intros Hin.
    apply list_elem_of_fmap in Hin as (u & Hu & Hin).
    apply (Hfree u); [by right| |done].
    intros Hid. apply Hida. rewrite <- Hid. by apply list_elem_of_fmap_2.
  - unfold with_email at 1. rewrite bool_decide_eq_false_2 by done.
    split.
    + intros Hin. apply list_elem_of_fmap in Hin as (u' & Hu' & Hin).
      apply list_elem_of_fmap in Hin as (u & -> & Hin).
      unfold with_email in Hu'. case_bool_decide; simpl in Hu'.
      * apply (Hfree a); [by left|done|done].
      * apply Hma. rewrite Hu'. by apply list_elem_of_fmap_2.
    + apply IH; [done|done|]. intros u Hu. apply Hfree. by right.
Qed.

Lemma stmt_user_mod_email_store_ok (db : database) (email : string)
    (id : Z) :
  store_ok db → store_ok (stmt_user_mod_email email id db).2.
Proof.
  intros Hok. unfold stmt_user_mod_email.
  destruct (email_conflict email id db) eqn:Hc; [done|].
  unfold email_conflict in Hc.
  destruct Hok as [Hupk Hemail Hspk Hfk Hrow Htok].
  constructor; simpl; rewrite ?with_email_id; try done.
  apply andb_false_iff in Hc as [Hc|Hc]; apply bool_decide_eq_false in Hc.
  - by rewrite with_email_other.
  - apply with_email_unique; [done|done|].
    intros u Hu Hid Hmail. apply Hc, Exists_exists. by exists u.
Qed.

Lemma foldr_max_bound (l : list Z) :
  0 ≤ foldr Z.max 0 l ∧ Forall (λ x, x ≤ foldr Z.max 0 l) l.
Proof.
  induction l as [|a l [IH0 IH]]; cbn [foldr].
  - split; [lia|constructor].
  - split; [lia|]. constructor; [lia|].
    eapply Forall_impl; [exact IH|]. intros x Hx. cbv beta in *. lia.
Qed.

Lemma next_rowid_above (rows : list sess_row) :
  0 < next_rowid rows ∧ Forall (λ s, sr_id s < next_rowid rows) rows.
Proof.
  unfold next_rowid.
  destruct (foldr_max_bound (sr_id <$> rows)) as [H0 Hall].
  split; [lia|]. rewrite Forall_forall in Hall. apply Forall_forall.
  intros s Hs.
  specialize (Hall (sr_id s) (list_elem_of_fmap_2 sr_id _ _ Hs)). lia.
Qed.

Lemma stmt_sess_new_store_ok (db : database) (token userid : Z) :
  store_ok db → 0 ≤ token < 2 ^ 32 →
  store_ok (stmt_sess_new token userid db).2.
Proof.
  intros Hok Htoken. unfold stmt_sess_new, references_user.
  case_bool_decide as Hu; [|done].
  destruct Hok as [Hupk Hemail Hspk Hfk Hrow Htok].
  destruct (next_rowid_above (tbl_sess db)) as [Hpos Habove].
  constructor; cbn [snd tbl_user tbl_sess sr_id sr_token sr_userid];
    try done.
  - rewrite fmap_app. apply NoDup_app. split; [done|]. split.
    + intros x Hx Hin. apply list_elem_of_singleton in Hin. subst x.
      apply list_elem_of_fmap in Hx as (s & Hs & Hin).
      rewrite Forall_forall in Habove. specialize (Habove s Hin).
      cbn [sr_id] in Hs. lia.
    + apply NoDup_singleton.
  - apply Forall_app. split; [done|]. by apply Forall_singleton.
  - apply Forall_app. split; [done|]. by apply Forall_singleton.
  - apply Forall_app. split; [done|]. by apply Forall_singleton.
Qed.

Lemma sess_appended_store_ok (db : database) (token userid : Z) :
  store_ok db → userid ∈ (ur_id <$> tbl_user db) → 0 ≤ token < 2 ^ 32 →
  store_ok {| tbl_user := tbl_user db;
              tbl_sess := tbl_sess db ++
                [{| sr_id := next_rowid (tbl_sess db); sr_token := token;
                    sr_userid := userid |}];
              last_rowid := next_rowid (tbl_sess db) |}.
Proof.
  intros Hok Hu Htoken.
  pose proof (stmt_sess_new_store_ok db token userid Hok Htoken) as Hnew.
  unfold stmt_sess_new, references_user in Hnew.
  by rewrite bool_decide_eq_true_2 in Hnew.
Qed.

Lemma sendindex_keeps (r : kreq) (a : user) (w : world) :
  mime r ≠ KMIME__MAX →
  ∃ w', sendindex lib r (Some a) w = Done () w' ∧ w_db w' = w_db w.
Proof.
  intros Hk. unfold sendindex.
  rewrite (bind_run _ _ _ _ _ (http_open_run _ _ _ _ Hk)).
  eexists. split; reflexivity.
Qed.

Lemma sendmodpass_keeps (r : kreq) (a : user) (w : world) :
  mime r ≠ KMIME__MAX →
  ∃ w', sendmodpass lib plat r (Some a) w = Done () w' ∧
        (store_ok (w_db w) → store_ok (w_db w')).
Proof.
  intros Hk. unfold sendmodpass. destruct (fieldmap r KEY_PASS) as [kp|].
  - rewrite (bind_run _ _ _ _ _ (http_open_run _ _ _ _ Hk)).
    eexists. split; [reflexivity|]. apply stmt_user_mod_hash_store_ok.
  - rewrite http_open_run by done. eexists. split; [reflexivity|done].
Qed.

Lemma sendmodemail_keeps (r : kreq) (a : user) (w : world) :
  mime r ≠ KMIME__MAX →
  ∃ w', sendmodemail lib r (Some a) w = Done () w' ∧
        (store_ok (w_db w) → store_ok (w_db w')).
Proof.
  intros Hk. unfold sendmodemail. destruct (fieldmap r KEY_EMAIL) as [kp|].
  - unfold bind. rewrite db_user_mod_email_run. cbv zeta.
    case_bool_decide; rewrite http_open_run by done;
      (eexists; split; [reflexivity|]);
      apply stmt_user_mod_email_store_ok.
  - rewrite http_open_run by done. eexists. split; [reflexivity|done].
Qed.

Lemma db_user_find_found (email pass : string) (u : user) (w w1 : world) :
  db_user_find plat email pass w = Done (Some u) w1 →
  w1 = add_sql STMT_USER_LOOKUP w ∧
  user_id u ∈ (ur_id <$> tbl_user (w_db w)).
Proof.
  rewrite db_user_find_run.
  destruct (head _) as [[cols hash]|] eqn:Hhead; [|done].
  case_bool_decide; [done|]. intros [= <- <-]. split; [done|].
  apply head_Some_elem_of in Hhead. unfold stmt_user_lookup in Hhead.
  apply list_elem_of_fmap in Hhead as (ur & [= -> ->] & Hur).
  apply list_elem_of_filter in Hur as [_ Hur].
  apply (list_elem_of_fmap_2 ur_id), Hur.
Qed.

Lemma sendlogin_keeps (r : kreq) (w : world) :
  mime r ≠ KMIME__MAX →
  ∃ w', sendlogin lib plat SECURE r w = Done () w' ∧
        (store_ok (w_db w) → store_ok (w_db w')).
Proof.
  intros Hk.
  destruct (fieldmap r KEY_EMAIL) as [kpi|] eqn:Hi;
    [destruct (fieldmap r KEY_PASS) as [kpp|] eqn:Hp|].
  - destruct (db_user_find plat (parsed_s kpi) (parsed_s kpp) w)
      as [[u|] w1|] eqn:Hfind.
    + destruct (db_user_find_found _ _ _ _ _ Hfind) as [-> Hu].
      rewrite (sendlogin_found_run r kpi kpp u _ _ Hi Hp Hfind Hu).
      eexists. split; [reflexivity|]. intros Hok.
      apply (sess_appended_store_ok (w_db w)); [done|done|].
      apply Z.mod_pos_bound. lia.
    + unfold sendlogin. rewrite Hi, Hp, (bind_run _ _ _ _ _ Hfind).
      rewrite db_user_find_run in Hfind. injection Hfind as _ <-.
      rewrite http_open_run by done.
      eexists. split; [reflexivity|done].
    + by rewrite db_user_find_run in Hfind.
  - unfold sendlogin. rewrite Hi, Hp, http_open_run by done.
    eexists. split; [reflexivity|done].
  - unfold sendlogin. rewrite Hi, http_open_run by done.
    eexists. split; [reflexivity|done].
Qed.

(** Every run of [main] on a request whose suffix is known ends with
    [EXIT_SUCCESS]: no read through a null pointer, no [abort], no
    statement that ends the process; and it hands on a store that keeps
    its table declarations. *)
Lemma main_completes_and_keeps_store (r : kreq) (w : world) :
  mime r ≠ KMIME__MAX →
  ∃ w', main lib plat SECURE r w = Done EXIT_SUCCESS w' ∧
        (store_ok (w_db w) → store_ok (w_db w')).
Proof.
  intros Hk.
  destruct (decide (method r = KMETHOD_GET ∨ method r = KMETHOD_POST))
    as [Hm|Hm].
  2:{ eexists.
      split; [apply main_bad_method; [done|..];
              intros Heq; apply Hm; [by left|by right]
             |done]. }
  destruct (decide (req_page r = PAGE__MAX ∨ mime r ≠ KMIME_APP_JSON))
    as [Hbad|Hgood].
  { eexists. split; [by apply main_not_found|done]. }
  assert (Hp : req_page r ≠ PAGE__MAX) by (intros Hp; apply Hgood; by left).
  assert (Hj : mime r = KMIME_APP_JSON).
  { destruct (decide (mime r = KMIME_APP_JSON)); [done|].
    destruct Hgood. by right. }
  destruct (w_alloc w) eqn:Ha.
  2:{ eexists. split; [by apply main_no_store|done]. }
  destruct (db_sess_resolve_total r (cookie_or_absent r KEY_SESSID)
              (cookie_or_absent r KEY_SESSTOK) w)
    as (u & w1 & Hres & Hdb & _).
  rewrite (main_past_front_line _ _ _ _ Hm Hp Hj Ha Hres). rewrite <- Hdb.
  destruct (decide (req_page r = PAGE_LOGIN)) as [Hl|Hl].
  - rewrite (bool_decide_eq_false_2 (PAGE_LOGIN ≠ req_page r)) by
      (intros H; by apply H).
    cbn [andb]. cbv iota. rewrite Hl.
    destruct (sendlogin_keeps r w1 Hk) as (w2 & Hrun & Hkeep).
    rewrite (bind_run _ _ _ _ _ Hrun). by exists w2.
  - rewrite (bool_decide_eq_true_2 (PAGE_LOGIN ≠ req_page r)) by done.
    destruct u as [a|].
    2:{ rewrite bool_decide_eq_true_2 by done. eexists. split; [done|done]. }
    rewrite (bool_decide_eq_false_2 (Some a = None)) by done.
    cbn [andb]. cbv iota.
    destruct (req_page r) eqn:Hpage; try done.
    + destruct (sendindex_keeps r a w1 Hk) as (w2 & Hrun & Hkeep).
      rewrite (bind_run _ _ _ _ _ Hrun). exists w2. by rewrite Hkeep.
    + destruct (resolved_cookies_present _ _ _ _ Hres) as [[ks Hs] [kt Ht]].
      rewrite (bind_run _ _ _ _ _
                 (sendlogout_run _ _ _ _ _ (json_known _ Hj) Hs Ht)).
      eexists. split; [reflexivity|]. apply stmt_sess_del_store_ok.
    + destruct (sendmodemail_keeps r a w1 Hk) as (w2 & Hrun & Hkeep).
      rewrite (bind_run _ _ _ _ _ Hrun). by exists w2.
    + destruct (sendmodpass_keeps r a w1 Hk) as (w2 & Hrun & Hkeep).
      rewrite (bind_run _ _ _ _ _ Hrun). by exists w2.
Qed.
End authorisation.

(** ** The theorems at work on the sample store *)

(** Close a decidable goal over concrete data by evaluation. *)
Ltac by_evaluation :=
  match goal with
  | |- ?P => apply (@bool_decide_unpack P _); vm_compute; exact I
  end.

(** C1.  A request for [/index.foo]: kcgi knows no suffix [foo], and
    the request comes with the type [KMIME__MAX].  Sent with DELETE it
    fails the method test, sent with GET the format test.  The answer to
    either (status 405, status 404) is begun by [http_open], where
    [http_alloc] reads [kmimetypes[KMIME__MAX]], one past the last entry
    of the table: the run stops on that read, and neither rejection is
    what comes out. *)
Theorem main_unknown_suffix_reads_past_table :
  main Sample.lib Portable false
       (Sample2.unknown_suffix KMETHOD_DELETE PAGE_INDEX) Sample.w
  = Fault OUT_OF_BOUNDS ∧
  main Sample.lib Portable false
       (Sample2.unknown_suffix KMETHOD_GET PAGE_INDEX) Sample.w
  = Fault OUT_OF_BOUNDS.
Proof. split; reflexivity. Qed.

(** A request without a session: DELETE is turned away with 405, an
    unknown page with 404, the index page with 403, and the login page
    goes on to [sendlogin]; the request for [/login.foo] stops the
    run. *)
Lemma main_authorisation_order_witness :
  let r m p := Sample.request m p Sample.no_pairs Sample.no_pairs in
  main Sample.lib Portable false
       (Sample2.unknown_suffix KMETHOD_POST PAGE_LOGIN) Sample.w
  = Fault OUT_OF_BOUNDS ∧
  main Sample.lib Portable false (r KMETHOD_DELETE PAGE_INDEX) Sample.w
  = Done EXIT_SUCCESS
      (open_body
         (add_heads (http_heads Sample.lib (r KMETHOD_DELETE PAGE_INDEX)
                       KHTTP_405) Sample.w)) ∧
  main Sample.lib Portable false (r KMETHOD_GET PAGE__MAX) Sample.w
  = Done EXIT_SUCCESS
      (add_body [PUTS "Page not found."]
         (open_body
            (add_heads (http_heads Sample.lib (r KMETHOD_GET PAGE__MAX)
                          KHTTP_404) Sample.w))) ∧
  main Sample.lib Portable false (r KMETHOD_GET PAGE_INDEX) Sample.w
  = Done EXIT_SUCCESS
      (open_body
         (add_heads (http_heads Sample.lib (r KMETHOD_GET PAGE_INDEX)
                       KHTTP_403) Sample.w)) ∧
  main Sample.lib Portable false (r KMETHOD_POST PAGE_LOGIN) Sample.w
  = (sendlogin Sample.lib Portable false (r KMETHOD_POST PAGE_LOGIN);;
     ret EXIT_SUCCESS) Sample.w.
Proof.
  intros r. split; [|split; [|split; [|split]]].
  - apply (proj1 (proj2 (proj2
             (main_authorisation_order Sample.lib Portable false
                (Sample2.unknown_suffix KMETHOD_POST PAGE_LOGIN) Sample.w)))).
    reflexivity.
  - apply (proj1 (main_authorisation_order Sample.lib Portable false
                    (r KMETHOD_DELETE PAGE_INDEX) Sample.w)); discriminate.
  - apply (proj1 (proj2 (main_authorisation_order Sample.lib Portable false
                           (r KMETHOD_GET PAGE__MAX) Sample.w)));
      [discriminate | left; reflexivity | left; reflexivity].
  - destruct (proj2 (proj2 (proj2
                (main_authorisation_order Sample.lib Portable false
                   (r KMETHOD_GET PAGE_INDEX) Sample.w))))
      as (u & w1 & Hres & _ & _ & _ & H403 & _);
      [left; reflexivity | discriminate | reflexivity | reflexivity |].
    vm_compute in Hres. injection Hres as <- <-.
    apply H403; [discriminate | reflexivity].
  - destruct (proj2 (proj2 (proj2
                (main_authorisation_order Sample.lib Portable false
                   (r KMETHOD_POST PAGE_LOGIN) Sample.w))))
      as (u & w1 & Hres & _ & _ & _ & _ & Hlogin);
      [right; reflexivity | discriminate | reflexivity | reflexivity |].
    vm_compute in Hres. injection Hres as <- <-.
    apply Hlogin. reflexivity.
Defined.

(** Nobody has the address of Carol; Bob's password is not Alice's. *)
Lemma db_user_find_enumeration_safe_witness :
  db_user_find Portable "carol@example.org" "builder" Sample.w
  = Done None (add_sql STMT_USER_LOOKUP Sample.w) ∧
  db_user_find Portable "bob@example.org" "wonderland" Sample.w
  = Done None (add_sql STMT_USER_LOOKUP Sample.w).
Proof.
  destruct (db_user_find_enumeration_safe Portable "carol@example.org"
              "builder" "wonderland" Sample.bob_row Sample.w)
    as (H1 & H2 & _).
  - apply store_okb_ok. reflexivity.
  - intros u Hu. revert u Hu. apply Forall_forall. by_evaluation.
  - by_evaluation.
  - unfold wrong_password. by_evaluation.
  - split; [exact H1 | exact H2].
Defined.

(** Bob cannot delete Alice's session 7; Alice can. *)
Lemma db_sess_del_needs_owner_witness :
  let r := Sample.request KMETHOD_GET PAGE_LOGOUT (Sample.cookies 7 99)
             Sample.no_pairs in
  (∃ w1, db_sess_del r (Some Sample.bob) 7 99 Sample.w = Done () w1 ∧
         w_db w1 = Sample.db ∧
         ∃ w2, db_sess_resolve r 7 99 w1 = Done (Some Sample.alice) w2) ∧
  (∃ w1, db_sess_del r (Some Sample.alice) 7 99 Sample.w = Done () w1 ∧
         Sample.sess7 ∉ tbl_sess (w_db w1)).
Proof.
  intros r.
  destruct (db_sess_del_needs_owner r Sample.w Sample.sess7 Sample.alice_row
              Sample.alice Sample.bob) as [Hother Honly].
  - apply store_okb_ok. reflexivity.
  - by_evaluation.
  - by_evaluation.
  - reflexivity.
  - reflexivity.
  - discriminate.
  - split; [exact Hother|].
    destruct (Honly Sample.alice 7 99) as (w1 & Hdel & Hgone).
    exists w1. split; [exact Hdel|]. apply Hgone.
    split; [reflexivity|]. split; reflexivity.
Defined.

(** Nobody else has Alice's address, Bob's is taken. *)
Lemma sendmodemail_conflict_witness :
  let r := Sample.request KMETHOD_POST PAGE_USER_MOD_EMAIL
             (Sample.cookies 7 99)
             (Sample.fields (Some "bob@example.org") None) in
  ∃ w', sendmodemail Sample.lib r (Some Sample.alice) Sample.w = Done () w' ∧
        w_db w' = Sample.db ∧
        w_head w' = http_heads Sample.lib r KHTTP_400.
Proof.
  intros r.
  destruct (sendmodemail_conflict Sample.lib r Sample.alice
              (Sample.pair_s "bob@example.org") Sample.bob_row Sample.w)
    as (_ & w' & w0 & Hrun & Hdb & _ & Hhead & _).
  - discriminate.
  - reflexivity.
  - by_evaluation.
  - by_evaluation.
  - discriminate.
  - reflexivity.
  - exists w'. split; [exact Hrun|]. split; [exact Hdb | exact Hhead].
Defined.

(** Session 8 does not exist. *)
Lemma db_sess_del_idempotent_witness :
  let r := Sample.request KMETHOD_GET PAGE_LOGOUT (Sample.cookies 8 99)
             Sample.no_pairs in
  ∃ w1, db_sess_del r (Some Sample.alice) 8 99 Sample.w = Done () w1 ∧
        w_db w1 = Sample.db.
Proof.
  intros r.
  apply (proj2 (db_sess_del_idempotent r Sample.alice 8 99 Sample.w)).
  intros s Hs. revert s Hs. apply Forall_forall. by_evaluation.
Defined.

(** Without the [sid] cookie nothing is looked up; with both cookies of
    session 7 the join finds Alice. *)
Lemma db_sess_resolve_sentinel_or_join_witness :
  let r := Sample.request KMETHOD_GET PAGE_INDEX (Sample.cookies 7 99)
             Sample.no_pairs in
  db_sess_resolve r (-1) 99 Sample.w = Done None Sample.w ∧
  db_sess_resolve r 7 99 Sample.w
  = Done (Some Sample.alice) (add_sql STMT_SESS_GET Sample.w).
Proof.
  intros r. split.
  - apply (proj1 (db_sess_resolve_sentinel_or_join r (-1) 99 Sample.w)).
    left. reflexivity.
  - destruct (proj2 (proj2 (db_sess_resolve_sentinel_or_join r 7 99 Sample.w)))
      as (res & Hrun & _ & _ & Hstore).
    + discriminate.
    + discriminate.
    + destruct Hstore as [Hsome _].
      * apply store_okb_ok. reflexivity.
      * rewrite Hrun. f_equal. apply Hsome.
        exists Sample.sess7, Sample.alice_row.
        split; [reflexivity|]. split; [by_evaluation|].
        split; reflexivity.
Defined.

(** Requests with no form fields at all. *)
Lemma mutators_reject_missing_field_witness :
  let r p := Sample.request KMETHOD_POST p (Sample.cookies 7 99)
               Sample.no_pairs in
  (∃ w', sendmodemail Sample.lib (r PAGE_USER_MOD_EMAIL) (Some Sample.alice)
           Sample.w = Done () w' ∧
         w_head w' = http_heads Sample.lib (r PAGE_USER_MOD_EMAIL) KHTTP_400 ∧
         w_sql w' = [] ∧ w_db w' = Sample.db) ∧
  (∃ w', sendmodpass Sample.lib Portable (r PAGE_USER_MOD_PASS)
           (Some Sample.alice) Sample.w = Done () w' ∧
         w_head w' = http_heads Sample.lib (r PAGE_USER_MOD_PASS) KHTTP_400 ∧
         w_sql w' = [] ∧ w_db w' = Sample.db).
Proof.
  intros r. split.
  - destruct (proj1 (mutators_reject_missing_field Sample.lib Portable
                       (r PAGE_USER_MOD_EMAIL) (Some Sample.alice) Sample.w
                       ltac:(discriminate)))
      as (w' & Hrun & Hhead & _ & Hsql & Hdb); [reflexivity|].
    exists w'. split; [exact Hrun|]. split; [exact Hhead|].
    split; [exact Hsql | exact Hdb].
  - destruct (proj2 (mutators_reject_missing_field Sample.lib Portable
                       (r PAGE_USER_MOD_PASS) (Some Sample.alice) Sample.w
                       ltac:(discriminate)))
      as (w' & Hrun & Hhead & _ & Hsql & Hdb); [reflexivity|].
    exists w'. split; [exact Hrun|]. split; [exact Hhead|].
    split; [exact Hsql | exact Hdb].
Defined.

(** Alice logs in at second 1000 and gets session 8; a logout with the
    cookies of session 7 empties both cookies and ends that session. *)
Lemma login_logout_cookies_witness :
  let login := Sample.request KMETHOD_POST PAGE_LOGIN Sample.no_pairs
                 (Sample.fields (Some "alice@example.org")
                                (Some "wonderland")) in
  let logout := Sample.request KMETHOD_GET PAGE_LOGOUT (Sample.cookies 7 99)
                  Sample.no_pairs in
  (∃ w', main Sample.lib Portable false login Sample.w = Done EXIT_SUCCESS w' ∧
         w_head w' =
           [ ("Status", "200 OK");
             ("Set-Cookie",
              "stok=12345; HttpOnly; path=/; expires=@31537000");
             ("Set-Cookie",
              "sid=8; HttpOnly; path=/; expires=@31537000") ]) ∧
  (∃ w' w'', main Sample.lib Portable false logout Sample.w
             = Done EXIT_SUCCESS w' ∧
             w_head w' =
               http_heads Sample.lib logout KHTTP_200 ++
               [ ("Set-Cookie", "stok=; path=/; HttpOnly; expires=@0");
                 ("Set-Cookie", "sid=; path=/; HttpOnly; expires=@0") ] ∧
             db_sess_resolve logout 7 99 w' = Done None w'').
Proof.
  intros login logout. split.
  - destruct (login_logout_cookies Sample.lib Portable false login Sample.w)
      as [Hlogin _].
    + right. reflexivity.
    + reflexivity.
    + reflexivity.
    + apply store_okb_ok. reflexivity.
    + destruct (Hlogin (Sample.pair_s "alice@example.org")
                  (Sample.pair_s "wonderland") Sample.alice_row)
        as (w' & Hmain & Hhead & _).
      * reflexivity.
      * reflexivity.
      * reflexivity.
      * by_evaluation.
      * reflexivity.
      * unfold wrong_password. by_evaluation.
      * exists w'. split; [exact Hmain | exact Hhead].
  - destruct (login_logout_cookies Sample.lib Portable false logout Sample.w)
      as [_ Hlogout].
    + left. reflexivity.
    + reflexivity.
    + reflexivity.
    + apply store_okb_ok. reflexivity.
    + destruct (Hlogout Sample.alice (add_sql STMT_SESS_GET Sample.w))
        as (w' & w'' & Hmain & Hhead & Hafter).
      * reflexivity.
      * reflexivity.
      * exists w', w''. split; [exact Hmain|]. split; [exact Hhead|].
        exact Hafter.
Defined.

(** The logout request of Alice carries both cookies, and [main] runs
    [sendlogout] to its end; the request for [/logout.foo] does not get
    as far as the cookies. *)
Lemma sendlogout_reads_present_cookies_witness :
  let r := Sample.request KMETHOD_GET PAGE_LOGOUT (Sample.cookies 7 99)
             Sample.no_pairs in
  (is_Some (cookiemap r KEY_SESSID) ∧ is_Some (cookiemap r KEY_SESSTOK) ∧
   ∃ w2, sendlogout Sample.lib false r (Some Sample.alice)
           (add_sql STMT_SESS_GET Sample.w) = Done () w2 ∧
         main Sample.lib Portable false r Sample.w = Done EXIT_SUCCESS w2) ∧
  main Sample.lib Portable false
       (Sample2.unknown_suffix KMETHOD_GET PAGE_LOGOUT) Sample.w
  ≠ Fault NULL_DEREF.
Proof.
  intros r. split.
  - destruct (proj1 (sendlogout_reads_present_cookies Sample.lib Portable
                       false r Sample.w)
                Sample.alice (add_sql STMT_SESS_GET Sample.w))
      as (Hsid & Hstok & _ & Hdone).
    + reflexivity.
    + split; [exact Hsid|]. split; [exact Hstok|].
      destruct Hdone as (w2 & Hrun & Hmain); [discriminate|].
      exists w2. split; [exact Hrun|].
      apply Hmain;
        [left; reflexivity | reflexivity | reflexivity | reflexivity].
  - apply (proj2 (sendlogout_reads_present_cookies Sample.lib Portable false
                    (Sample2.unknown_suffix KMETHOD_GET PAGE_LOGOUT)
                    Sample.w)).
    reflexivity.
Defined.

(** ** Beyond the gateway: what every run does *)

Section runs.
Context (lib : kcgi) (plat : platform) (SECURE : bool).

Lemma resolve_row (r : kreq) (w : world) (s : sess_row) (ur : user_row) :
  store_ok (w_db w) → s ∈ tbl_sess (w_db w) → ur ∈ tbl_user (w_db w) →
  ur_id ur = sr_userid s →
  db_sess_resolve r (sr_id s) (sr_token s) w
  = Done (Some (db_user_fill (USER ur))) (add_sql STMT_SESS_GET w).
Proof.
  intros Hok Hs Hur Hown.
  rewrite db_sess_resolve_run.
  destruct (sess_row_not_absent _ _ Hok Hs) as [Hid Htok].
  rewrite !bool_decide_eq_false_2 by congruence. cbn [orb].
  destruct (stmt_sess_get_match _ _ _ s Hok Hs eq_refl eq_refl)
    as (ur' & Hur' & Hown' & _ & ->).
  assert (ur' = ur) as ->; [|done].
  eapply (key_inj ur_id); eauto using user_pk. congruence.
Qed.

Lemma resolve_session (r : kreq) (w : world) (s : sess_row) (ur : user_row) :
  store_ok (w_db w) → carries_session r (w_db w) s ur →
  db_sess_resolve r (cookie_or_absent r KEY_SESSID)
                    (cookie_or_absent r KEY_SESSTOK) w
  = Done (Some (db_user_fill (USER ur))) (add_sql STMT_SESS_GET w).
Proof.
  intros Hok (Hs & Hur & Hown & -> & ->). by apply resolve_row.
Qed.

(** [main] for a request let through with the cookies of a session. *)
Lemma main_with_session (r : kreq) (w : world) (s : sess_row)
    (ur : user_row) :
  passes_front_line r w → store_ok (w_db w) →
  carries_session r (w_db w) s ur →
  main lib plat SECURE r w =
    (match req_page r with
     | PAGE_INDEX => sendindex lib r (Some (db_user_fill (USER ur)))
     | PAGE_LOGIN => sendlogin lib plat SECURE r
     | PAGE_LOGOUT => sendlogout lib SECURE r (Some (db_user_fill (USER ur)))
     | PAGE_USER_MOD_EMAIL =>
         sendmodemail lib r (Some (db_user_fill (USER ur)))
     | PAGE_USER_MOD_PASS =>
         sendmodpass lib plat r (Some (db_user_fill (USER ur)))
     | PAGE__MAX => crash ABORT
     end;; ret EXIT_SUCCESS) (add_sql STMT_SESS_GET w).
Proof.
  intros (Hm & Hp & Hj & Ha) Hok Hsess.
  rewrite (main_past_front_line lib plat SECURE _ _ _ _ Hm Hp Hj Ha
             (resolve_session _ _ _ _ Hok Hsess)).
  rewrite (bool_decide_eq_false_2 (Some _ = None)) by done.
  by rewrite andb_false_r.
Qed.

(** X1.  Past the first tests of [main] and with the store at hand (the
    handle allocated, the database opened), every run ends with
    [EXIT_SUCCESS], whatever the page, the cookies, the fields and the
    store: no handler reads through a null user or a missing cookie, the
    [abort] of the page switch is not reached, the session insert is not
    refused, and [kmimetypes] is read at the JSON type. *)
Theorem main_never_faults (r : kreq) (w : world) :
  passes_front_line r w →
  ∃ w', main lib plat SECURE r w = Done EXIT_SUCCESS w'.
Proof.
  intros (_ & _ & Hj & _).
  destruct (main_completes_and_keeps_store lib plat SECURE r w
              (json_known _ Hj)) as (w' & Hrun & _).
  by exists w'.
Qed.

(** X2.  A run of [main] that starts on a store keeping its table
    declarations leaves such a store: session ids stay distinct and
    positive, tokens 32-bit, addresses distinct, and every session names
    a user. *)
Theorem main_keeps_store_ok (r : kreq) (w w' : world) (c : Z) :
  store_ok (w_db w) →
  main lib plat SECURE r w = Done c w' →
  store_ok (w_db w').
Proof.
  intros Hok Hrun.
  destruct (decide (mime r = KMIME__MAX)) as [Hk|Hk].
  { by rewrite (main_unknown_suffix lib plat SECURE _ _ Hk) in Hrun. }
  destruct (main_completes_and_keeps_store lib plat SECURE r w Hk)
    as (w2 & Hrun2 & Hkeep).
  rewrite Hrun in Hrun2. injection Hrun2 as _ <-. by apply Hkeep.
Qed.

(** X3.  When the store handle cannot be allocated, a request that
    passed the method, page and format tests is answered with what
    [http_open] writes for status 500, whatever cookies it carries; no
    statement is stepped and nothing is logged. *)
Theorem main_store_unavailable (r : kreq) (w : world) :
  method r = KMETHOD_GET ∨ method r = KMETHOD_POST →
  req_page r ≠ PAGE__MAX → mime r = KMIME_APP_JSON →
  w_alloc w = false →
  ∃ w', main lib plat SECURE r w = Done EXIT_SUCCESS w' ∧
        w_head w' = w_head w ++ http_heads lib r KHTTP_500 ∧
        w_body w' = Some (default [] (w_body w)) ∧
        w_sql w' = w_sql w ∧ w_log w' = w_log w ∧ w_db w' = w_db w.
Proof.
  intros Hm Hp Hj Ha. eexists.
  split; [by apply main_no_store|]. by repeat split.
Qed.

(** X4.  The index page, asked for with the cookies of a session,
    answers 200 with the e-mail and the id of the user who owns that
    session, written as one JSON object inside a [user] member; the one
    statement stepped is the session look-up and the store is as it
    was. *)
Theorem index_shows_session_owner (r : kreq) (w : world) (s : sess_row)
    (ur : user_row) :
  passes_front_line r w → req_page r = PAGE_INDEX →
  store_ok (w_db w) → carries_session r (w_db w) s ur →
  ∃ w', main lib plat SECURE r w = Done EXIT_SUCCESS w' ∧
        w_head w' = w_head w ++ http_heads lib r KHTTP_200 ∧
        w_body w' = Some (default [] (w_body w) ++
          [ KJSON_OPEN; KJSON_OBJ_OPEN; KJSON_OBJP_OPEN "user";
            KJSON_PUTSTRINGP "email" (ur_email ur);
            KJSON_PUTINTP "id" (ur_id ur);
            KJSON_OBJ_CLOSE; KJSON_OBJ_CLOSE; KJSON_CLOSE ]) ∧
        w_sql w' = w_sql w ++ [STMT_SESS_GET] ∧
        w_log w' = w_log w ∧ w_db w' = w_db w.
Proof.
  intros Hfront Hpage Hok Hsess.
  rewrite (main_with_session _ _ _ _ Hfront Hok Hsess), Hpage.
  unfold sendindex, bind. rewrite http_open_run by known_suffix.
  eexists. split; [reflexivity|]. cbn.
  split; [done|]. split; [|done].
  by rewrite <- !app_assoc.
Qed.

(** *** The ways a run can end *)

Lemma add_body_add_body (a b : list body_item) (w : world) :
  add_body b (add_body a w) = add_body (a ++ b) w.
Proof. unfold add_body. cbn. by rewrite app_assoc. Qed.

Lemma sendindex_run (r : kreq) (a : user) (w : world) :
  mime r ≠ KMIME__MAX →
  sendindex lib r (Some a) w =
    Done ()
      (add_body [ KJSON_OPEN; KJSON_OBJ_OPEN; KJSON_OBJP_OPEN "user";
                  KJSON_PUTSTRINGP "email" (user_email a);
                  KJSON_PUTINTP "id" (user_id a);
                  KJSON_OBJ_CLOSE; KJSON_OBJ_CLOSE; KJSON_CLOSE ]
         (open_body (add_heads (http_heads lib r KHTTP_200) w))).
Proof.
  intros Hk.
  unfold sendindex, json_putuser, json_putuserdata, kjson, deref, bind,
    modify, ret.
  rewrite http_open_run by done. cbv beta iota.
  by rewrite !add_body_add_body.
Qed.

Lemma sendmodemail_run (r : kreq) (a : user) (kp : kpair) (w : world) :
  mime r ≠ KMIME__MAX →
  fieldmap r KEY_EMAIL = Some kp →
  sendmodemail lib r (Some a) w =
    if email_conflict (parsed_s kp) (user_id a) (w_db w)
    then Done () (open_body (add_heads (http_heads lib r KHTTP_400)
                               (add_sql STMT_USER_MOD_EMAIL w)))
    else Done ()
           (open_body
              (add_heads (http_heads lib r KHTTP_200)
                 (add_log (user_email a, "changed email: " +:+ parsed_s kp)
                    (set_db {| tbl_user := with_email (parsed_s kp) (user_id a)
                                             <$> tbl_user (w_db w);
                               tbl_sess := tbl_sess (w_db w);
                               last_rowid := last_rowid (w_db w) |}
                       (add_sql STMT_USER_MOD_EMAIL w))))).
Proof.
  intros Hk Hkp. unfold sendmodemail, bind.
  rewrite Hkp, db_user_mod_email_run.
  unfold stmt_user_mod_email.
  destruct (email_conflict _ _ _); cbv zeta; cbn [fst snd].
  - rewrite (bool_decide_eq_false_2 (KSQL_CONSTRAINT ≠ KSQL_CONSTRAINT)) by
      (intros H; by apply H).
    rewrite (bool_decide_eq_false_2 (0 ≠ 0)) by (intros H; by apply H).
    rewrite http_open_run by done. by destruct w.
  - rewrite (bool_decide_eq_true_2 (KSQL_CONSTRAINT ≠ KSQL_DONE)) by done.
    rewrite (bool_decide_eq_true_2 (1 ≠ 0)) by done.
    by rewrite http_open_run by done.
Qed.

Lemma sendmodpass_run (r : kreq) (a : user) (kp : kpair) (w : world) :
  mime r ≠ KMIME__MAX →
  fieldmap r KEY_PASS = Some kp →
  sendmodpass lib plat r (Some a) w =
    Done ()
      (add_log (user_email a, "changed password")
         (set_db (stmt_user_mod_hash
                    match plat with
                    | OpenBSD _ crypt_newhash =>
                        crypt_newhash (parsed_s kp) "blowfish,a" 64%nat
                    | Portable => strlcpy (parsed_s kp) 64
                    end (user_id a) (w_db w))
            (add_sql STMT_USER_MOD_HASH
               (open_body (add_heads (http_heads lib r KHTTP_200) w))))).
Proof.
  intros Hk Hkp. unfold sendmodpass. rewrite Hkp.
  by rewrite (bind_run _ _ _ _ _ (http_open_run _ _ _ _ Hk)).
Qed.

Lemma sendlogin_refused (r : kreq) (w : world) :
  mime r ≠ KMIME__MAX →
  (fieldmap r KEY_EMAIL = None ∨ fieldmap r KEY_PASS = None) →
  sendlogin lib plat SECURE r w
  = Done () (open_body (add_heads (http_heads lib r KHTTP_400) w)).
Proof.
  intros Hk Hmiss. unfold sendlogin.
  destruct (fieldmap r KEY_EMAIL), (fieldmap r KEY_PASS);
    try (by apply http_open_run).
  by destruct Hmiss.
Qed.

Lemma sendlogin_not_found (r : kreq) (kpi kpp : kpair) (w w1 : world) :
  mime r ≠ KMIME__MAX →
  fieldmap r KEY_EMAIL = Some kpi → fieldmap r KEY_PASS = Some kpp →
  db_user_find plat (parsed_s kpi) (parsed_s kpp) w = Done None w1 →
  sendlogin lib plat SECURE r w
  = Done () (open_body (add_heads (http_heads lib r KHTTP_400)
                          (add_sql STMT_USER_LOOKUP w))).
Proof.
  intros Hk Hi Hp Hfind. unfold sendlogin.
  rewrite Hi, Hp, (bind_run _ _ _ _ _ Hfind).
  rewrite db_user_find_run in Hfind. injection Hfind as _ <-.
  by apply http_open_run.
Qed.

Local Abbreviation answered r code w :=
  (open_body (add_heads (http_heads lib r code) w)).

(** How the look-up of [sendlogin] can end, from the world [w1] in which
    it starts. *)
Lemma sendlogin_outcomes (r : kreq) (w1 : world) :
  mime r ≠ KMIME__MAX →
  ∃ w', sendlogin lib plat SECURE r w1 = Done () w' ∧
    (w' = answered r KHTTP_400 w1 ∨
     w' = answered r KHTTP_400 (add_sql STMT_USER_LOOKUP w1) ∨
     ∃ u0 : user,
       user_id u0 ∈ (ur_id <$> tbl_user (w_db w1)) ∧
       w' = open_body
              (add_heads
                 [ (kresps lib KRESP_STATUS, khttps lib KHTTP_200);
                   (kresps lib KRESP_SET_COOKIE,
                    login_cookie SECURE (key_name KEY_SESSTOK)
                      (w_random w1 `mod` 2 ^ 32)
                      (kutil_epoch2str lib
                         (w_time w1 + 60 * 60 * 24 * 365) 64));
                   (kresps lib KRESP_SET_COOKIE,
                    login_cookie SECURE (key_name KEY_SESSID)
                      (next_rowid (tbl_sess (w_db w1)))
                      (kutil_epoch2str lib
                         (w_time w1 + 60 * 60 * 24 * 365) 64)) ]
                 (add_log (user_email u0, "new session")
                    (set_db {| tbl_user := tbl_user (w_db w1);
                               tbl_sess := tbl_sess (w_db w1) ++
                                 [{| sr_id := next_rowid (tbl_sess (w_db w1));
                                     sr_token := w_random w1 `mod` 2 ^ 32;
                                     sr_userid := user_id u0 |}];
                               last_rowid := next_rowid (tbl_sess (w_db w1)) |}
                       (add_sql STMT_SESS_NEW
                          (add_sql STMT_USER_LOOKUP w1)))))).
Proof.
  intros Hk.
  destruct (fieldmap r KEY_EMAIL) as [kpi|] eqn:Hi;
    [destruct (fieldmap r KEY_PASS) as [kpp|] eqn:Hp|].
  - destruct (db_user_find plat (parsed_s kpi) (parsed_s kpp) w1)
      as [[u0|] w2|] eqn:Hfind.
    + destruct (db_user_find_found plat _ _ _ _ _ Hfind) as [-> Hu].
      eexists. split.
      * apply (sendlogin_found_run lib plat SECURE r kpi kpp u0 _ _ Hi Hp
                 Hfind Hu).
      * right. right. by exists u0.
    + eexists. split; [by eapply sendlogin_not_found|]. right. by left.
    + by rewrite db_user_find_run in Hfind.
  - eexists. split; [apply sendlogin_refused; [done|by right]|]. by left.
  - eexists. split; [apply sendlogin_refused; [done|by left]|]. by left.
Qed.

(** Every way [main] can end on a request whose suffix is known, with
    the world it leaves. *)
Lemma main_outcomes (r : kreq) (w : world) :
  mime r ≠ KMIME__MAX →
  ∃ w', main lib plat SECURE r w = Done EXIT_SUCCESS w' ∧
    ((¬ passes_front_line r w ∧
      (w' = answered r KHTTP_405 w ∨
       w' = add_body [PUTS "Page not found."] (answered r KHTTP_404 w) ∨
       w' = answered r KHTTP_500 w)) ∨
     (passes_front_line r w ∧
      ∃ (u : option user) (w1 : world),
        db_sess_resolve r (cookie_or_absent r KEY_SESSID)
                          (cookie_or_absent r KEY_SESSTOK) w = Done u w1 ∧
        ((cookie_or_absent r KEY_SESSID = -1
           ∨ cookie_or_absent r KEY_SESSTOK = -1) ∧ u = None ∧ w1 = w
         ∨ cookie_or_absent r KEY_SESSID ≠ -1
           ∧ cookie_or_absent r KEY_SESSTOK ≠ -1
           ∧ w1 = add_sql STMT_SESS_GET w) ∧
        ((req_page r ≠ PAGE_LOGIN ∧ u = None ∧ w' = answered r KHTTP_403 w1) ∨
         (req_page r = PAGE_LOGIN ∧
          sendlogin lib plat SECURE r w1 = Done () w') ∨
         (∃ a : user, u = Some a ∧
            ((req_page r = PAGE_INDEX ∧
              sendindex lib r (Some a) w1 = Done () w') ∨
             (req_page r = PAGE_LOGOUT ∧
              ∃ ks kt, cookiemap r KEY_SESSID = Some ks ∧
                       cookiemap r KEY_SESSTOK = Some kt ∧
                       sendlogout lib SECURE r (Some a) w1 = Done () w') ∨
             (req_page r = PAGE_USER_MOD_EMAIL ∧
              sendmodemail lib r (Some a) w1 = Done () w') ∨
             (req_page r = PAGE_USER_MOD_PASS ∧
              sendmodpass lib plat r (Some a) w1 = Done () w')))))).
Proof.
  intros Hk.
  destruct (decide (method r = KMETHOD_GET ∨ method r = KMETHOD_POST))
    as [Hm|Hm].
  2:{ eexists.
      split; [apply main_bad_method; [done|..];
              intros Heq; apply Hm; [by left|by right]|].
      left. split; [by intros (? & _)|]. by left. }
  destruct (decide (req_page r = PAGE__MAX ∨ mime r ≠ KMIME_APP_JSON))
    as [Hbad|Hgood].
  { eexists. split; [by apply main_not_found|]. left. split.
    - intros (_ & Hp & Hj & _). by destruct Hbad.
    - right. by left. }
  assert (Hp : req_page r ≠ PAGE__MAX) by (intros Hp; apply Hgood; by left).
  assert (Hj : mime r = KMIME_APP_JSON).
  { destruct (decide (mime r = KMIME_APP_JSON)); [done|].
    destruct Hgood. by right. }
  destruct (w_alloc w) eqn:Ha.
  2:{ eexists. split; [by apply main_no_store|]. left. split.
      - intros (_ & _ & _ & Ha'). congruence.
      - right. by right. }
  assert (Hfront : passes_front_line r w) by done.
  assert (∃ u w1,
    db_sess_resolve r (cookie_or_absent r KEY_SESSID)
                      (cookie_or_absent r KEY_SESSTOK) w = Done u w1 ∧
    ((cookie_or_absent r KEY_SESSID = -1
      ∨ cookie_or_absent r KEY_SESSTOK = -1) ∧ u = None ∧ w1 = w
     ∨ cookie_or_absent r KEY_SESSID ≠ -1
       ∧ cookie_or_absent r KEY_SESSTOK ≠ -1
       ∧ w1 = add_sql STMT_SESS_GET w)) as (u & w1 & Hres' & Hw1).
  { rewrite db_sess_resolve_run.
    destruct (decide (cookie_or_absent r KEY_SESSID = -1)) as [Hi|Hi];
      [|destruct (decide (cookie_or_absent r KEY_SESSTOK = -1)) as [Ht|Ht]].
    - rewrite Hi. eexists _, _. split; [reflexivity|]. left. by auto.
    - rewrite Ht, orb_true_r. eexists _, _. split; [reflexivity|].
      left. by auto.
    - rewrite !bool_decide_eq_false_2 by congruence.
      eexists _, _. split; [reflexivity|]. right. by auto. }
  rewrite (main_past_front_line lib plat SECURE _ _ _ _ Hm Hp Hj Ha Hres').
  destruct (decide (req_page r = PAGE_LOGIN)) as [Hl|Hl].
  - rewrite (bool_decide_eq_false_2 (PAGE_LOGIN ≠ req_page r)) by
      (intros H; by apply H).
    cbn [andb]. cbv iota. rewrite Hl.
    destruct (sendlogin_outcomes r w1 Hk) as (w2 & Hrun & _).
    rewrite (bind_run _ _ _ _ _ Hrun). exists w2. split; [done|].
    right. split; [exact Hfront|]. exists u, w1. do 2 (split; [done|]).
    right. by left.
  - rewrite (bool_decide_eq_true_2 (PAGE_LOGIN ≠ req_page r)) by done.
    destruct u as [a|].
    2:{ rewrite bool_decide_eq_true_2 by done. eexists. split; [done|].
        right. split; [exact Hfront|]. exists None, w1. do 2 (split; [done|]).
        by left. }
    rewrite (bool_decide_eq_false_2 (Some a = None)) by done.
    cbn [andb]. cbv iota.
    destruct (req_page r) eqn:Hpage; try done.
    + rewrite (bind_run _ _ _ _ _ (sendindex_run _ _ _ Hk)).
      eexists. split; [done|]. right. split; [exact Hfront|].
      exists (Some a), w1. do 2 (split; [done|]). right. right.
      exists a. split; [done|]. left. split; [done|]. by apply sendindex_run.
    + destruct (resolved_cookies_present _ _ _ _ Hres') as [[ks Hs] [kt Ht]].
      rewrite (bind_run _ _ _ _ _
                 (sendlogout_run lib SECURE _ _ _ _ _ Hk Hs Ht)).
      eexists. split; [done|]. right. split; [exact Hfront|].
      exists (Some a), w1. do 2 (split; [done|]). right. right.
      exists a. split; [done|]. right. left. split; [done|].
      exists ks, kt. do 2 (split; [done|]). by apply sendlogout_run.
    + destruct (sendmodemail_keeps lib r a w1 Hk) as (w2 & Hrun & _).
      rewrite (bind_run _ _ _ _ _ Hrun). exists w2. split; [done|].
      right. split; [exact Hfront|]. exists (Some a), w1. do 2 (split; [done|]).
      right. right. exists a. split; [done|]. right. right. by left.
    + destruct (sendmodpass_keeps lib plat r a w1 Hk) as (w2 & Hrun & _).
      rewrite (bind_run _ _ _ _ _ Hrun). exists w2. split; [done|].
      right. split; [exact Hfront|]. exists (Some a), w1. do 2 (split; [done|]).
      right. right. exists a. split; [done|]. right. right. by right.
Qed.

(** Split a goal about [main r w] along [main_outcomes], with the world
    each handler leaves written out. *)
Ltac main_cases r w Hk w' Hrun :=
  let Hnf := fresh "Hnf" in
  let Hf := fresh "Hf" in
  let u := fresh "u" in
  let w1 := fresh "w1" in
  let Hres := fresh "Hres" in
  let Hw1 := fresh "Hw1" in
  let Hpg := fresh "Hpg" in
  let Hh := fresh "Hh" in
  let a := fresh "a" in
  let ks := fresh "ks" in
  let kt := fresh "kt" in
  let Hs := fresh "Hs" in
  let Ht := fresh "Ht" in
  let kp := fresh "kp" in
  let Hkp := fresh "Hkp" in
  let Hc := fresh "Hc" in
  let w2 := fresh "w2" in
  let Hrun2 := fresh "Hrun2" in
  let u0 := fresh "u0" in
  let Hu0 := fresh "Hu0" in
  destruct (main_outcomes r w Hk)
    as (w' & Hrun &
        [(Hnf & [-> | [-> | ->]])
        |(Hf & u & w1 & Hres & Hw1 &
          [(Hpg & -> & ->)
          |[(Hpg & Hh)
           |(a & -> & [(Hpg & Hh)
                      |[(Hpg & ks & kt & Hs & Ht & Hh)
                       |[(Hpg & Hh) | (Hpg & Hh)]]])]])]);
  [ | | | |
    destruct (sendlogin_outcomes r w1 Hk)
      as (w2 & Hrun2 & [-> | [-> | (u0 & Hu0 & ->)]]);
    rewrite Hrun2 in Hh; injection Hh as <-
  | rewrite (sendindex_run _ _ _ Hk) in Hh; injection Hh as <-
  | rewrite (sendlogout_run lib SECURE _ _ _ _ _ Hk Hs Ht) in Hh;
    injection Hh as <-
  | destruct (fieldmap r KEY_EMAIL) as [kp|] eqn:Hkp;
    [ rewrite (sendmodemail_run _ _ _ _ Hk Hkp) in Hh;
      destruct (email_conflict (parsed_s kp) (user_id a) (w_db w1)) eqn:Hc
    | unfold sendmodemail in Hh;
      rewrite Hkp, (http_open_run _ _ _ _ Hk) in Hh ];
    injection Hh as <-
  | destruct (fieldmap r KEY_PASS) as [kp|] eqn:Hkp;
    [ rewrite (sendmodpass_run _ _ _ _ Hk Hkp) in Hh
    | unfold sendmodpass in Hh;
      rewrite Hkp, (http_open_run _ _ _ _ Hk) in Hh ];
    injection Hh as <- ].

(** X5.  Every run on a request whose suffix is known (the type has its
    entry in [kmimetypes]) returns, opens the response body, and writes
    its headers in one of two shapes.  Either they are the five headers of
    [http_alloc] (status line, content type, and the three security
    headers), followed on a logout by the two emptied cookies; or, for
    a login that succeeded, they are the status line and the two session
    cookies alone, with no content type and none of the security
    headers. *)
Theorem response_shapes (r : kreq) (w : world) :
  mime r ≠ KMIME__MAX →
  ∃ w', main lib plat SECURE r w = Done EXIT_SUCCESS w' ∧
    is_Some (w_body w') ∧
    ((∃ code,
        w_head w' = w_head w ++ http_heads lib r code ∨
        (req_page r = PAGE_LOGOUT ∧ code = KHTTP_200 ∧
         w_head w' = w_head w ++ http_heads lib r code ++
           [ (kresps lib KRESP_SET_COOKIE,
              logout_cookie SECURE "stok" (kutil_epoch2str lib 0 32));
             (kresps lib KRESP_SET_COOKIE,
              logout_cookie SECURE "sid" (kutil_epoch2str lib 0 32)) ])) ∨
     (req_page r = PAGE_LOGIN ∧
      ∃ token sid expires,
        w_head w' = w_head w ++
          [ (kresps lib KRESP_STATUS, khttps lib KHTTP_200);
            (kresps lib KRESP_SET_COOKIE,
             login_cookie SECURE "stok" token expires);
            (kresps lib KRESP_SET_COOKIE,
             login_cookie SECURE "sid" sid expires) ])).
Proof.
  intros Hk.
  main_cases r w Hk w' Hrun; (eexists; split; [exact Hrun|]);
    try (destruct Hw1 as [(_ & _ & ->) | (_ & _ & ->)]);
    (split; [by eexists|]);
    first [ left; eexists; left; reflexivity
          | left; exists KHTTP_200; right; by repeat split
          | right; split; [done|]; by eexists _, _, _ ].
Qed.

(** X6.  Which page writes which table, for a request whose suffix is
    known: the run returns, and the user table is as it was except on
    the two pages that change a profile; the
    session table is as it was except on the login and logout pages;
    the row id of the last insert moves on the login page alone; and a
    request turned away before the session look-up leaves the whole
    store as it was. *)
Theorem tables_written_by_page (r : kreq) (w : world) :
  mime r ≠ KMIME__MAX →
  ∃ w', main lib plat SECURE r w = Done EXIT_SUCCESS w' ∧
    (req_page r ≠ PAGE_USER_MOD_EMAIL → req_page r ≠ PAGE_USER_MOD_PASS →
     tbl_user (w_db w') = tbl_user (w_db w)) ∧
    (req_page r ≠ PAGE_LOGIN → req_page r ≠ PAGE_LOGOUT →
     tbl_sess (w_db w') = tbl_sess (w_db w)) ∧
    (req_page r ≠ PAGE_LOGIN → last_rowid (w_db w') = last_rowid (w_db w)) ∧
    (¬ passes_front_line r w → w_db w' = w_db w).
Proof.
  intros Hk.
  main_cases r w Hk w' Hrun; (eexists; split; [exact Hrun|]);
    try (destruct Hw1 as [(_ & _ & ->) | (_ & _ & ->)]);
    (split; [|split; [|split]]); intros; try done; try reflexivity.
Qed.

(** X7.  A run on a request whose suffix is known returns, writes at
    most one line to the log, and only when it answers 200:
    ["new session"] on the login page, ["session deleted"] on the logout
    page, ["changed password"] and ["changed email: "] with the new
    address on the two profile pages.  A request that is turned away,
    whatever the reason, leaves no line. *)
Theorem log_lines (r : kreq) (w : world) :
  mime r ≠ KMIME__MAX →
  ∃ w', main lib plat SECURE r w = Done EXIT_SUCCESS w' ∧
    (w_log w' = w_log w ∨
     ∃ who msg rest,
       w_log w' = w_log w ++ [(who, msg)] ∧
       w_head w' = w_head w ++
         ((kresps lib KRESP_STATUS, khttps lib KHTTP_200) :: rest) ∧
       (req_page r = PAGE_LOGIN ∧ msg = "new session" ∨
        req_page r = PAGE_LOGOUT ∧ msg = "session deleted" ∨
        req_page r = PAGE_USER_MOD_PASS ∧ msg = "changed password" ∨
        req_page r = PAGE_USER_MOD_EMAIL ∧
        ∃ kp, fieldmap r KEY_EMAIL = Some kp ∧
              msg = "changed email: " +:+ parsed_s kp)).
Proof.
  intros Hk.
  main_cases r w Hk w' Hrun; (eexists; split; [exact Hrun|]);
    try (destruct Hw1 as [(_ & _ & ->) | (_ & _ & ->)]);
    first [ by left
          | right; eexists _, _, _;
            split; [reflexivity|]; split; [reflexivity|];
            first [ by left | right; by left | right; right; by left
                  | right; right; right; split; [done|]; by eexists ] ].
Qed.

(** X8.  A run on a request whose suffix is known returns, steps at
    most three statements and never the prepared [STMT_USER_GET].  None
    is stepped for a request turned away by the first tests, and none
    for a request outside the login page that lacks one of the two
    cookies. *)
Theorem statements_stepped (r : kreq) (w : world) :
  mime r ≠ KMIME__MAX →
  ∃ w' qs, main lib plat SECURE r w = Done EXIT_SUCCESS w' ∧
    w_sql w' = w_sql w ++ qs ∧
    (length qs ≤ 3)%nat ∧ (STMT_USER_GET ∉ qs) ∧
    (¬ passes_front_line r w → qs = []) ∧
    (cookiemap r KEY_SESSID = None ∨ cookiemap r KEY_SESSTOK = None →
     req_page r ≠ PAGE_LOGIN → qs = []).
Proof.
  intros Hk.
  assert (Habsent :
    cookiemap r KEY_SESSID = None ∨ cookiemap r KEY_SESSTOK = None →
    cookie_or_absent r KEY_SESSID ≠ -1 →
    cookie_or_absent r KEY_SESSTOK ≠ -1 → False).
  { unfold cookie_or_absent. by intros [-> | ->]. }
  main_cases r w Hk w' Hrun;
    try (destruct Hw1 as [(Habs & Hnone & ->) | (Hsid & Hstok & ->)]);
    try discriminate Hnone;
    (eexists _, _; split; [exact Hrun|]);
    (split; [cbn [w_sql add_sql open_body add_heads add_body add_log set_db];
             rewrite <- ?app_assoc;
             first [reflexivity | symmetry; apply app_nil_r]|]);
    (split; [cbn; lia|]);
    (split; [by_evaluation|]);
    (split; [intros; try done|]);
    intros Hmiss Hpage; try done; try (by destruct (Habsent Hmiss)).
Qed.

(** *** The profile pages *)

Lemma with_email_other_row (email : string) (id : Z) (row : user_row) :
  ur_id row ≠ id → with_email email id row = row.
Proof. intros Hne. unfold with_email. by rewrite bool_decide_eq_false_2. Qed.

Lemma with_email_own_row (email : string) (row : user_row) :
  with_email email (ur_id row) row
  = {| ur_id := ur_id row; ur_email := email; ur_hash := ur_hash row |}.
Proof. unfold with_email. by rewrite bool_decide_eq_true_2. Qed.

Lemma with_email_hash (email : string) (id : Z) (l : list user_row) :
  ur_hash <$> (with_email email id <$> l) = ur_hash <$> l.
Proof.
  rewrite <- list_fmap_compose. apply list_fmap_ext. intros i u _.
  unfold with_email. simpl. by case_bool_decide.
Qed.

Lemma with_hash_other_row (hash : string) (id : Z) (row : user_row) :
  ur_id row ≠ id → with_hash hash id row = row.
Proof. intros Hne. unfold with_hash. by rewrite bool_decide_eq_false_2. Qed.

Lemma with_hash_own_row (hash : string) (row : user_row) :
  with_hash hash (ur_id row) row
  = {| ur_id := ur_id row; ur_email := ur_email row; ur_hash := hash |}.
Proof. unfold with_hash. by rewrite bool_decide_eq_true_2. Qed.

Lemma with_hash_id_email (hash : string) (id : Z) (l : list user_row) :
  ur_id <$> (with_hash hash id <$> l) = ur_id <$> l ∧
  ur_email <$> (with_hash hash id <$> l) = ur_email <$> l.
Proof.
  rewrite <- !list_fmap_compose.
  split; apply list_fmap_ext; intros i u _; unfold with_hash; simpl;
    by case_bool_decide.
Qed.

(** X9.  On the two profile pages a run changes no row but that of the
    user the session resolved to: the ids stay in place, every row of
    another user is as it was, an e-mail change touches no hash, a
    password change touches no e-mail, and neither touches a session. *)
Theorem profile_pages_touch_own_row (r : kreq) (w w1 : world) (a : user) :
  passes_front_line r w →
  db_sess_resolve r (cookie_or_absent r KEY_SESSID)
                    (cookie_or_absent r KEY_SESSTOK) w = Done (Some a) w1 →
  req_page r = PAGE_USER_MOD_EMAIL ∨ req_page r = PAGE_USER_MOD_PASS →
  ∃ w', main lib plat SECURE r w = Done EXIT_SUCCESS w' ∧
    ur_id <$> tbl_user (w_db w') = ur_id <$> tbl_user (w_db w) ∧
    (∀ (i : nat) (row : user_row),
       tbl_user (w_db w) !! i = Some row → ur_id row ≠ user_id a →
       tbl_user (w_db w') !! i = Some row) ∧
    (req_page r = PAGE_USER_MOD_EMAIL →
     ur_hash <$> tbl_user (w_db w') = ur_hash <$> tbl_user (w_db w)) ∧
    (req_page r = PAGE_USER_MOD_PASS →
     ur_email <$> tbl_user (w_db w') = ur_email <$> tbl_user (w_db w)) ∧
    tbl_sess (w_db w') = tbl_sess (w_db w).
Proof.
  intros (Hm & Hp & Hj & Ha) Hres Hpage.
  rewrite (main_past_front_line lib plat SECURE _ _ _ _ Hm Hp Hj Ha Hres).
  rewrite (bool_decide_eq_false_2 (Some a = None)) by done.
  rewrite andb_false_r.
  assert (Hdb : w_db w1 = w_db w).
  { rewrite db_sess_resolve_run in Hres.
    destruct (_ || _); by injection Hres as _ <-. }
  destruct Hpage as [Hpage|Hpage]; rewrite Hpage.
  - destruct (fieldmap r KEY_EMAIL) as [kp|] eqn:Hkp.
    + pose proof (sendmodemail_run r a kp w1 (json_known _ Hj) Hkp) as Hh.
      rewrite Hdb in Hh.
      destruct (email_conflict _ _ _); rewrite (bind_run _ _ _ _ _ Hh);
        (eexists; split; [reflexivity|]);
        cbn [w_db open_body add_heads add_log set_db add_sql tbl_user
             tbl_sess]; rewrite ?Hdb.
      * by repeat split.
      * split; [apply with_email_id|]. split.
        { intros i row Hrow Hne. rewrite list_lookup_fmap, Hrow. cbn.
          by rewrite with_email_other_row. }
        split; [intros _; apply with_email_hash|]. by split.
    + unfold sendmodemail. rewrite Hkp.
      rewrite (bind_run _ _ _ _ _
                 (http_open_run _ _ _ _ (json_known _ Hj))).
      eexists. split; [reflexivity|]. cbn. rewrite Hdb. by repeat split.
  - destruct (fieldmap r KEY_PASS) as [kp|] eqn:Hkp.
    + rewrite (bind_run _ _ _ _ _
                 (sendmodpass_run _ _ _ _ (json_known _ Hj) Hkp)).
      eexists. split; [reflexivity|].
      cbn [w_db open_body add_heads add_log set_db add_sql tbl_user
           tbl_sess stmt_user_mod_hash]; rewrite ?Hdb.
      destruct (with_hash_id_email
                  match plat with
                  | OpenBSD _ nh => nh (parsed_s kp) "blowfish,a" 64%nat
                  | Portable => strlcpy (parsed_s kp) 64
                  end (user_id a) (tbl_user (w_db w))) as [Hids Hmails].
      split; [exact Hids|]. split.
      { intros i row Hrow Hne. rewrite list_lookup_fmap, Hrow. cbn.
        by rewrite with_hash_other_row. }
      split; [done|]. by split.
    + unfold sendmodpass. rewrite Hkp.
      rewrite (bind_run _ _ _ _ _
                 (http_open_run _ _ _ _ (json_known _ Hj))).
      eexists. split; [reflexivity|]. cbn. rewrite Hdb. by repeat split.
Qed.

Lemma email_free_no_conflict (db : database) (email : string) (id : Z) :
  (∀ u, u ∈ tbl_user db → ur_id u ≠ id → ur_email u ≠ email) →
  email_conflict email id db = false.
Proof.
  intros Hfree. unfold email_conflict. apply andb_false_iff. right.
  apply bool_decide_eq_false_2. intros Hex.
  apply Exists_exists in Hex as (u & Hu & Hid & Hmail). by apply (Hfree u).
Qed.

(** X10.  An e-mail change to an address no other user holds answers
    200, writes the address into the row of the session's user and logs
    the change under the old address.  From then on the user is found
    under the new address with the password as before, no longer under
    the old one, and the session resolves to the user with the new
    address. *)
Theorem email_change_takes_effect (r : kreq) (w : world) (s : sess_row)
    (ur : user_row) (kp : kpair) :
  passes_front_line r w → req_page r = PAGE_USER_MOD_EMAIL →
  store_ok (w_db w) → carries_session r (w_db w) s ur →
  fieldmap r KEY_EMAIL = Some kp →
  (∀ u, u ∈ tbl_user (w_db w) → ur_id u ≠ ur_id ur →
        ur_email u ≠ parsed_s kp) →
  ∃ w', main lib plat SECURE r w = Done EXIT_SUCCESS w' ∧
    w_head w' = w_head w ++ http_heads lib r KHTTP_200 ∧
    tbl_user (w_db w')
      = with_email (parsed_s kp) (ur_id ur) <$> tbl_user (w_db w) ∧
    w_log w' = w_log w ++
      [(ur_email ur, "changed email: " +:+ parsed_s kp)] ∧
    (∀ pass, ¬ wrong_password plat pass (ur_hash ur) →
       db_user_find plat (parsed_s kp) pass w'
       = Done (Some {| user_email := parsed_s kp; user_id := ur_id ur |})
              (add_sql STMT_USER_LOOKUP w')) ∧
    (parsed_s kp ≠ ur_email ur →
     ∀ pass, db_user_find plat (ur_email ur) pass w'
             = Done None (add_sql STMT_USER_LOOKUP w')) ∧
    db_sess_resolve r (cookie_or_absent r KEY_SESSID)
                      (cookie_or_absent r KEY_SESSTOK) w'
    = Done (Some {| user_email := parsed_s kp; user_id := ur_id ur |})
           (add_sql STMT_SESS_GET w').
Proof.
  intros Hfront Hpage Hok Hsess Hkp Hfree.
  rewrite (main_with_session _ _ _ _ Hfront Hok Hsess), Hpage.
  pose proof (sendmodemail_run r (db_user_fill (USER ur)) kp
                (add_sql STMT_SESS_GET w) (front_line_known _ _ Hfront) Hkp)
    as Hh.
  cbn [user_id user_email db_user_fill USER fst snd w_db add_sql] in Hh.
  rewrite (email_free_no_conflict _ _ _ Hfree) in Hh.
  rewrite (bind_run _ _ _ _ _ Hh). clear Hh.
  eexists. split; [reflexivity|].
  set (db' := {| tbl_user := with_email (parsed_s kp) (ur_id ur)
                               <$> tbl_user (w_db w);
                 tbl_sess := tbl_sess (w_db w);
                 last_rowid := last_rowid (w_db w) |}).
  set (w' := open_body _).
  assert (Hdb' : w_db w' = db') by reflexivity.
  assert (Hok' : store_ok db').
  { pose proof (stmt_user_mod_email_store_ok (w_db w) (parsed_s kp)
                  (ur_id ur) Hok) as Hkeep.
    unfold stmt_user_mod_email in Hkeep.
    by rewrite (email_free_no_conflict _ _ _ Hfree) in Hkeep. }
  destruct Hsess as (Hs & Hur & Hown & Hsid & Hstok).
  set (ur' := {| ur_id := ur_id ur; ur_email := parsed_s kp;
                 ur_hash := ur_hash ur |}).
  assert (Hur' : ur' ∈ tbl_user db').
  { unfold ur'. rewrite <- with_email_own_row.
    by apply (list_elem_of_fmap_2 (with_email _ _)). }
  split; [reflexivity|].
  split; [done|]. split; [done|]. split; [|split].
  - intros pass Hright.
    apply (db_user_find_accepts plat pass ur' w'); by rewrite ?Hdb'.
  - intros Hne pass. rewrite db_user_find_run, Hdb'.
    rewrite stmt_user_lookup_unknown; [done|].
    intros u' Hu'. cbn in Hu'.
    apply list_elem_of_fmap in Hu' as (u & -> & Hu).
    unfold with_email. case_bool_decide as Hid; cbn; [done|].
    intros Hsame. apply Hid. f_equal.
    apply (key_inj ur_email (tbl_user (w_db w)));
      [by apply user_email_unique|done|done|done].
  - apply (resolve_session r w' s ur'); [by rewrite Hdb'|].
    rewrite Hdb'. by repeat split.
Qed.

Lemma substring_whole (s : string) (n : nat) :
  (String.length s ≤ n)%nat → String.substring 0 n s = s.
Proof.
  revert n. induction s as [|c s IH]; intros [|n] Hlen; cbn in *;
    try done; try lia.
  f_equal. apply IH. lia.
Qed.

Lemma substring_length_le (s : string) (n : nat) :
  (String.length (String.substring 0 n s) ≤ n)%nat.
Proof.
  revert n. induction s as [|c s IH]; intros [|n]; cbn; try lia.
  specialize (IH n). lia.
Qed.

Lemma strlcpy_same (s : string) (size : nat) :
  strlcpy s (S size) = s ↔ (String.length s ≤ size)%nat.
Proof.
  unfold strlcpy. replace (S size - 1)%nat with size by lia. split.
  - intros Heq. rewrite <- Heq. apply substring_length_le.
  - apply substring_whole.
Qed.

(** What a password change does, and what follows from it. *)
Lemma password_change_effect (r : kreq) (w : world) (s : sess_row)
    (ur : user_row) (kp : kpair) :
  passes_front_line r w → req_page r = PAGE_USER_MOD_PASS →
  store_ok (w_db w) → carries_session r (w_db w) s ur →
  fieldmap r KEY_PASS = Some kp →
  let stored :=
    match plat with
    | OpenBSD _ crypt_newhash =>
        crypt_newhash (parsed_s kp) "blowfish,a" 64%nat
    | Portable => strlcpy (parsed_s kp) 64
    end in
  ∃ w', main lib plat SECURE r w = Done EXIT_SUCCESS w' ∧
    w_head w' = w_head w ++ http_heads lib r KHTTP_200 ∧
    tbl_user (w_db w') = with_hash stored (ur_id ur) <$> tbl_user (w_db w) ∧
    tbl_sess (w_db w') = tbl_sess (w_db w) ∧
    w_log w' = w_log w ++ [(ur_email ur, "changed password")] ∧
    (∀ pass, ¬ wrong_password plat pass stored →
       db_user_find plat (ur_email ur) pass w'
       = Done (Some {| user_email := ur_email ur; user_id := ur_id ur |})
              (add_sql STMT_USER_LOOKUP w')) ∧
    (∀ pass, wrong_password plat pass stored →
       db_user_find plat (ur_email ur) pass w'
       = Done None (add_sql STMT_USER_LOOKUP w')) ∧
    db_sess_resolve r (cookie_or_absent r KEY_SESSID)
                      (cookie_or_absent r KEY_SESSTOK) w'
    = Done (Some {| user_email := ur_email ur; user_id := ur_id ur |})
           (add_sql STMT_SESS_GET w').
Proof.
  intros Hfront Hpage Hok Hsess Hkp stored.
  rewrite (main_with_session _ _ _ _ Hfront Hok Hsess), Hpage.
  rewrite (bind_run _ _ _ _ _
             (sendmodpass_run _ _ _ _ (front_line_known _ _ Hfront) Hkp)).
  eexists. split; [reflexivity|].
  fold stored. set (w' := add_log _ _).
  set (db' := stmt_user_mod_hash stored (ur_id ur) (w_db w)).
  assert (Hdb' : w_db w' = db') by reflexivity.
  assert (Hok' : store_ok db') by by apply stmt_user_mod_hash_store_ok.
  destruct Hsess as (Hs & Hur & Hown & Hsid & Hstok).
  set (ur' := {| ur_id := ur_id ur; ur_email := ur_email ur;
                 ur_hash := stored |}).
  assert (Hur' : ur' ∈ tbl_user db').
  { unfold ur'. rewrite <- with_hash_own_row.
    by apply (list_elem_of_fmap_2 (with_hash _ _)). }
  split; [reflexivity|]. split; [done|]. split; [done|].
  split; [reflexivity|]. split; [|split].
  - intros pass Hright.
    apply (db_user_find_accepts plat pass ur' w'); by rewrite ?Hdb'.
  - intros pass Hwrong.
    rewrite db_user_find_run, Hdb'.
    change (ur_email ur) with (ur_email ur').
    rewrite (stmt_user_lookup_known db' ur') by done. cbn.
    apply checkpass_wrong in Hwrong. by rewrite Hwrong.
  - apply (resolve_session r w' s ur'); [by rewrite Hdb'|].
    rewrite Hdb'. by repeat split.
Qed.

(** X11.  A password change answers 200, puts the new hash (from
    [crypt_newhash], or on the other build the first 63 characters of
    the password) into the row of the session's user, and logs it.  The
    sessions stay: the one of the request still resolves to the user.
    From then on a login under the user's address is accepted or
    refused by the check of the build against the new hash. *)
Theorem password_change_takes_effect (r : kreq) (w : world) (s : sess_row)
    (ur : user_row) (kp : kpair) :
  passes_front_line r w → req_page r = PAGE_USER_MOD_PASS →
  store_ok (w_db w) → carries_session r (w_db w) s ur →
  fieldmap r KEY_PASS = Some kp →
  let stored :=
    match plat with
    | OpenBSD _ crypt_newhash =>
        crypt_newhash (parsed_s kp) "blowfish,a" 64%nat
    | Portable => strlcpy (parsed_s kp) 64
    end in
  ∃ w', main lib plat SECURE r w = Done EXIT_SUCCESS w' ∧
    w_head w' = w_head w ++ http_heads lib r KHTTP_200 ∧
    tbl_user (w_db w') = with_hash stored (ur_id ur) <$> tbl_user (w_db w) ∧
    tbl_sess (w_db w') = tbl_sess (w_db w) ∧
    w_log w' = w_log w ++ [(ur_email ur, "changed password")] ∧
    (∀ pass, ¬ wrong_password plat pass stored →
       db_user_find plat (ur_email ur) pass w'
       = Done (Some {| user_email := ur_email ur; user_id := ur_id ur |})
              (add_sql STMT_USER_LOOKUP w')) ∧
    (∀ pass, wrong_password plat pass stored →
       db_user_find plat (ur_email ur) pass w'
       = Done None (add_sql STMT_USER_LOOKUP w')) ∧
    db_sess_resolve r (cookie_or_absent r KEY_SESSID)
                      (cookie_or_absent r KEY_SESSTOK) w'
    = Done (Some {| user_email := ur_email ur; user_id := ur_id ur |})
           (add_sql STMT_SESS_GET w').
Proof. apply password_change_effect. Qed.

(** *** Login and logout *)

(** X12.  A login that fails answers 400 and nothing else, whatever the
    reason: a missing field, an address no user has, or a wrong
    password.  The three answers are the same; no session row is made,
    no cookie is set and no line is logged. *)
Theorem login_refused_leaves_nothing (r : kreq) (w : world) :
  passes_front_line r w → req_page r = PAGE_LOGIN → store_ok (w_db w) →
  (fieldmap r KEY_EMAIL = None ∨ fieldmap r KEY_PASS = None ∨
   ∃ kpi kpp,
     fieldmap r KEY_EMAIL = Some kpi ∧ fieldmap r KEY_PASS = Some kpp ∧
     ((∀ u, u ∈ tbl_user (w_db w) → ur_email u ≠ parsed_s kpi) ∨
      ∃ ur, ur ∈ tbl_user (w_db w) ∧ ur_email ur = parsed_s kpi ∧
            wrong_password plat (parsed_s kpp) (ur_hash ur))) →
  ∃ w', main lib plat SECURE r w = Done EXIT_SUCCESS w' ∧
    w_head w' = w_head w ++ http_heads lib r KHTTP_400 ∧
    w_body w' = Some (default [] (w_body w)) ∧
    w_db w' = w_db w ∧ w_log w' = w_log w.
Proof.
  intros (Hm & Hp & Hj & Ha) Hpage Hok Hwhy.
  destruct (db_sess_resolve_total r (cookie_or_absent r KEY_SESSID)
              (cookie_or_absent r KEY_SESSTOK) w)
    as (u0 & w1 & Hres & Hdb & Hhead & Hbody & Hlog & _).
  rewrite (main_past_front_line lib plat SECURE _ _ _ _ Hm Hp Hj Ha Hres).
  rewrite (bool_decide_eq_false_2 (PAGE_LOGIN ≠ req_page r)) by
    (intros H; by apply H).
  cbn [andb]. cbv iota. rewrite Hpage.
  assert (Hrun : sendlogin lib plat SECURE r w1
                 = Done () (open_body (add_heads (http_heads lib r KHTTP_400) w1))
               ∨ sendlogin lib plat SECURE r w1
                 = Done () (open_body (add_heads (http_heads lib r KHTTP_400)
                                         (add_sql STMT_USER_LOOKUP w1)))).
  { destruct Hwhy as [Hmiss|[Hmiss|(kpi & kpp & Hi & Hpp & Hbad)]].
    - left. apply sendlogin_refused; [by apply json_known|by left].
    - left. apply sendlogin_refused; [by apply json_known|by right].
    - right.
      apply (sendlogin_not_found r kpi kpp w1 (add_sql STMT_USER_LOOKUP w1));
        [by apply json_known|done|done|].
      destruct Hbad as [Hunknown|(ur & Hur & Hmail & Hwrong)].
      + rewrite db_user_find_run, Hdb.
        by rewrite stmt_user_lookup_unknown.
      + rewrite db_user_find_run, Hdb, <- Hmail.
        rewrite stmt_user_lookup_known by done. cbn.
        apply checkpass_wrong in Hwrong. by rewrite Hwrong. }
  destruct Hrun as [Hrun|Hrun]; rewrite (bind_run _ _ _ _ _ Hrun);
    (eexists; split; [reflexivity|]); cbn; rewrite Hdb, Hhead, Hbody, Hlog;
    by repeat split.
Qed.

Lemma stmt_sess_get_after_insert (db : database) (id token last : Z)
    (row : sess_row) (cols : Z * string) :
  head (stmt_sess_get id token db) = Some cols →
  head (stmt_sess_get id token
          {| tbl_user := tbl_user db; tbl_sess := tbl_sess db ++ [row];
             last_rowid := last |}) = Some cols.
Proof.
  unfold stmt_sess_get. cbn [tbl_sess tbl_user].
  rewrite filter_app, bind_app.
  destruct (filter _ (tbl_sess db) ≫= _) as [|c l]; [done|].
  by intros [= <-].
Qed.

(** X13.  A login that succeeds adds one session row for the user and
    logs it.  The pair it hands out in the two cookies (the id of the
    new row and the token drawn) resolves to that user, and every pair
    that resolved to a user before the login resolves to the same user
    after it; the user table is as it was. *)
Theorem login_starts_session (r : kreq) (w : world) (kpi kpp : kpair)
    (ur : user_row) :
  passes_front_line r w → req_page r = PAGE_LOGIN → store_ok (w_db w) →
  fieldmap r KEY_EMAIL = Some kpi → fieldmap r KEY_PASS = Some kpp →
  ur ∈ tbl_user (w_db w) → ur_email ur = parsed_s kpi →
  ¬ wrong_password plat (parsed_s kpp) (ur_hash ur) →
  ∃ w', main lib plat SECURE r w = Done EXIT_SUCCESS w' ∧
    tbl_user (w_db w') = tbl_user (w_db w) ∧
    tbl_sess (w_db w') = tbl_sess (w_db w) ++
      [{| sr_id := next_rowid (tbl_sess (w_db w));
          sr_token := w_random w `mod` 2 ^ 32;
          sr_userid := ur_id ur |}] ∧
    w_log w' = w_log w ++ [(ur_email ur, "new session")] ∧
    db_sess_resolve r (next_rowid (tbl_sess (w_db w)))
                      (w_random w `mod` 2 ^ 32) w'
    = Done (Some {| user_email := ur_email ur; user_id := ur_id ur |})
           (add_sql STMT_SESS_GET w') ∧
    (∀ (id token : Z) (u : user) (w1 : world),
       db_sess_resolve r id token w = Done (Some u) w1 →
       db_sess_resolve r id token w'
       = Done (Some u) (add_sql STMT_SESS_GET w')).
Proof.
  intros (Hm & Hp & Hj & Ha) Hpage Hok Hi Hpp Hur Hmail Hright.
  destruct (db_sess_resolve_total r (cookie_or_absent r KEY_SESSID)
              (cookie_or_absent r KEY_SESSTOK) w)
    as (u0 & w1 & Hres & Hdb & Hhead & Hbody & Hlog & Htime & Hrand).
  rewrite (main_past_front_line lib plat SECURE _ _ _ _ Hm Hp Hj Ha Hres).
  rewrite (bool_decide_eq_false_2 (PAGE_LOGIN ≠ req_page r)) by
    (intros H; by apply H).
  cbn [andb]. cbv iota. rewrite Hpage.
  erewrite bind_run;
    [|apply (sendlogin_run lib plat SECURE r kpi kpp ur); by rewrite ?Hdb].
  cbv zeta. rewrite Hdb, Hrand, Htime.
  eexists. split; [reflexivity|].
  set (row := {| sr_id := next_rowid (tbl_sess (w_db w));
                 sr_token := w_random w `mod` 2 ^ 32;
                 sr_userid := ur_id ur |}).
  set (db' := {| tbl_user := tbl_user (w_db w);
                 tbl_sess := tbl_sess (w_db w) ++ [row];
                 last_rowid := next_rowid (tbl_sess (w_db w)) |}).
  set (w' := open_body _).
  assert (Hdb' : w_db w' = db') by reflexivity.
  assert (Hok' : store_ok db').
  { apply sess_appended_store_ok; [done|by apply (list_elem_of_fmap_2 ur_id)|].
    apply Z.mod_pos_bound. lia. }
  split; [done|]. split; [done|].
  split; [by subst w'; cbn; rewrite Hlog|]. split.
  - apply (resolve_row r w' row ur); rewrite ?Hdb'; try done.
    cbn. apply elem_of_app. right. by apply list_elem_of_singleton.
  - intros id token u w2 Hbefore.
    rewrite db_sess_resolve_run in Hbefore. rewrite db_sess_resolve_run.
    destruct (_ || _); [done|]. injection Hbefore as Hu _.
    destruct (head (stmt_sess_get id token (w_db w))) as [cols|] eqn:Hcols;
      [|done].
    rewrite Hdb'. unfold db'.
    rewrite (stmt_sess_get_after_insert (w_db w) id token _ row cols Hcols).
    by rewrite Hu.
Qed.

Lemma filter_filter_keep {A} (P Q : A → Prop) `{∀ x, Decision (P x)}
    `{∀ x, Decision (Q x)} (l : list A) :
  (∀ x, x ∈ l → P x → Q x) → filter P (filter Q l) = filter P l.
Proof.
  induction l as [|a l IH]; intros Himp; [done|].
  assert (Hl : ∀ x, x ∈ l → P x → Q x) by (intros x Hx; apply Himp; by right).
  destruct (decide (Q a)) as [Hq|Hq].
  - rewrite (filter_cons_True Q) by done.
    destruct (decide (P a)).
    + rewrite !(filter_cons_True P) by done. f_equal. by apply IH.
    + rewrite !(filter_cons_False P) by done. by apply IH.
  - rewrite (filter_cons_False Q) by done.
    rewrite (filter_cons_False P); [by apply IH|].
    intros Hp. apply Hq, Himp; [by left|done].
Qed.

Lemma filter_but_one {A K} `{EqDecision A} (f : A → K) (Q : A → Prop)
    `{∀ x, Decision (Q x)} (l : list A) (x : A) :
  NoDup (f <$> l) → x ∈ l → ¬ Q x → (∀ y, ¬ Q y → f y = f x) →
  filter Q l = filter (λ y, y ≠ x) l.
Proof.
  intros Hnd Hx Hqx Hkey. induction l as [|a l IH]; [done|].
  rewrite fmap_cons in Hnd. apply NoDup_cons in Hnd as [Ha Hnd].
  assert (Hrest : x ∉ l → filter Q l = filter (λ y, y ≠ x) l).
  { intros Hnot. rewrite !filter_all; [done| |].
    - intros y Hy ->. done.
    - intros y Hy. destruct (decide (Q y)) as [|Hn]; [done|].
      exfalso. destruct (decide (y = x)) as [->|Hne]; [done|].
      clear IH. apply Hkey in Hn.
      apply elem_of_cons in Hx as [->|Hx]; [|done].
      apply Ha. rewrite <- Hn. by apply list_elem_of_fmap_2. }
  apply elem_of_cons in Hx as [->|Hx].
  - rewrite (filter_cons_False Q) by done.
    rewrite (filter_cons_False (λ y, y ≠ a)) by (intros Hn; by apply Hn).
    apply Hrest. intros Hin. apply Ha. by apply list_elem_of_fmap_2.
  - assert (a ≠ x).
    { intros ->. apply Ha. by apply list_elem_of_fmap_2. }
    assert (Q a).
    { destruct (decide (Q a)) as [|Hn]; [done|]. exfalso. apply Ha.
      rewrite (Hkey a Hn). by apply list_elem_of_fmap_2. }
    rewrite (filter_cons_True Q), (filter_cons_True (λ y, y ≠ x)) by done.
    f_equal. by apply IH.
Qed.

(** X14.  A logout ends the session of its two cookies and no other:
    the session table afterwards is the one before without that row,
    the user table is as it was, and any other pair of id and token
    resolves exactly as it did before, also a pair of another session
    of the same user. *)
Theorem logout_ends_one_session (r : kreq) (w : world) (s : sess_row)
    (ur : user_row) :
  passes_front_line r w → req_page r = PAGE_LOGOUT → store_ok (w_db w) →
  carries_session r (w_db w) s ur →
  ∃ w', main lib plat SECURE r w = Done EXIT_SUCCESS w' ∧
    tbl_sess (w_db w') = filter (λ s', s' ≠ s) (tbl_sess (w_db w)) ∧
    tbl_user (w_db w') = tbl_user (w_db w) ∧
    w_log w' = w_log w ++ [(ur_email ur, "session deleted")] ∧
    (∀ (id token : Z) (res : option user) (w1 : world),
       id ≠ sr_id s ∨ token ≠ sr_token s →
       db_sess_resolve r id token w = Done res w1 →
       ∃ w2, db_sess_resolve r id token w' = Done res w2).
Proof.
  intros Hfront Hpage Hok Hsess.
  rewrite (main_with_session _ _ _ _ Hfront Hok Hsess), Hpage.
  destruct Hsess as (Hs & Hur & Hown & Hsid & Hstok).
  destruct (sess_row_not_absent _ _ Hok Hs) as [Hid Htok].
  assert (∃ ks kt, cookiemap r KEY_SESSID = Some ks ∧ parsed_i ks = sr_id s ∧
                   cookiemap r KEY_SESSTOK = Some kt ∧ parsed_i kt = sr_token s)
    as (ks & kt & Hks & Hksv & Hkt & Hktv).
  { unfold cookie_or_absent in Hsid, Hstok.
    destruct (cookiemap r KEY_SESSID) as [ks|]; [|congruence].
    destruct (cookiemap r KEY_SESSTOK) as [kt|]; [|congruence].
    by exists ks, kt. }
  rewrite (bind_run _ _ _ _ _ (sendlogout_run lib SECURE _ _ _ _ _
                                    (front_line_known _ _ Hfront) Hks Hkt)).
  rewrite Hksv, Hktv. cbn [user_id user_email db_user_fill USER fst snd].
  eexists. split; [reflexivity|].
  cbn [w_db w_log add_log set_db add_sql open_body add_heads tbl_sess
       tbl_user stmt_sess_del].
  split.
  { apply (filter_but_one sr_id); [by apply sess_pk|done| |].
    - intros Hkeep. apply Hkeep. by repeat split.
    - intros y Hy. destruct (decide (sr_id y = sr_id s)) as [|Hn]; [done|].
      exfalso. apply Hy. by intros (? & _). }
  split; [reflexivity|]. split; [reflexivity|].
  intros id token res w1 Hother Hbefore.
  rewrite db_sess_resolve_run in Hbefore. rewrite db_sess_resolve_run.
  destruct (_ || _); injection Hbefore as <- _; [by eexists|].
  eexists. f_equal. unfold stmt_sess_get.
  cbn [w_db add_log set_db add_sql open_body add_heads tbl_sess tbl_user
       stmt_sess_del].
  rewrite filter_filter_keep; [done|].
  intros s' _ [Hi Ht] (Hi' & Ht' & _). destruct Hother; congruence.
Qed.

(** X15.  Login, then logout with the two cookies the login handed
    out: the second run, on the store the first one left, answers the
    logout and leaves the session table and the user table exactly as
    they were before the login. *)
Theorem login_then_logout (r_in r_out : kreq) (w : world)
    (kpi kpp : kpair) (ur : user_row) (now random : Z) :
  passes_front_line r_in w → req_page r_in = PAGE_LOGIN →
  store_ok (w_db w) →
  fieldmap r_in KEY_EMAIL = Some kpi → fieldmap r_in KEY_PASS = Some kpp →
  ur ∈ tbl_user (w_db w) → ur_email ur = parsed_s kpi →
  ¬ wrong_password plat (parsed_s kpp) (ur_hash ur) →
  (method r_out = KMETHOD_GET ∨ method r_out = KMETHOD_POST) →
  req_page r_out = PAGE_LOGOUT → mime r_out = KMIME_APP_JSON →
  cookie_or_absent r_out KEY_SESSID = next_rowid (tbl_sess (w_db w)) →
  cookie_or_absent r_out KEY_SESSTOK = w_random w `mod` 2 ^ 32 →
  ∃ w1 w2,
    main lib plat SECURE r_in w = Done EXIT_SUCCESS w1 ∧
    main lib plat SECURE r_out (next_run (w_db w1) now random)
    = Done EXIT_SUCCESS w2 ∧
    w_head w2 = http_heads lib r_out KHTTP_200 ++
      [ (kresps lib KRESP_SET_COOKIE,
         logout_cookie SECURE "stok" (kutil_epoch2str lib 0 32));
        (kresps lib KRESP_SET_COOKIE,
         logout_cookie SECURE "sid" (kutil_epoch2str lib 0 32)) ] ∧
    tbl_sess (w_db w2) = tbl_sess (w_db w) ∧
    tbl_user (w_db w2) = tbl_user (w_db w).
Proof.
  intros (Hm & Hp & Hj & Ha) Hpage Hok Hi Hpp Hur Hmail Hright
         Hm' Hpage' Hj' Hsid Hstok.
  destruct (db_sess_resolve_total r_in (cookie_or_absent r_in KEY_SESSID)
              (cookie_or_absent r_in KEY_SESSTOK) w)
    as (u0 & w0 & Hres & Hdb & _ & _ & _ & Htime & Hrand).
  rewrite (main_past_front_line lib plat SECURE _ _ _ _ Hm Hp Hj Ha Hres).
  rewrite (bool_decide_eq_false_2 (PAGE_LOGIN ≠ req_page r_in)) by
    (intros H; by apply H).
  cbn [andb]. cbv iota. rewrite Hpage.
  erewrite bind_run;
    [|apply (sendlogin_run lib plat SECURE r_in kpi kpp ur); by rewrite ?Hdb].
  cbv zeta. rewrite Hdb, Hrand, Htime.
  eexists. eexists. split; [reflexivity|].
  set (row := {| sr_id := next_rowid (tbl_sess (w_db w));
                 sr_token := w_random w `mod` 2 ^ 32;
                 sr_userid := ur_id ur |}).
  set (db1 := {| tbl_user := tbl_user (w_db w);
                 tbl_sess := tbl_sess (w_db w) ++ [row];
                 last_rowid := next_rowid (tbl_sess (w_db w)) |}).
  change (w_db (open_body _)) with db1.
  assert (Hok1 : store_ok db1).
  { apply sess_appended_store_ok; [done|by apply (list_elem_of_fmap_2 ur_id)|].
    apply Z.mod_pos_bound. lia. }
  assert (Hrow : row ∈ tbl_sess db1).
  { cbn. apply elem_of_app. right. by apply list_elem_of_singleton. }
  assert (Hsess : carries_session r_out db1 row ur) by by repeat split.
  assert (Hfront : passes_front_line r_out (next_run db1 now random)).
  { repeat split; [done| |done]. by rewrite Hpage'. }
  rewrite (main_with_session r_out (next_run db1 now random) row ur
             Hfront Hok1 Hsess), Hpage'.
  destruct (sess_row_not_absent _ _ Hok1 Hrow) as [Hid Htok].
  assert (∃ ks kt, cookiemap r_out KEY_SESSID = Some ks
                   ∧ parsed_i ks = sr_id row
                   ∧ cookiemap r_out KEY_SESSTOK = Some kt
                   ∧ parsed_i kt = sr_token row)
    as (ks & kt & Hks & Hksv & Hkt & Hktv).
  { unfold cookie_or_absent in Hsid, Hstok.
    destruct (cookiemap r_out KEY_SESSID) as [ks|]; [|by destruct Hid].
    destruct (cookiemap r_out KEY_SESSTOK) as [kt|]; [|by destruct Htok].
    by exists ks, kt. }
  rewrite (bind_run _ _ _ _ _ (sendlogout_run lib SECURE _ _ _ _ _
                                    (front_line_known _ _ Hfront) Hks Hkt)).
  rewrite Hksv, Hktv. split; [reflexivity|].
  split; [reflexivity|]. split; [|reflexivity].
  cbn [w_db add_log set_db add_sql open_body add_heads next_run tbl_sess
       stmt_sess_del db1 user_id db_user_fill USER fst snd].
  rewrite filter_app, filter_all, filter_none.
  - apply app_nil_r.
  - intros s' Hs' Hkeep. apply list_elem_of_singleton in Hs' as ->.
    apply Hkeep. by repeat split.
  - intros s' Hs' (Hsame & _).
    destruct (next_rowid_above (tbl_sess (w_db w))) as [_ Habove].
    rewrite Forall_forall in Habove. specialize (Habove s' Hs').
    cbn in Hsame. lia.
Qed.

(** X16.  A session cookie that is present with the value -1 counts for
    nothing: the run is, step for step, the run of the same request
    without that cookie. *)
Theorem sentinel_cookie_is_no_cookie (r : kreq) (w : world) (k : key)
    (kp : kpair) :
  k = KEY_SESSID ∨ k = KEY_SESSTOK →
  cookiemap r k = Some kp → parsed_i kp = -1 →
  main lib plat SECURE r w = main lib plat SECURE (without_cookie k r) w.
Proof.
  intros Hk Hkp Hval.
  assert (Hres : db_sess_resolve r (cookie_or_absent r KEY_SESSID)
                   (cookie_or_absent r KEY_SESSTOK) w = Done None w).
  { rewrite db_sess_resolve_run. unfold cookie_or_absent.
    destruct Hk as [-> | ->]; rewrite Hkp, Hval; [done|].
    by rewrite orb_true_r. }
  assert (Hres' : db_sess_resolve (without_cookie k r)
                    (cookie_or_absent (without_cookie k r) KEY_SESSID)
                    (cookie_or_absent (without_cookie k r) KEY_SESSTOK) w
                  = Done None w).
  { rewrite db_sess_resolve_run. unfold cookie_or_absent, without_cookie.
    cbn [cookiemap].
    destruct Hk as [-> | ->]; cbn; [done|]. by rewrite orb_true_r. }
  destruct (decide (mime r = KMIME__MAX)) as [Hx|Hx].
  { by rewrite (main_unknown_suffix lib plat SECURE r w Hx),
      (main_unknown_suffix lib plat SECURE (without_cookie k r) w Hx). }
  destruct (decide (method r = KMETHOD_GET ∨ method r = KMETHOD_POST))
    as [Hm|Hm].
  2:{ assert (KMETHOD_GET ≠ method r) by (intros Heq; apply Hm; by left).
      assert (KMETHOD_POST ≠ method r) by (intros Heq; apply Hm; by right).
      by rewrite !main_bad_method. }
  destruct (decide (req_page r = PAGE__MAX ∨ mime r ≠ KMIME_APP_JSON))
    as [Hbad|Hgood].
  { by rewrite !main_not_found. }
  assert (Hp : req_page r ≠ PAGE__MAX) by (intros Hp; apply Hgood; by left).
  assert (Hj : mime r = KMIME_APP_JSON).
  { destruct (decide (mime r = KMIME_APP_JSON)); [done|].
    destruct Hgood. by right. }
  destruct (w_alloc w) eqn:Ha.
  2:{ by rewrite !main_no_store. }
  rewrite (main_past_front_line lib plat SECURE r w w None Hm Hp Hj Ha Hres).
  rewrite (main_past_front_line lib plat SECURE (without_cookie k r) w w None
             Hm Hp Hj Ha Hres').
  cbn [req_page without_cookie].
  destruct (bool_decide (PAGE_LOGIN ≠ req_page r) && bool_decide (None = None))
    eqn:Hgate; [done|].
  destruct (req_page r) eqn:Hpage; try done.
Qed.

(** X17.  Between the two methods let through, [main] makes no
    difference: a request sent with GET and the same request sent with
    POST run alike, on every page, the two profile pages included. *)
Theorem method_makes_no_difference (r : kreq) (w : world) (m : kmethod) :
  method r = KMETHOD_GET ∨ method r = KMETHOD_POST →
  m = KMETHOD_GET ∨ m = KMETHOD_POST →
  main lib plat SECURE (with_method m r) w = main lib plat SECURE r w.
Proof.
  intros Hr Hm. unfold main.
  rewrite (method_test_allowed r Hr).
  rewrite (method_test_allowed (with_method m r) Hm).
  reflexivity.
Qed.

Lemma sendlogin_same_answer (r r' : kreq) (w1 w2 : world) :
  mime r ≠ KMIME__MAX →
  mime r' = mime r → (∀ k, fieldmap r' k = fieldmap r k) →
  w_db w2 = w_db w1 → w_head w2 = w_head w1 → w_body w2 = w_body w1 →
  w_log w2 = w_log w1 → w_time w2 = w_time w1 → w_random w2 = w_random w1 →
  ∃ a b,
    sendlogin lib plat SECURE r w1 = Done () a ∧
    sendlogin lib plat SECURE r' w2 = Done () b ∧
    w_db b = w_db a ∧ w_head b = w_head a ∧ w_body b = w_body a ∧
    w_log b = w_log a.
Proof.
  intros Hk Hmime Hfields Hdb Hhead Hbody Hlog Htime Hrand.
  assert (Hk' : mime r' ≠ KMIME__MAX) by by rewrite Hmime.
  assert (Hheads : ∀ code, http_heads lib r' code = http_heads lib r code).
  { intros code. unfold http_heads. by rewrite Hmime. }
  destruct (fieldmap r KEY_EMAIL) as [kpi|] eqn:Hi;
    [destruct (fieldmap r KEY_PASS) as [kpp|] eqn:Hp|].
  - assert (Hi' : fieldmap r' KEY_EMAIL = Some kpi) by by rewrite Hfields.
    assert (Hp' : fieldmap r' KEY_PASS = Some kpp) by by rewrite Hfields.
    pose proof (db_user_find_run plat (parsed_s kpi) (parsed_s kpp) w1) as H1.
    pose proof (db_user_find_run plat (parsed_s kpi) (parsed_s kpp) w2) as H2.
    rewrite Hdb in H2.
    destruct (match head (stmt_user_lookup (parsed_s kpi) (w_db w1)) with
              | Some (cols, hash) =>
                  if bool_decide (0 = checkpass plat (parsed_s kpp) hash)
                  then None else Some (db_user_fill cols)
              | None => None
              end) as [u0|].
    + destruct (db_user_find_found plat _ _ _ _ _ H1) as [_ Hu1].
      destruct (db_user_find_found plat _ _ _ _ _ H2) as [_ Hu2].
      eexists _, _.
      split; [by apply (sendlogin_found_run lib plat SECURE r kpi kpp u0
                          w1 _ Hi Hp H1)|].
      split; [by apply (sendlogin_found_run lib plat SECURE r' kpi kpp u0
                          w2 _ Hi' Hp' H2)|].
      cbn. rewrite Hdb, Hhead, Hbody, Hlog, Htime, Hrand. by repeat split.
    + eexists _, _.
      split; [by apply (sendlogin_not_found r kpi kpp w1 _ Hk Hi Hp H1)|].
      split; [by apply (sendlogin_not_found r' kpi kpp w2 _ Hk' Hi' Hp' H2)|].
      cbn. rewrite Hdb, Hhead, Hbody, Hlog, Hheads. by repeat split.
  - eexists _, _.
    split; [apply sendlogin_refused; [done|by right]|].
    split; [apply sendlogin_refused; [done|right; by rewrite Hfields]|].
    cbn. rewrite Hdb, Hhead, Hbody, Hlog, Hheads. by repeat split.
  - eexists _, _.
    split; [apply sendlogin_refused; [done|by left]|].
    split; [apply sendlogin_refused; [done|left; by rewrite Hfields]|].
    cbn. rewrite Hdb, Hhead, Hbody, Hlog, Hheads. by repeat split.
Qed.

(** X18.  The login page takes no notice of a session: with whatever
    cookies the request comes, valid, stale or none, the answer, the
    store and the log after the run are the same. *)
Theorem login_ignores_cookies (r : kreq) (w : world)
    (c : key → option kpair) :
  passes_front_line r w → req_page r = PAGE_LOGIN →
  ∃ w1 w2,
    main lib plat SECURE r w = Done EXIT_SUCCESS w1 ∧
    main lib plat SECURE (with_cookies c r) w = Done EXIT_SUCCESS w2 ∧
    w_db w2 = w_db w1 ∧ w_head w2 = w_head w1 ∧ w_body w2 = w_body w1 ∧
    w_log w2 = w_log w1.
Proof.
  intros (Hm & Hp & Hj & Ha) Hpage.
  destruct (db_sess_resolve_total r (cookie_or_absent r KEY_SESSID)
              (cookie_or_absent r KEY_SESSTOK) w)
    as (u1 & w1 & Hres1 & Hdb1 & Hhead1 & Hbody1 & Hlog1 & Htime1 & Hrand1).
  destruct (db_sess_resolve_total (with_cookies c r)
              (cookie_or_absent (with_cookies c r) KEY_SESSID)
              (cookie_or_absent (with_cookies c r) KEY_SESSTOK) w)
    as (u2 & w2 & Hres2 & Hdb2 & Hhead2 & Hbody2 & Hlog2 & Htime2 & Hrand2).
  rewrite (main_past_front_line lib plat SECURE r w w1 u1 Hm Hp Hj Ha Hres1).
  rewrite (main_past_front_line lib plat SECURE (with_cookies c r) w w2 u2
             Hm Hp Hj Ha Hres2).
  cbn [req_page with_cookies].
  rewrite (bool_decide_eq_false_2 (PAGE_LOGIN ≠ req_page r)) by
    (intros H; by apply H).
  cbn [andb]. cbv iota. rewrite Hpage.
  destruct (sendlogin_same_answer r (with_cookies c r) w1 w2)
    as (a & b & Hruna & Hrunb & Hdb & Hhead & Hbody & Hlog);
    [by apply json_known|done|done|congruence..|].
  rewrite (bind_run _ _ _ _ _ Hruna), (bind_run _ _ _ _ _ Hrunb).
  by exists a, b.
Qed.
End runs.

(** ** The build without [crypt_checkpass] *)

Section portable.
Context (lib : kcgi) (SECURE : bool).

(** X19.  On the build without [crypt_checkpass], after a password
    change the user is accepted exactly with the first 63 characters of
    the password that was set.  So the password as it was typed logs in
    when it has at most 63 characters, and is refused when it is
    longer. *)
Theorem portable_password_round_trip (r : kreq) (w : world) (s : sess_row)
    (ur : user_row) (kp : kpair) :
  passes_front_line r w → req_page r = PAGE_USER_MOD_PASS →
  store_ok (w_db w) → carries_session r (w_db w) s ur →
  fieldmap r KEY_PASS = Some kp →
  ∃ w', main lib Portable SECURE r w = Done EXIT_SUCCESS w' ∧
    (∀ pass,
       db_user_find Portable (ur_email ur) pass w'
       = Done (Some {| user_email := ur_email ur; user_id := ur_id ur |})
              (add_sql STMT_USER_LOOKUP w')
       ↔ pass = String.substring 0 63 (parsed_s kp)) ∧
    (db_user_find Portable (ur_email ur) (parsed_s kp) w'
     = Done (Some {| user_email := ur_email ur; user_id := ur_id ur |})
            (add_sql STMT_USER_LOOKUP w')
     ↔ (String.length (parsed_s kp) ≤ 63)%nat).
Proof.
  intros Hfront Hpage Hok Hsess Hkp.
  destruct (password_change_effect lib Portable SECURE r w s ur kp
              Hfront Hpage Hok Hsess Hkp)
    as (w' & Hrun & _ & _ & _ & _ & Hacc & Hrej & _).
  exists w'. split; [exact Hrun|].
  assert (Hiff : ∀ pass,
    db_user_find Portable (ur_email ur) pass w'
    = Done (Some {| user_email := ur_email ur; user_id := ur_id ur |})
           (add_sql STMT_USER_LOOKUP w')
    ↔ pass = strlcpy (parsed_s kp) 64).
  { intros pass. split.
    - intros Hfound.
      destruct (decide (strlcpy (parsed_s kp) 64 = pass)) as [<-|Hne];
        [done|].
      assert (Hnone := Hrej pass Hne). rewrite Hnone in Hfound.
      discriminate Hfound.
    - intros ->. apply Hacc. intros Hwrong. by apply Hwrong. }
  split; [exact Hiff|].
  rewrite Hiff. rewrite <- (strlcpy_same (parsed_s kp) 63).
  split; intros Heq; by symmetry.
Qed.

End portable.

(** ** The build with [crypt_checkpass] *)

(** X20.  On the OpenBSD build a login under the address of a user row
    is decided by [crypt_checkpass] on the password and the hash of that
    row: any result that is not negative accepts and returns the row's
    id and e-mail, a negative one returns no user. *)
Theorem openbsd_login_by_crypt_checkpass
    (cc : string → string → Z) (nh : string → string → nat → string)
    (pass : string) (ur : user_row) (w : world) :
  store_ok (w_db w) → ur ∈ tbl_user (w_db w) →
  (¬ cc pass (ur_hash ur) < 0 →
   db_user_find (OpenBSD cc nh) (ur_email ur) pass w
   = Done (Some {| user_email := ur_email ur; user_id := ur_id ur |})
          (add_sql STMT_USER_LOOKUP w)) ∧
  (cc pass (ur_hash ur) < 0 →
   db_user_find (OpenBSD cc nh) (ur_email ur) pass w
   = Done None (add_sql STMT_USER_LOOKUP w)).
Proof.
  intros Hok Hur. split.
  - intros Hacc. by apply (db_user_find_openbsd_iff cc nh pass ur w Hok Hur).
  - intros Hrej. rewrite db_user_find_run, stmt_user_lookup_known by done.
    cbn. assert (Hwrong : wrong_password (OpenBSD cc nh) pass (ur_hash ur))
      by exact Hrej.
    apply checkpass_wrong in Hwrong. by rewrite Hwrong.
Qed.

(** ** The further theorems at work on the sample store *)

Ltac front_line :=
  split; [first [left; reflexivity | right; reflexivity]|];
  split; [discriminate|]; split; reflexivity.

Ltac alice_session :=
  split; [by_evaluation|]; split; [by_evaluation|];
  split; [reflexivity|]; split; reflexivity.

(** Alice's logout request runs to its end. *)
Lemma main_never_faults_witness :
  ∃ w', main Sample.lib Portable false Sample2.logout Sample.w
        = Done EXIT_SUCCESS w'.
Proof.
  apply (main_never_faults Sample.lib Portable false Sample2.logout Sample.w).
  front_line.
Defined.

(** Alice's login is answered with a body and three headers. *)
Lemma response_shapes_witness :
  ∃ w', main Sample.lib Portable false
          (Sample2.login (Some "alice@example.org") (Some "wonderland"))
          Sample.w = Done EXIT_SUCCESS w' ∧
        is_Some (w_body w').
Proof.
  destruct (response_shapes Sample.lib Portable false
              (Sample2.login (Some "alice@example.org") (Some "wonderland"))
              Sample.w)
    as (w' & Hrun & Hbody & _); [discriminate|].
  exists w'. split; [exact Hrun | exact Hbody].
Defined.

(** A request for [/index.html] is turned away and leaves no line in
    the log. *)
Lemma log_lines_witness :
  ∃ w', main Sample.lib Portable false
          (Sample2.html KMETHOD_GET PAGE_INDEX) Sample.w
        = Done EXIT_SUCCESS w' ∧
        (length (w_log w') ≤ 1)%nat.
Proof.
  destruct (log_lines Sample.lib Portable false
              (Sample2.html KMETHOD_GET PAGE_INDEX) Sample.w)
    as (w' & Hrun & [Hlog | (who & msg & rest & Hlog & _)]);
    [discriminate | |]; exists w'; (split; [exact Hrun|]);
    rewrite Hlog; cbn; lia.
Defined.

Lemma main_keeps_store_ok_witness :
  ∃ w', main Sample.lib Portable false
          (Sample2.login (Some "alice@example.org") (Some "wonderland"))
          Sample.w = Done EXIT_SUCCESS w' ∧
        store_ok (w_db w').
Proof.
  eexists. split; [reflexivity|].
  eapply (main_keeps_store_ok Sample.lib Portable false
            (Sample2.login (Some "alice@example.org") (Some "wonderland"))
            Sample.w).
  - apply store_okb_ok. reflexivity.
  - reflexivity.
Defined.

Lemma main_store_unavailable_witness :
  ∃ w', main Sample.lib Portable false Sample2.index Sample2.w_no_store
        = Done EXIT_SUCCESS w' ∧
        w_head w' = http_heads Sample.lib Sample2.index KHTTP_500 ∧
        w_sql w' = [].
Proof.
  destruct (main_store_unavailable Sample.lib Portable false Sample2.index
              Sample2.w_no_store)
    as (w' & Hrun & Hhead & _ & Hsql & _).
  - left. reflexivity.
  - discriminate.
  - reflexivity.
  - reflexivity.
  - exists w'. split; [exact Hrun|]. split; [exact Hhead | exact Hsql].
Defined.

Lemma index_shows_session_owner_witness :
  ∃ w', main Sample.lib Portable false Sample2.index Sample.w
        = Done EXIT_SUCCESS w' ∧
        w_body w' =
          Some [ KJSON_OPEN; KJSON_OBJ_OPEN; KJSON_OBJP_OPEN "user";
                 KJSON_PUTSTRINGP "email" "alice@example.org";
                 KJSON_PUTINTP "id" 1;
                 KJSON_OBJ_CLOSE; KJSON_OBJ_CLOSE; KJSON_CLOSE ].
Proof.
  destruct (index_shows_session_owner Sample.lib Portable false Sample2.index
              Sample.w Sample.sess7 Sample.alice_row)
    as (w' & Hrun & _ & Hbody & _).
  - front_line.
  - reflexivity.
  - apply store_okb_ok. reflexivity.
  - alice_session.
  - exists w'. split; [exact Hrun | exact Hbody].
Defined.

Lemma email_change_takes_effect_witness :
  ∃ w', main Sample.lib Portable false Sample2.new_email Sample.w
        = Done EXIT_SUCCESS w' ∧
        tbl_user (w_db w') =
          [ {| ur_id := 1; ur_email := "alice@example.net";
               ur_hash := "wonderland" |};
            Sample.bob_row ] ∧
        db_user_find Portable "alice@example.org" "wonderland" w'
        = Done None (add_sql STMT_USER_LOOKUP w').
Proof.
  destruct (email_change_takes_effect Sample.lib Portable false
              Sample2.new_email Sample.w Sample.sess7 Sample.alice_row
              (Sample.pair_s "alice@example.net"))
    as (w' & Hrun & _ & Husers & _ & _ & Hold & _).
  - front_line.
  - reflexivity.
  - apply store_okb_ok. reflexivity.
  - alice_session.
  - reflexivity.
  - apply (proj1 (Forall_forall
                    (λ u, ur_id u ≠ 1 → ur_email u ≠ "alice@example.net") _)).
    by_evaluation.
  - exists w'. split; [exact Hrun|]. split; [exact Husers|].
    apply Hold. discriminate.
Defined.

Lemma password_change_takes_effect_witness :
  ∃ w', main Sample.lib Portable false Sample2.new_pass Sample.w
        = Done EXIT_SUCCESS w' ∧
        tbl_user (w_db w') =
          [ {| ur_id := 1; ur_email := "alice@example.org";
               ur_hash := "tulgey wood" |};
            Sample.bob_row ] ∧
        tbl_sess (w_db w') = [Sample.sess7].
Proof.
  destruct (password_change_takes_effect Sample.lib Portable false
              Sample2.new_pass Sample.w Sample.sess7 Sample.alice_row
              (Sample.pair_s "tulgey wood"))
    as (w' & Hrun & _ & Husers & Hsess & _).
  - front_line.
  - reflexivity.
  - apply store_okb_ok. reflexivity.
  - alice_session.
  - reflexivity.
  - exists w'. split; [exact Hrun|]. split; [exact Husers | exact Hsess].
Defined.

Lemma portable_password_round_trip_witness :
  ∃ w', main Sample.lib Portable false Sample2.new_pass Sample.w
        = Done EXIT_SUCCESS w' ∧
        db_user_find Portable "alice@example.org" "tulgey wood" w'
        = Done (Some Sample.alice) (add_sql STMT_USER_LOOKUP w').
Proof.
  destruct (portable_password_round_trip Sample.lib false
              Sample2.new_pass Sample.w Sample.sess7 Sample.alice_row
              (Sample.pair_s "tulgey wood"))
    as (w' & Hrun & _ & Hself).
  - front_line.
  - reflexivity.
  - apply store_okb_ok. reflexivity.
  - alice_session.
  - reflexivity.
  - exists w'. split; [exact Hrun|]. apply Hself. by_evaluation.
Defined.

Lemma login_refused_leaves_nothing_witness :
  ∃ w', main Sample.lib Portable false
          (Sample2.login (Some "carol@example.org") (Some "builder"))
          Sample.w = Done EXIT_SUCCESS w' ∧
        w_head w' =
          http_heads Sample.lib
            (Sample2.login (Some "carol@example.org") (Some "builder"))
            KHTTP_400 ∧
        w_db w' = Sample.db.
Proof.
  destruct (login_refused_leaves_nothing Sample.lib Portable false
              (Sample2.login (Some "carol@example.org") (Some "builder"))
              Sample.w)
    as (w' & Hrun & Hhead & _ & Hdb & _).
  - front_line.
  - reflexivity.
  - apply store_okb_ok. reflexivity.
  - right. right.
    exists (Sample.pair_s "carol@example.org"), (Sample.pair_s "builder").
    split; [reflexivity|]. split; [reflexivity|]. left.
    intros u Hu. revert u Hu. apply Forall_forall. by_evaluation.
  - exists w'. split; [exact Hrun|]. split; [exact Hhead | exact Hdb].
Defined.

Lemma login_starts_session_witness :
  let r := Sample2.login (Some "alice@example.org") (Some "wonderland") in
  ∃ w', main Sample.lib Portable false r Sample.w = Done EXIT_SUCCESS w' ∧
        db_sess_resolve r 8 12345 w'
        = Done (Some Sample.alice) (add_sql STMT_SESS_GET w') ∧
        db_sess_resolve r 7 99 w'
        = Done (Some Sample.alice) (add_sql STMT_SESS_GET w').
Proof.
  intros r.
  destruct (login_starts_session Sample.lib Portable false r Sample.w
              (Sample.pair_s "alice@example.org")
              (Sample.pair_s "wonderland") Sample.alice_row)
    as (w' & Hrun & _ & _ & _ & Hnew & Hold).
  - front_line.
  - reflexivity.
  - apply store_okb_ok. reflexivity.
  - reflexivity.
  - reflexivity.
  - by_evaluation.
  - reflexivity.
  - unfold wrong_password. by_evaluation.
  - exists w'. split; [exact Hrun|]. split; [exact Hnew|].
    apply (Hold 7 99 Sample.alice (add_sql STMT_SESS_GET Sample.w)).
    reflexivity.
Defined.

Lemma logout_ends_one_session_witness :
  ∃ w', main Sample.lib Portable false Sample2.logout Sample.w
        = Done EXIT_SUCCESS w' ∧
        tbl_sess (w_db w') = [] ∧
        ∃ w2, db_sess_resolve Sample2.logout 8 99 w' = Done None w2.
Proof.
  destruct (logout_ends_one_session Sample.lib Portable false Sample2.logout
              Sample.w Sample.sess7 Sample.alice_row)
    as (w' & Hrun & Hsess & _ & _ & Hother).
  - front_line.
  - reflexivity.
  - apply store_okb_ok. reflexivity.
  - alice_session.
  - exists w'. split; [exact Hrun|]. split; [exact Hsess|].
    apply (Hother 8 99 None (add_sql STMT_SESS_GET Sample.w)).
    + left. discriminate.
    + reflexivity.
Defined.

Lemma tables_written_by_page_witness :
  ∃ w', main Sample.lib Portable false Sample2.index Sample.w
        = Done EXIT_SUCCESS w' ∧
        tbl_user (w_db w') = tbl_user Sample.db ∧
        tbl_sess (w_db w') = tbl_sess Sample.db ∧
        last_rowid (w_db w') = 7.
Proof.
  destruct (tables_written_by_page Sample.lib Portable false Sample2.index
              Sample.w)
    as (w' & Hrun & Husers & Hsess & Hlast & _); [discriminate|].
  exists w'. split; [exact Hrun|].
  split; [apply Husers; discriminate|].
  split; [apply Hsess; discriminate|]. apply Hlast. discriminate.
Defined.

Lemma profile_pages_touch_own_row_witness :
  ∃ w', main Sample.lib Portable false Sample2.new_email Sample.w
        = Done EXIT_SUCCESS w' ∧
        tbl_user (w_db w') !! 1%nat = Some Sample.bob_row ∧
        ur_hash <$> tbl_user (w_db w') = ["wonderland"; "builder"].
Proof.
  destruct (profile_pages_touch_own_row Sample.lib Portable false
              Sample2.new_email Sample.w (add_sql STMT_SESS_GET Sample.w)
              Sample.alice)
    as (w' & Hrun & _ & Hothers & Hhash & _).
  - front_line.
  - reflexivity.
  - left. reflexivity.
  - exists w'. split; [exact Hrun|]. split.
    + apply Hothers; [reflexivity | discriminate].
    + apply Hhash. reflexivity.
Defined.

Lemma statements_stepped_witness :
  let r := Sample.request KMETHOD_GET PAGE_INDEX Sample.no_pairs
             Sample.no_pairs in
  ∃ w', main Sample.lib Portable false r Sample.w = Done EXIT_SUCCESS w' ∧
        w_sql w' = [].
Proof.
  intros r.
  destruct (statements_stepped Sample.lib Portable false r Sample.w)
    as (w' & qs & Hrun & Hsql & _ & _ & _ & Hnone); [discriminate|].
  exists w'. split; [exact Hrun|].
  rewrite Hsql, Hnone; [reflexivity | left; reflexivity | discriminate].
Defined.

Lemma login_then_logout_witness :
  let r_in := Sample2.login (Some "alice@example.org") (Some "wonderland") in
  let r_out := Sample.request KMETHOD_GET PAGE_LOGOUT
                 (Sample.cookies 8 12345) Sample.no_pairs in
  ∃ w1 w2,
    main Sample.lib Portable false r_in Sample.w = Done EXIT_SUCCESS w1 ∧
    main Sample.lib Portable false r_out (next_run (w_db w1) 2000 777)
    = Done EXIT_SUCCESS w2 ∧
    tbl_sess (w_db w2) = [Sample.sess7].
Proof.
  intros r_in r_out.
  destruct (login_then_logout Sample.lib Portable false r_in r_out Sample.w
              (Sample.pair_s "alice@example.org")
              (Sample.pair_s "wonderland") Sample.alice_row 2000 777)
    as (w1 & w2 & Hin & Hout & _ & Hsess & _).
  - front_line.
  - reflexivity.
  - apply store_okb_ok. reflexivity.
  - reflexivity.
  - reflexivity.
  - by_evaluation.
  - reflexivity.
  - unfold wrong_password. by_evaluation.
  - left. reflexivity.
  - reflexivity.
  - reflexivity.
  - reflexivity.
  - reflexivity.
  - exists w1, w2. split; [exact Hin|]. split; [exact Hout | exact Hsess].
Defined.

Lemma sentinel_cookie_is_no_cookie_witness :
  main Sample.lib Portable false Sample2.index_sid_absent Sample.w
  = main Sample.lib Portable false
      (without_cookie KEY_SESSID Sample2.index_sid_absent) Sample.w.
Proof.
  apply (sentinel_cookie_is_no_cookie Sample.lib Portable false
           Sample2.index_sid_absent Sample.w KEY_SESSID (Sample.pair_i (-1))).
  - left. reflexivity.
  - reflexivity.
  - reflexivity.
Defined.

Lemma openbsd_login_by_crypt_checkpass_witness :
  db_user_find SampleBSD.plat "alice@example.org" "wonderland" SampleBSD.w
  = Done (Some Sample.alice) (add_sql STMT_USER_LOOKUP SampleBSD.w) ∧
  db_user_find SampleBSD.plat "alice@example.org" "looking glass" SampleBSD.w
  = Done None (add_sql STMT_USER_LOOKUP SampleBSD.w).
Proof.
  split.
  - apply (proj1 (openbsd_login_by_crypt_checkpass SampleBSD.crypt_checkpass
                    SampleBSD.crypt_newhash "wonderland" SampleBSD.alice_row
                    SampleBSD.w
                    ltac:(apply store_okb_ok; reflexivity)
                    ltac:(by_evaluation))).
    by_evaluation.
  - apply (proj2 (openbsd_login_by_crypt_checkpass SampleBSD.crypt_checkpass
                    SampleBSD.crypt_newhash "looking glass"
                    SampleBSD.alice_row SampleBSD.w
                    ltac:(apply store_okb_ok; reflexivity)
                    ltac:(by_evaluation))).
    by_evaluation.
Defined.

Lemma method_makes_no_difference_witness :
  main Sample.lib Portable false (with_method KMETHOD_GET Sample2.new_pass)
       Sample.w
  = main Sample.lib Portable false Sample2.new_pass Sample.w.
Proof.
  apply (method_makes_no_difference Sample.lib Portable false
           Sample2.new_pass Sample.w KMETHOD_GET).
  - right. reflexivity.
  - left. reflexivity.
Defined.

Lemma login_ignores_cookies_witness :
  let r := Sample2.login (Some "alice@example.org") (Some "wonderland") in
  ∃ w1 w2,
    main Sample.lib Portable false r Sample.w = Done EXIT_SUCCESS w1 ∧
    main Sample.lib Portable false (with_cookies (Sample.cookies 7 99) r)
         Sample.w = Done EXIT_SUCCESS w2 ∧
    w_db w2 = w_db w1 ∧ w_head w2 = w_head w1.
Proof.
  intros r.
  destruct (login_ignores_cookies Sample.lib Portable false r Sample.w
              (Sample.cookies 7 99))
    as (w1 & w2 & Hrun1 & Hrun2 & Hdb & Hhead & _).
  - front_line.
  - reflexivity.
  - exists w1, w2. split; [exact Hrun1|]. split; [exact Hrun2|].
    split; [exact Hdb | exact Hhead].
Defined.
